(** * Verification of the TEC campaign-finance importers

    A shallow embedding of the record normalisation and batch-load code of
    [scripts/import_filers.py], [scripts/import_reports.py],
    [scripts/import_contributions.py], [scripts/import_expenditures.py] and of
    [normalize_city] in [scripts/create_texas_geo_lookup.py].

    Conventions of the embedding.
    - A Python [str] is a Rocq [string]; the character with code [n] stands
      for the code point U+00[n].  Character classes ([str.isspace],
      [str.isdigit], the whitespace accepted by [int]) are those of CPython
      on code points below 256.  [str.upper] is that of CPython on the
      code points whose upper-case form is below 256, all but U+00B5 and
      U+00FF; the statements about upper-casing leave these two out.
    - A raw CSV row ([csv.DictReader] yields a [dict] from column name to
      string) is a [gmap string string]; [row.get(k, '')] is [row_get].  For
      a line shorter than the header the reader stores [None] under the
      columns left out: a [dict_row] can hold it, and the statements that an
      importer reads its whole file are about files without such lines.
    - Python exceptions are explicit: a computation that may raise has type
      [result A]; [try]/[except] is [catch_ValueError] / [catch_Exception].
    - Library code that is not part of the repository ([datetime.strptime],
      [datetime.strftime], [float]) is an interface, [PyLib]; the importers
      are verified for every implementation of it, and a reference
      implementation, [ref_lib], is used to run them. *)

From Stdlib Require Import ZArith Lia Ascii.
From stdpp Require Import base gmap strings list pretty sorting.

Local Open Scope Z_scope.

(** ** Exceptions *)

Inductive exn : Type :=
| ValueError
| OtherException (name : string).

Inductive result (A : Type) : Type :=
| Ok (a : A)
| Raise (e : exn).
Arguments Ok {A} a.
Arguments Raise {A} e.

(** Sequencing: an exception raised by the first computation propagates. *)
#[global] Instance result_bind : MBind result := fun A B f m =>
  match m with
  | Ok a => f a
  | Raise e => Raise e
  end.

(** [try: m except ValueError: h] *)
Definition catch_ValueError {A} (m h : result A) : result A :=
  match m with
  | Raise ValueError => h
  | _ => m
  end.

(** [try: m except Exception: h] *)
Definition catch_Exception {A} (m h : result A) : result A :=
  match m with
  | Raise _ => h
  | _ => m
  end.

Definition returns {A} (m : result A) : Prop := exists a, m = Ok a.

(** ** Python strings *)

Module Py.

Definition ord (c : ascii) : N := N_of_ascii c.

Definition in_range (lo hi : N) (c : ascii) : bool :=
  ((lo <=? ord c) && (ord c <=? hi))%N.

(** [c.isspace()], also the class [\s] of [re] on [str] patterns. *)
Definition isspace (c : ascii) : bool :=
  in_range 9 13 c || in_range 28 32 c || (ord c =? 133)%N || (ord c =? 160)%N.

(** The whitespace that [int] skips around a literal. *)
Definition int_space (c : ascii) : bool :=
  in_range 9 13 c || (ord c =? 32)%N || (ord c =? 133)%N || (ord c =? 160)%N.

(** ASCII decimal digits, the only characters below U+0100 that [int] and the
    class [\d] accept. *)
Definition is_decimal (c : ascii) : bool := in_range 48 57 c.

(** [c.isdigit()]: the decimal digits and the superscripts U+00B2, U+00B3,
    U+00B9. *)
Definition isdigit_char (c : ascii) : bool :=
  is_decimal c || (ord c =? 178)%N || (ord c =? 179)%N || (ord c =? 185)%N.

Definition digit_val (c : ascii) : Z := Z.of_N (ord c) - 48.

(** Truth value of a string: [if s:] *)
Definition truthy (s : string) : bool :=
  match s with
  | EmptyString => false
  | String _ _ => true
  end.

Definition len (s : string) : nat := String.length s.

Fixpoint forallb (p : ascii -> bool) (s : string) : bool :=
  match s with
  | EmptyString => true
  | String c s' => p c && forallb p s'
  end.

(** [s.isdigit()]: false on the empty string. *)
Definition isdigit (s : string) : bool := truthy s && forallb isdigit_char s.

(** [s[a:b]] for non-negative [a], [b]; [s[:b]] is [slice 0 b s]. *)
Definition slice (a b : nat) (s : string) : string :=
  String.substring a (b - a) s.

Fixpoint lstrip_by (p : ascii -> bool) (s : string) : string :=
  match s with
  | EmptyString => EmptyString
  | String c s' => if p c then lstrip_by p s' else s
  end.

Fixpoint rstrip_by (p : ascii -> bool) (s : string) : string :=
  match s with
  | EmptyString => EmptyString
  | String c s' =>
      match rstrip_by p s' with
      | EmptyString => if p c then EmptyString else String c EmptyString
      | r => String c r
      end
  end.

Definition strip_by (p : ascii -> bool) (s : string) : string :=
  rstrip_by p (lstrip_by p s).

(** [s.strip()] *)
Definition strip (s : string) : string := strip_by isspace s.

Fixpoint mem (c : ascii) (chars : string) : bool :=
  match chars with
  | EmptyString => false
  | String d r => Ascii.eqb c d || mem c r
  end.

(** [s.strip(chars)] *)
Definition strip_chars (chars s : string) : string :=
  strip_by (fun c => mem c chars) s.

(** [s.replace(c, '')] for a one-character [c]. *)
Fixpoint remove (c : ascii) (s : string) : string :=
  match s with
  | EmptyString => EmptyString
  | String d s' => if Ascii.eqb d c then remove c s' else String d (remove c s')
  end.

(** The upper-case form of an ASCII letter, any other character as it is:
    the case folding of [re.I] on the ASCII letters of this program's patterns
    and of [float] on the letters of a literal. *)
Definition upper_char (c : ascii) : ascii :=
  if in_range 97 122 c then ascii_of_N (ord c - 32) else c.

Fixpoint upper_ascii (s : string) : string :=
  match s with
  | EmptyString => EmptyString
  | String c s' => String (upper_char c) (upper_ascii s')
  end.

(** [c.upper()] for a character below U+0100: the letters [a] to [z] and
    U+00E0 to U+00FE, the division sign U+00F7 apart, lose 32; the sharp s
    U+00DF becomes [SS]; the others have no upper-case form.  The upper-case
    forms of the micro sign U+00B5 and of U+00FF are U+039C and U+0178, above
    the code points of this development: [upper_below_256] is false on the
    strings that hold one of the two, and they are left in place here. *)
Definition upper_of (c : ascii) : string :=
  if in_range 97 122 c || in_range 224 246 c || in_range 248 254 c
  then String (ascii_of_N (ord c - 32)) EmptyString
  else if (ord c =? 223)%N then "SS"
  else String c EmptyString.

(** [s.upper()] *)
Fixpoint upper (s : string) : string :=
  match s with
  | EmptyString => EmptyString
  | String c s' => upper_of c +:+ upper s'
  end.

(** The upper-case form of every character of [s] is below U+0100. *)
Definition upper_below_256 (s : string) : bool :=
  forallb (fun c => negb ((ord c =? 181) || (ord c =? 255))%N) s.

(** [sep.join(parts)] *)
Fixpoint join (sep : string) (parts : list string) : string :=
  match parts with
  | [] => EmptyString
  | [p] => p
  | p :: rest => p +:+ sep +:+ join sep rest
  end.

(** Digits of an [int] literal after the first one: digits, with single
    underscores allowed between two digits. *)
Fixpoint int_digits (acc : Z) (after_underscore : bool) (s : string) : option Z :=
  match s with
  | EmptyString => if after_underscore then None else Some acc
  | String c s' =>
      if is_decimal c then int_digits (10 * acc + digit_val c) false s'
      else if Ascii.eqb c "_" then
        (if after_underscore then None else int_digits acc true s')
      else None
  end.

Definition int_unsigned (s : string) : option Z :=
  match s with
  | EmptyString => None
  | String c s' => if is_decimal c then int_digits (digit_val c) false s' else None
  end.

Definition int_signed (s : string) : option Z :=
  match s with
  | String "+" s' => int_unsigned s'
  | String "-" s' => Z.opp <$> int_unsigned s'
  | _ => int_unsigned s
  end.

(** [int(s)] in base 10: surrounding whitespace, an optional sign, digits. *)
Definition int (s : string) : result Z :=
  match int_signed (strip_by int_space s) with
  | Some n => Ok n
  | None => Raise ValueError
  end.

End Py.

(** ** Library interface *)

Class PyLib : Type := {
  (** [datetime.datetime] values *)
  datetime : Type;
  (** [datetime.strptime(s, fmt)] *)
  strptime : string -> string -> result datetime;
  (** [dt.strftime(fmt)] *)
  strftime : datetime -> string -> result string;
  (** Python [float] values *)
  pyfloat : Type;
  (** the literal [0.0] *)
  float_zero : pyfloat;
  (** [float(s)] on a string: a value, or [None] for the [ValueError] it
      raises on a malformed literal *)
  float_of_str : string -> option pyfloat
}.

Definition py_float `{PyLib} (s : string) : result pyfloat :=
  match float_of_str s with
  | Some x => Ok x
  | None => Raise ValueError
  end.

(** ** Field parsers *)

Definition MIN_DATE : Z := 20200101.

Section FieldParsers.
Context `{L : PyLib}.

(** [dt = datetime.strptime(date_str[:10], fmt); return dt.strftime('%Y-%m-%d')] *)
Definition try_format (date_str fmt : string) : result string :=
  dt ← strptime (Py.slice 0 10 date_str) fmt;
  strftime dt "%Y-%m-%d".

(** The loop [for fmt in [...]: try: ... except ValueError: continue],
    followed by [return None]. *)
Fixpoint try_formats (date_str : string) (fmts : list string)
  : result (option string) :=
  match fmts with
  | [] => Ok None
  | fmt :: rest =>
      match try_format date_str fmt with
      | Ok s => Ok (Some s)
      | Raise ValueError => try_formats date_str rest
      | Raise e => Raise e
      end
  end.

(** [parse_date], identical in the three importers that define it. *)
Definition parse_date (date_str : string) : result (option string) :=
  if negb (Py.truthy date_str) || (Py.len date_str <? 8)%nat then Ok None
  else
    catch_Exception
      (if (Py.len date_str =? 8)%nat && Py.isdigit date_str then
         Ok (Some (Py.slice 0 4 date_str +:+ "-" +:+ Py.slice 4 6 date_str
                   +:+ "-" +:+ Py.slice 6 8 date_str))
       else try_formats date_str ["%Y%m%d"; "%m/%d/%Y"; "%Y-%m-%d"])
      (Ok None).

(** [clean = amount_str.replace(',', '').replace('$', '').strip()] *)
Definition clean_amount (amount_str : string) : string :=
  Py.strip (Py.remove "$" (Py.remove "," amount_str)).

(** [parse_amount] of [import_contributions.py] and [import_expenditures.py]:
    defaults to [0.0]. *)
Definition parse_amount (amount_str : string) : result pyfloat :=
  if negb (Py.truthy amount_str) then Ok float_zero
  else
    catch_ValueError
      (let clean := clean_amount amount_str in
       if Py.truthy clean then py_float clean else Ok float_zero)
      (Ok float_zero).

(** [parse_amount] of [import_reports.py]: defaults to [None]. *)
Definition parse_amount_opt (amount_str : string) : result (option pyfloat) :=
  if negb (Py.truthy amount_str) then Ok None
  else
    catch_ValueError
      (let clean := clean_amount amount_str in
       if Py.truthy clean then x ← py_float clean; Ok (Some x) else Ok None)
      (Ok None).

(** The received-date check at the head of [parse_report_row],
    [parse_contribution_row] and [parse_expenditure_row]; [Ok true] is the
    early [return None]. *)
Definition before_min_date (received_date_raw : string) : result bool :=
  if Py.truthy received_date_raw then
    catch_ValueError
      (date_int ← (if (8 <=? Py.len received_date_raw)%nat
                   then Py.int (Py.slice 0 8 received_date_raw)
                   else Ok 0);
       Ok (date_int <? MIN_DATE))
      (Ok false)
  else Ok false.

End FieldParsers.

(** ** Regular expressions

    The fragment of Python's [re] that [normalize_city] and the reference
    [strptime] use, with [re]'s backtracking order: alternatives left to
    right, greedy repetition.  Repetition is over a character class, which is
    all the patterns of this program need. *)

Module Re.

Inductive regex : Type :=
| Eps
| Chr (p : ascii -> bool)      (* one character of a class *)
| Cat (r1 r2 : regex)
| Alt (r1 r2 : regex)          (* r1|r2 *)
| Opt (r : regex)              (* r? *)
| Star (p : ascii -> bool)     (* [p]* *)
| Bol                          (* ^ *)
| Eol                          (* $ *)
| Group (i : nat) (r : regex). (* capturing group number i *)

(** [[p]+] *)
Definition Plus (p : ascii -> bool) : regex := Cat (Chr p) (Star p).

Definition chr (c : ascii) : ascii -> bool := fun x => Ascii.eqb x c.

(** A literal character under [re.I]. *)
Definition chr_i (c : ascii) : ascii -> bool :=
  fun x => Ascii.eqb (Py.upper_char x) (Py.upper_char c).

Fixpoint lit_with (cls : ascii -> ascii -> bool) (s : string) : regex :=
  match s with
  | EmptyString => Eps
  | String c EmptyString => Chr (cls c)
  | String c s' => Cat (Chr (cls c)) (lit_with cls s')
  end.

Definition lit : string -> regex := lit_with chr.
Definition lit_i : string -> regex := lit_with chr_i.

Definition captures : Type := list (nat * string).

Fixpoint group (i : nat) (caps : captures) : option string :=
  match caps with
  | [] => None
  | (j, s) :: rest => if (i =? j)%nat then Some s else group i rest
  end.

Definition newline : ascii := ascii_of_N 10.

Section Matcher.
Context {A : Type}.

(** Greedy [[p]*]: take the longest run first, give characters back while the
    continuation fails. *)
Fixpoint star (p : ascii -> bool) (pos : nat) (s : string)
    (k : nat -> string -> option A) : option A :=
  match s with
  | String c s' =>
      if p c then
        match star p (S pos) s' k with
        | Some a => Some a
        | None => k pos s
        end
      else k pos s
  | EmptyString => k pos s
  end.

(** [run r pos s caps k]: match [r] at offset [pos], where [s] is the input
    from [pos] on, then continue with [k] on the rest. *)
Fixpoint run (r : regex) (pos : nat) (s : string) (caps : captures)
    (k : nat -> string -> captures -> option A) : option A :=
  match r with
  | Eps => k pos s caps
  | Chr p =>
      match s with
      | String c s' => if p c then k (S pos) s' caps else None
      | EmptyString => None
      end
  | Cat r1 r2 => run r1 pos s caps (fun pos' s' caps' => run r2 pos' s' caps' k)
  | Alt r1 r2 =>
      match run r1 pos s caps k with
      | Some a => Some a
      | None => run r2 pos s caps k
      end
  | Opt r1 =>
      match run r1 pos s caps k with
      | Some a => Some a
      | None => k pos s caps
      end
  | Star p => star p pos s (fun pos' s' => k pos' s' caps)
  | Bol => if (pos =? 0)%nat then k pos s caps else None
  | Eol =>
      match s with
      | EmptyString => k pos s caps
      | String c EmptyString => if Ascii.eqb c newline then k pos s caps else None
      | _ => None
      end
  | Group i r1 =>
      run r1 pos s caps
        (fun pos' s' caps' =>
           k pos' s' ((i, String.substring 0 (pos' - pos) s) :: caps'))
  end.

End Matcher.

(** [re.match(r, s)]: the end offset and the groups of the first match at the
    start of [s]. *)
Definition match_ (r : regex) (s : string) : option (nat * captures) :=
  run r 0%nat s [] (fun pos' _ caps => Some (pos', caps)).

(** The final continuation of a match started at [pos]: the length matched;
    with [advance], an empty match is refused. *)
Definition report (pos : nat) (advance : bool)
  : nat -> string -> captures -> option nat :=
  fun pos' _ _ =>
    if advance && (pos' =? pos)%nat then None else Some (pos' - pos)%nat.

(** Length of the first match of [r] at offset [pos]; with [advance], of the
    first non-empty one. *)
Definition match_at (r : regex) (pos : nat) (s : string) (advance : bool)
  : option nat :=
  run r pos s [] (report pos advance).

(** [re.sub(r, repl, s)] for a replacement without group references: the
    input from offset [pos] on, of which the first [skip] characters belong to
    the match just replaced. *)
Fixpoint sub_from (r : regex) (repl : string) (pos skip : nat) (s : string)
  : string :=
  match s with
  | EmptyString =>
      match match_at r pos s false with
      | Some _ => repl
      | None => EmptyString
      end
  | String c s' =>
      match skip with
      | S skip' => sub_from r repl (S pos) skip' s'
      | O =>
          match match_at r pos s false with
          | Some (S n) => repl +:+ sub_from r repl (S pos) n s'
          | Some O =>
              repl +:+
              match match_at r pos s true with
              | Some (S n) => repl +:+ sub_from r repl (S pos) n s'
              | _ => String c (sub_from r repl (S pos) O s')
              end
          | None => String c (sub_from r repl (S pos) O s')
          end
      end
  end.

Definition sub (r : regex) (repl s : string) : string :=
  sub_from r repl 0 0 s.

End Re.

(** ** City-name normalisation ([create_texas_geo_lookup.py]) *)

Module Geo.
Import Re.

(** [\s+] *)
Definition re_spaces : regex := Plus Py.isspace.

(** [^FT\.?\s+] *)
Definition re_ft : regex :=
  Cat Bol (Cat (lit "FT") (Cat (Opt (Chr (chr "."))) (Plus Py.isspace))).

(** [^ST\.?\s+] *)
Definition re_st : regex :=
  Cat Bol (Cat (lit "ST") (Cat (Opt (Chr (chr "."))) (Plus Py.isspace))).

(** [,?\s*(TX|TEXAS)$] with [re.I] *)
Definition re_state : regex :=
  Cat (Opt (Chr (chr ",")))
    (Cat (Star Py.isspace)
       (Cat (Group 1 (Alt (lit_i "TX") (lit_i "TEXAS"))) Eol)).

(** [\s+TX\s+USA$] with [re.I] *)
Definition re_tx_usa : regex :=
  Cat (Plus Py.isspace)
    (Cat (lit_i "TX") (Cat (Plus Py.isspace) (Cat (lit_i "USA") Eol))).

Definition normalize_city (city_name : string) : string :=
  if negb (Py.truthy city_name) then ""
  else
    let n := Py.strip (Py.upper city_name) in
    let n := sub re_spaces " " n in
    let n := sub re_ft "FORT " n in
    let n := sub re_st "SAINT " n in
    let n := sub re_state "" n in
    let n := sub re_tx_usa "" n in
    Py.strip n.

End Geo.

(** ** Raw rows

    [csv.DictReader] yields one [dict] per line, from the column names of the
    header to the fields of the line.  When the line has at least as many
    fields as the header, every column holds a string: such a row is a
    [gmap string string], and the importers are embedded on these rows.  When
    the line is shorter, the reader stores [None] under the columns that are
    left out, and [.strip()] on that [None] raises an [AttributeError] that
    nothing catches; a [dict_row] can hold this [None], so that a statement
    can say which files it is about.  (The fields that a longer line has in
    excess are stored under the key [None], which the importers never
    read.) *)

(** [row.get(key, '')] *)
Definition row_get (row : gmap string string) (key : string) : string :=
  default "" (row !! key).

Definition dict_row : Type := gmap string (option string).

(** [row.get(key, '')] on a [dict_row]; [None] is Python's [None]. *)
Definition dict_get (row : dict_row) (key : string) : option string :=
  default (Some "") (row !! key).

(** No column holds [None]: the line had at least as many fields as the
    header. *)
Definition complete_row (row : dict_row) : bool :=
  forallb (fun entry : string * option string =>
             match entry.2 with
             | Some _ => true
             | None => false
             end) (map_to_list row).

Definition complete_file (rows : list dict_row) : bool :=
  forallb complete_row rows.

(** The row of strings that a complete [dict_row] is. *)
Definition row_strings (row : dict_row) : gmap string string := omap id row.

Definition file_strings (rows : list dict_row) : list (gmap string string) :=
  row_strings <$> rows.

(** [a or b] on strings *)
Definition str_or (a b : string) : string := if Py.truthy a then a else b.

(** ** Python sequences: [range] with a step, list slices *)

Section Sequences.
Context {A : Type}.

(** [l[i:j]] *)
Definition list_slice (i j : nat) (l : list A) : list A :=
  take (j - i) (drop i l).

(** [range(0, stop, step)] for a positive [step] *)
Definition range_step (stop : nat) (step : positive) : list nat :=
  let n := Pos.to_nat step in
  (fun k => (k * n)%nat) <$> seq 0 ((stop + n - 1) / n)%nat.

(** [[l[i:i + step] for i in range(0, len(l), step)]] *)
Definition batches (step : positive) (l : list A) : list (list A) :=
  (fun i => list_slice i (i + Pos.to_nat step) l) <$> range_step (length l) step.

End Sequences.

(** ** The store

    [client.table(name).upsert(records).execute()]: succeeds or raises, and
    may change the state of the remote store either way. *)

Class Store (R : Type) : Type := {
  store : Type;
  upsert : list R -> store -> result () * store
}.

(** ** Batch loading ([import_contributions.py], [import_expenditures.py]) *)

Section BatchLoader.
Context {R : Type} `{S : Store R}.

(** The inner [try]: one sub-batch; a failure is printed and skipped. *)
Definition upsert_mini (acc : store * nat) (mini_batch : list R) : store * nat :=
  let '(st, total_imported) := acc in
  match upsert mini_batch st with
  | (Ok _, st') => (st', (total_imported + length mini_batch)%nat)
  | (Raise _, st') => (st', total_imported)
  end.

(** The outer [try]: the whole batch, and on failure its sub-batches. *)
Definition upsert_batch (fallback : positive) (acc : store * nat)
    (batch : list R) : store * nat :=
  let '(st, total_imported) := acc in
  match upsert batch st with
  | (Ok _, st') => (st', (total_imported + length batch)%nat)
  | (Raise _, st') => fold_left upsert_mini (batches fallback batch) (st', total_imported)
  end.

(** [for i in range(0, len(records), BATCH_SIZE): ...] *)
Definition load_batches (batch_size fallback : positive) (records : list R)
    (acc : store * nat) : store * nat :=
  fold_left (upsert_batch fallback) (batches batch_size records) acc.

End BatchLoader.

(** A store that records every call made to an underlying store, with its
    outcome. *)
Definition call_log (R : Type) : Type := list (list R * bool).

Definition is_ok {A} (m : result A) : bool :=
  match m with
  | Ok _ => true
  | Raise _ => false
  end.

Definition logged {R : Type} (S : Store R) : Store R := {|
  store := (@store R S * call_log R)%type;
  upsert := fun records st =>
    let '(r, s') := @upsert R S records (fst st) in
    (r, (s', snd st ++ [(records, is_ok r)]))
|}.

(** The stub of the specification: a stateless store that rejects every batch
    of more than [limit] records. *)
Definition size_limited (R : Type) (limit : nat) : Store R := {|
  store := ();
  upsert := fun records st =>
    if (limit <? length records)%nat
    then (Raise (OtherException "APIError"), st)
    else (Ok (), st)
|}.

(** ** Filers ([import_filers.py]) *)

Module Filer.
Record t : Type := mk {
  id : string;
  name : string;
  type : string;
  party : option string;
  office_held : string;
  office_district : string;
  office_county : string;
  status : string;
  city : string;
  state : string
}.
End Filer.

Definition parse_filer_row (row : gmap string string) : Filer.t :=
  let name := row_get row "filerName" in
  let name :=
    if negb (Py.truthy name) then
      let first := row_get row "filerNameFirst" in
      let last := row_get row "filerNameLast" in
      let suffix := row_get row "filerNameSuffixCd" in
      if Py.truthy first || Py.truthy last then
        let name := Py.strip_chars ", " (last +:+ ", " +:+ first) in
        if Py.truthy suffix then name +:+ " " +:+ suffix else name
      else name
    else name in
  {| Filer.id := row_get row "filerIdent";
     Filer.name := name;
     Filer.type := row_get row "filerTypeCd";
     Filer.party := None;
     Filer.office_held :=
       str_or (row_get row "filerHoldOfficeCd") (row_get row "ctaSeekOfficeCd");
     Filer.office_district :=
       str_or (row_get row "filerHoldOfficeDistrict")
              (row_get row "ctaSeekOfficeDistrict");
     Filer.office_county :=
       str_or (row_get row "filerHoldOfficeCountyDescr")
              (row_get row "ctaSeekOfficeCountyDescr");
     Filer.status :=
       str_or (row_get row "filerFilerpersStatusCd") (row_get row "committeeStatusCd");
     Filer.city := row_get row "filerStreetCity";
     Filer.state := row_get row "filerStreetStateCd" |}.

(** One iteration of [for row in reader] in [import_filers]; the state is
    the list [filers] and the set [seen_ids]. *)
Definition filers_step (st : list Filer.t * gset string)
    (row : gmap string string) : list Filer.t * gset string :=
  let '(filers, seen_ids) := st in
  let filer_id := row_get row "filerIdent" in
  if negb (Py.truthy filer_id) || bool_decide (filer_id ∈ seen_ids) then st
  else
    let seen_ids := {[filer_id]} ∪ seen_ids in
    let filer := parse_filer_row row in
    if negb (Py.truthy (Filer.name filer)) then (filers, seen_ids)
    else (filers ++ [filer], seen_ids).

Definition read_filers (rows : list (gmap string string))
  : list Filer.t * gset string :=
  fold_left filers_step rows ([], ∅).

(** ** Reports ([import_reports.py]) *)

Module Report.
Section Rec.
Context {pyfloat : Type}.
Record t : Type := mk {
  id : string;
  filer_id : string;
  filer_name : string;
  report_type : option string;
  period_start : option string;
  period_end : option string;
  filed_date : option string;
  received_date : option string;
  total_contributions : option pyfloat;
  total_expenditures : option pyfloat;
  cash_on_hand : option pyfloat
}.
End Rec.
Arguments t : clear implicits.
End Report.

(** The column read at iteration [i]: [f'reportTypeCd{i}'] *)
Definition report_type_column (i : nat) : string := "reportTypeCd" +:+ pretty i.

(** One iteration of [for i in range(1, 11)] *)
Definition report_types_step (row : gmap string string)
    (report_types : list string) (i : nat) : list string :=
  let rt := Py.strip (row_get row (report_type_column i)) in
  if Py.truthy rt then report_types ++ [rt] else report_types.

Definition collect_report_types (row : gmap string string) : list string :=
  fold_left (report_types_step row) (seq 1 10) [].

(** [', '.join(report_types) if report_types else None] *)
Definition build_report_type (row : gmap string string) : option string :=
  match collect_report_types row with
  | [] => None
  | report_types => Some (Py.join ", " report_types)
  end.

Section Reports.
Context `{L : PyLib}.

Definition parse_report_row (row : gmap string string)
  : result (option (Report.t pyfloat)) :=
  let received_date_raw := row_get row "receivedDt" in
  skip ← before_min_date received_date_raw;
  if (skip : bool) then Ok None
  else
    let report_id := row_get row "reportInfoIdent" in
    if negb (Py.truthy report_id) then Ok None
    else
      let report_type := build_report_type row in
      period_start ← parse_date (row_get row "periodStartDt");
      period_end ← parse_date (row_get row "periodEndDt");
      filed_date ← parse_date (row_get row "filedDt");
      received_date ← parse_date received_date_raw;
      total_contributions ← parse_amount_opt (row_get row "totalContribAmount");
      total_expenditures ← parse_amount_opt (row_get row "totalExpendAmount");
      cash_on_hand ← parse_amount_opt (row_get row "contribsMaintainedAmount");
      Ok (Some {| Report.id := report_id;
                  Report.filer_id := row_get row "filerIdent";
                  Report.filer_name := row_get row "filerName";
                  Report.report_type := report_type;
                  Report.period_start := period_start;
                  Report.period_end := period_end;
                  Report.filed_date := filed_date;
                  Report.received_date := received_date;
                  Report.total_contributions := total_contributions;
                  Report.total_expenditures := total_expenditures;
                  Report.cash_on_hand := cash_on_hand |}).

End Reports.

(** ** Reading a file: the loop shared by the report, contribution and
    expenditure importers

    [for row in reader: rec = parse(row); if rec: out.append(rec) else:
    skipped += 1].  An exception raised by [parse] leaves the loop. *)

Section ReadRows.
Context {R : Type} (parse : gmap string string -> result (option R)).

Definition read_step (st : list R * nat) (row : gmap string string)
  : result (list R * nat) :=
  rec ← parse row;
  match rec with
  | Some r => Ok (st.1 ++ [r], st.2)
  | None => Ok (st.1, S st.2)
  end.

Fixpoint read_from (st : list R * nat) (rows : list (gmap string string))
  : result (list R * nat) :=
  match rows with
  | [] => Ok st
  | row :: rest => st' ← read_step st row; read_from st' rest
  end.

Definition read_rows (rows : list (gmap string string)) : result (list R * nat) :=
  read_from ([], 0%nat) rows.

End ReadRows.

(** ** Contributions ([import_contributions.py]) *)

Module Contribution.
Section Rec.
Context {pyfloat : Type}.
Record t : Type := mk {
  id : string;
  filer_id : string;
  filer_name : string;
  contributor_name : string;
  contributor_type : string;
  contributor_city : string;
  contributor_state : string;
  contributor_employer : string;
  contributor_occupation : string;
  amount : pyfloat;
  date : option string;
  description : string;
  report_id : string;
  received_date : option string
}.
End Rec.
Arguments t : clear implicits.
End Contribution.

(** The name assembly shared by [build_contributor_name] and
    [build_payee_name], on the four raw fields. *)
Definition build_name (org_raw last_raw first_raw suffix_raw : string) : string :=
  let org := Py.strip org_raw in
  if Py.truthy org then org
  else
    let last := Py.strip last_raw in
    let first := Py.strip first_raw in
    let suffix := Py.strip suffix_raw in
    if Py.truthy last && Py.truthy first then
      let name := last +:+ ", " +:+ first in
      if Py.truthy suffix then name +:+ " " +:+ suffix else name
    else if Py.truthy last then last
    else if Py.truthy first then first
    else "Unknown".

Definition build_contributor_name (row : gmap string string) : string :=
  build_name (row_get row "contributorNameOrganization")
             (row_get row "contributorNameLast")
             (row_get row "contributorNameFirst")
             (row_get row "contributorNameSuffixCd").

Section Contributions.
Context `{L : PyLib}.

Definition parse_contribution_row (row : gmap string string)
  : result (option (Contribution.t pyfloat)) :=
  let received_date_raw := row_get row "receivedDt" in
  skip ← before_min_date received_date_raw;
  if (skip : bool) then Ok None
  else
    let contribution_id := row_get row "contributionInfoId" in
    if negb (Py.truthy contribution_id) then Ok None
    else
      amount ← parse_amount (row_get row "contributionAmount");
      date ← parse_date (row_get row "contributionDt");
      received_date ← parse_date received_date_raw;
      Ok (Some {| Contribution.id := contribution_id;
                  Contribution.filer_id := row_get row "filerIdent";
                  Contribution.filer_name := row_get row "filerName";
                  Contribution.contributor_name := build_contributor_name row;
                  Contribution.contributor_type := row_get row "contributorPersentTypeCd";
                  Contribution.contributor_city := row_get row "contributorStreetCity";
                  Contribution.contributor_state := row_get row "contributorStreetStateCd";
                  Contribution.contributor_employer := row_get row "contributorEmployer";
                  Contribution.contributor_occupation := row_get row "contributorOccupation";
                  Contribution.amount := amount;
                  Contribution.date := date;
                  Contribution.description := row_get row "contributionDescr";
                  Contribution.report_id := row_get row "reportInfoIdent";
                  Contribution.received_date := received_date |}).

Definition BATCH_SIZE : positive := 1000.
Definition MINI_BATCH_SIZE : positive := 100.

(** One iteration of [for csv_path in csv_files] in [import_contributions];
    the state is the store, [total_imported] and [total_skipped]. *)
Definition import_contributions_file `{S : Store (Contribution.t pyfloat)}
    (st : store * nat * nat) (rows : list (gmap string string))
  : result (store * nat * nat) :=
  let '(s, total_imported, total_skipped) := st in
  '(contributions, file_skipped) ← read_rows parse_contribution_row rows;
  let total_skipped := (total_skipped + file_skipped)%nat in
  let '(s, total_imported) :=
    load_batches BATCH_SIZE MINI_BATCH_SIZE contributions (s, total_imported) in
  Ok (s, total_imported, total_skipped).

(** [import_contributions]: the files in turn ([sorted(glob.glob(...))]), the
    totals carried from one to the next. *)
Fixpoint import_contributions_files `{S : Store (Contribution.t pyfloat)}
    (st : store * nat * nat) (files : list (list (gmap string string)))
  : result (store * nat * nat) :=
  match files with
  | [] => Ok st
  | rows :: rest =>
      st' ← import_contributions_file st rows;
      import_contributions_files st' rest
  end.

Definition import_contributions `{S : Store (Contribution.t pyfloat)} (s : store)
    (files : list (list (gmap string string))) : result (store * nat * nat) :=
  import_contributions_files (s, 0%nat, 0%nat) files.

End Contributions.

(** ** Expenditures ([import_expenditures.py]) *)

Module Expenditure.
Section Rec.
Context {pyfloat : Type}.
Record t : Type := mk {
  id : string;
  filer_id : string;
  filer_name : string;
  payee_name : string;
  payee_city : string;
  payee_state : string;
  amount : pyfloat;
  date : option string;
  category : string;
  description : string;
  report_id : string;
  received_date : option string
}.
End Rec.
Arguments t : clear implicits.
End Expenditure.

Definition build_payee_name (row : gmap string string) : string :=
  build_name (row_get row "payeeNameOrganization")
             (row_get row "payeeNameLast")
             (row_get row "payeeNameFirst")
             (row_get row "payeeNameSuffixCd").

Section Expenditures.
Context `{L : PyLib}.

Definition parse_expenditure_row (row : gmap string string)
  : result (option (Expenditure.t pyfloat)) :=
  let received_date_raw := row_get row "receivedDt" in
  skip ← before_min_date received_date_raw;
  if (skip : bool) then Ok None
  else
    let expend_id := row_get row "expendInfoId" in
    if negb (Py.truthy expend_id) then Ok None
    else
      amount ← parse_amount (row_get row "expendAmount");
      date ← parse_date (row_get row "expendDt");
      received_date ← parse_date received_date_raw;
      Ok (Some {| Expenditure.id := expend_id;
                  Expenditure.filer_id := row_get row "filerIdent";
                  Expenditure.filer_name := row_get row "filerName";
                  Expenditure.payee_name := build_payee_name row;
                  Expenditure.payee_city := row_get row "payeeStreetCity";
                  Expenditure.payee_state := row_get row "payeeStreetStateCd";
                  Expenditure.amount := amount;
                  Expenditure.date := date;
                  Expenditure.category :=
                    str_or (row_get row "expendCatCd") (row_get row "expendCatDescr");
                  Expenditure.description := row_get row "expendDescr";
                  Expenditure.report_id := row_get row "reportInfoIdent";
                  Expenditure.received_date := received_date |}).

(** One iteration of [for csv_path in csv_files] in [import_expenditures]. *)
Definition import_expenditures_file `{S : Store (Expenditure.t pyfloat)}
    (st : store * nat * nat) (rows : list (gmap string string))
  : result (store * nat * nat) :=
  let '(s, total_imported, total_skipped) := st in
  '(expenditures, file_skipped) ← read_rows parse_expenditure_row rows;
  let total_skipped := (total_skipped + file_skipped)%nat in
  let '(s, total_imported) :=
    load_batches BATCH_SIZE MINI_BATCH_SIZE expenditures (s, total_imported) in
  Ok (s, total_imported, total_skipped).

Fixpoint import_expenditures_files `{S : Store (Expenditure.t pyfloat)}
    (st : store * nat * nat) (files : list (list (gmap string string)))
  : result (store * nat * nat) :=
  match files with
  | [] => Ok st
  | rows :: rest =>
      st' ← import_expenditures_file st rows;
      import_expenditures_files st' rest
  end.

Definition import_expenditures `{S : Store (Expenditure.t pyfloat)} (s : store)
    (files : list (list (gmap string string))) : result (store * nat * nat) :=
  import_expenditures_files (s, 0%nat, 0%nat) files.

End Expenditures.

(** ** The geographic lookup ([create_texas_geo_lookup.py]) *)

Module GeoLookup.

(** [TEXAS_REGIONS], in the order of the dict literal. *)
Definition TEXAS_REGIONS : list (string * list string) :=
  [("DFW", ["Collin"; "Dallas"; "Denton"; "Ellis"; "Hunt"; "Kaufman"; "Rockwall";
            "Tarrant"; "Johnson"; "Parker"; "Wise"; "Hood"; "Somervell"]);
   ("Houston", ["Harris"; "Fort Bend"; "Montgomery"; "Brazoria"; "Galveston";
                "Chambers"; "Liberty"; "Waller"; "Austin"]);
   ("San Antonio", ["Bexar"; "Comal"; "Guadalupe"; "Kendall"; "Medina";
                    "Wilson"; "Atascosa"; "Bandera"]);
   ("Austin", ["Travis"; "Williamson"; "Hays"; "Bastrop"; "Caldwell"]);
   ("El Paso", ["El Paso"; "Hudspeth"]);
   ("Rio Grande Valley", ["Cameron"; "Hidalgo"; "Starr"; "Willacy"])].

(** [for region, counties in regions.items(): if county in counties: return
    region], then [return None]. *)
Fixpoint region_in (regions : list (string * list string)) (county : string)
  : option string :=
  match regions with
  | [] => None
  | (region, counties) :: rest =>
      if bool_decide (county ∈ counties) then Some region
      else region_in rest county
  end.

Definition get_region_for_county (county : string) : option string :=
  region_in TEXAS_REGIONS county.

(** The value stored for a city. *)
Record entry : Type := mk_entry {
  county : string;
  county_fips : string;
  region : option string
}.

(** One iteration of [for row in reader] in [main]; the state is the dict
    [cities] and the set [counties]. *)
Definition main_step (st : gmap string entry * gset string)
    (row : gmap string string) : gmap string entry * gset string :=
  let '(cities, counties) := st in
  if negb (bool_decide (row !! "state_id" = Some "TX")) then st
  else
    let city := Py.strip (row_get row "city") in
    let county := Py.strip (row_get row "county_name") in
    let county_fips := Py.strip (row_get row "county_fips") in
    if negb (Py.truthy city) || negb (Py.truthy county) then st
    else
      let counties := {[county]} ∪ counties in
      let region := get_region_for_county county in
      let normalized := Geo.normalize_city city in
      match cities !! normalized with
      | Some _ => (cities, counties)
      | None =>
          (<[normalized := {| county := county;
                              county_fips := county_fips;
                              region := region |}]> cities,
           counties)
      end.

Definition read_cities (rows : list (gmap string string))
  : gmap string entry * gset string :=
  fold_left main_step rows (∅, ∅).

(** The object written to the output file. *)
Record output : Type := mk_output {
  out_cities : gmap string entry;
  out_counties : list string;
  out_regions : list (string * list string);
  out_attribution : string;
  out_last_updated : string
}.

(** [sorted(counties)]: strings in increasing order of their code points. *)
Definition sorted (strings : gset string) : list string :=
  merge_sort String.le (elements strings).

(** [main]: nothing is written when the input file does not exist. *)
Definition main (input : option (list (gmap string string))) : option output :=
  match input with
  | None => None
  | Some rows =>
      let '(cities, counties) := read_cities rows in
      Some {| out_cities := cities;
              out_counties := sorted counties;
              out_regions := TEXAS_REGIONS;
              out_attribution := "City data from Simplemaps.com (CC-BY 4.0)";
              out_last_updated := "2026-01-26" |}
  end.

End GeoLookup.

(** ** Loading with a record-by-record fallback ([import_filers.py],
    [import_reports.py])

    [client.table(name).upsert(x).execute()] is called with a list of records
    and, in the fallback, with one record. *)

Inductive payload (R : Type) : Type :=
| Rows (records : list R)
| Row (record : R).
Arguments Rows {R} records.
Arguments Row {R} record.

Class Client (R : Type) : Type := {
  client : Type;
  execute : payload R -> client -> result () * client
}.

Section SingleLoader.
Context {R : Type} `{C : Client R}.

(** The inner [try]: one record; a failure is printed and skipped. *)
Definition upsert_single (acc : client * nat) (record : R) : client * nat :=
  let '(st, total_inserted) := acc in
  match execute (Row record) st with
  | (Ok _, st') => (st', S total_inserted)
  | (Raise _, st') => (st', total_inserted)
  end.

(** The outer [try]: the whole batch, and on failure its records one by
    one. *)
Definition upsert_batch_singly (acc : client * nat) (batch : list R)
  : client * nat :=
  let '(st, total_inserted) := acc in
  match execute (Rows batch) st with
  | (Ok _, st') => (st', (total_inserted + length batch)%nat)
  | (Raise _, st') => fold_left upsert_single batch (st', total_inserted)
  end.

Definition load_singly (batch_size : positive) (records : list R)
    (acc : client * nat) : client * nat :=
  fold_left upsert_batch_singly (batches batch_size records) acc.

End SingleLoader.

(** [BATCH_SIZE] of [import_filers.py] and of [import_reports.py]. *)
Definition SMALL_BATCH_SIZE : positive := 500.

(** [import_filers]: returns at once when [cand.csv] does not exist;
    otherwise the store after the run and [total_inserted]. *)
Definition import_filers `{C : Client Filer.t} (s : client)
    (file : option (list (gmap string string))) : client * option nat :=
  match file with
  | None => (s, None)
  | Some rows =>
      let '(filers, _) := read_filers rows in
      let '(s', total_inserted) := load_singly SMALL_BATCH_SIZE filers (s, 0%nat) in
      (s', Some total_inserted)
  end.

(** [import_reports]: the same with [cover.csv] and [parse_report_row]. *)
Definition import_reports `{L : PyLib} `{C : Client (Report.t pyfloat)}
    (s : client) (file : option (list (gmap string string)))
  : result (client * option nat) :=
  match file with
  | None => Ok (s, None)
  | Some rows =>
      '(reports, skipped) ← read_rows parse_report_row rows;
      let '(s', total_imported) := load_singly SMALL_BATCH_SIZE reports (s, 0%nat) in
      Ok (s', Some total_imported)
  end.

(** A client that records the payloads sent to an underlying client, with
    their outcomes. *)
Definition logged_client {R : Type} (C : Client R) : Client R := {|
  client := (@client R C * list (payload R * bool))%type;
  execute := fun p st =>
    let '(r, s') := @execute R C p (fst st) in
    (r, (s', snd st ++ [(p, is_ok r)]))
|}.

(** A client that rejects every list of more than [limit] records and
    accepts single records. *)
Definition list_limited (R : Type) (limit : nat) : Client R := {|
  client := ();
  execute := fun p st =>
    match p with
    | Rows records =>
        if (limit <? length records)%nat
        then (Raise (OtherException "APIError"), st)
        else (Ok (), st)
    | Row _ => (Ok (), st)
    end
|}.

(** ** A reference implementation of the library interface

    [strptime] and [strftime] follow CPython's [_strptime] for formats built
    from the directives [%Y], [%m], [%d] and non-blank literal characters
    (the only ones this program uses) and the C library's [strftime] as
    glibc implements it ([%Y] is not padded).  [float] yields the exact
    decimal value of the literal: rounding to a binary double is not part of
    this implementation. *)

Module Ref.
Import Re.

Definition digit19 : ascii -> bool := Py.in_range 49 57.

(** [(?P<Y>\d\d\d\d)] *)
Definition re_Y : regex :=
  Group 0 (Cat (Chr Py.is_decimal) (Cat (Chr Py.is_decimal)
          (Cat (Chr Py.is_decimal) (Chr Py.is_decimal)))).

(** [(?P<m>1[0-2]|0[1-9]|[1-9])] *)
Definition re_m : regex :=
  Group 1 (Alt (Cat (Chr (chr "1")) (Chr (Py.in_range 48 50)))
          (Alt (Cat (Chr (chr "0")) (Chr digit19))
               (Chr digit19))).

(** [(?P<d>3[0-1]|[1-2]\d|0[1-9]|[1-9]| [1-9])] *)
Definition re_d : regex :=
  Group 2 (Alt (Cat (Chr (chr "3")) (Chr (Py.in_range 48 49)))
          (Alt (Cat (Chr (Py.in_range 49 50)) (Chr Py.is_decimal))
          (Alt (Cat (Chr (chr "0")) (Chr digit19))
          (Alt (Chr digit19)
               (Cat (Chr (chr " ")) (Chr digit19)))))).

Definition directive (d : ascii) : option regex :=
  if Ascii.eqb d "Y" then Some re_Y
  else if Ascii.eqb d "m" then Some re_m
  else if Ascii.eqb d "d" then Some re_d
  else None.

(** The pattern [_strptime] compiles (with [re.IGNORECASE]) for a format. *)
Fixpoint format_regex (fmt : string) : option regex :=
  match fmt with
  | EmptyString => Some Eps
  | String c rest =>
      if Ascii.eqb c "%" then
        match rest with
        | String d rest' =>
            r ← directive d; r' ← format_regex rest'; Some (Cat r r')
        | EmptyString => None
        end
      else if Py.isspace c then None
      else r' ← format_regex rest; Some (Cat (Chr (chr_i c)) r')
  end.

Definition unsupported {A} : result A := Raise (OtherException "NotImplementedError").

Definition group_int (i : nat) (caps : captures) (default : Z) : result Z :=
  match group i caps with
  | Some s => Py.int s
  | None => Ok default
  end.

Definition is_leap (year : Z) : bool :=
  (year mod 4 =? 0) && (negb (year mod 100 =? 0) || (year mod 400 =? 0)).

Definition days_in_month (year month : Z) : Z :=
  if month =? 2 then (if is_leap year then 29 else 28)
  else if (month =? 4) || (month =? 6) || (month =? 9) || (month =? 11) then 30
  else 31.

(** [datetime.date(year, month, day)] accepts the triple. *)
Definition valid_date (year month day : Z) : bool :=
  (1 <=? year) && (year <=? 9999) && (1 <=? month) && (month <=? 12)
  && (1 <=? day) && (day <=? days_in_month year month).

Definition strptime (s fmt : string) : result (Z * Z * Z) :=
  match format_regex fmt with
  | None => unsupported
  | Some r =>
      match match_ r s with
      | None => Raise ValueError           (* does not match format *)
      | Some (stop, caps) =>
          if negb (stop =? Py.len s)%nat then Raise ValueError (* unconverted data *)
          else
            month ← group_int 1 caps 1;
            day ← group_int 2 caps 1;
            year ← group_int 0 caps
                     (if (month =? 2) && (day =? 29) then 1904 else 1900);
            if valid_date year month day then Ok (year, month, day)
            else Raise ValueError
      end
  end.

Definition pad2 (n : Z) : string :=
  if n <? 10 then "0" +:+ pretty n else pretty n.

Fixpoint strftime (dt : Z * Z * Z) (fmt : string) : result string :=
  let '(year, month, day) := dt in
  match fmt with
  | EmptyString => Ok EmptyString
  | String c rest =>
      if Ascii.eqb c "%" then
        match rest with
        | String d rest' =>
            field ← (if Ascii.eqb d "Y" then Ok (pretty year)
                     else if Ascii.eqb d "m" then Ok (pad2 month)
                     else if Ascii.eqb d "d" then Ok (pad2 day)
                     else unsupported);
            tail ← strftime dt rest';
            Ok (field +:+ tail)
        | EmptyString => unsupported
        end
      else tail ← strftime dt rest; Ok (String c tail)
  end.

(** Values of [float]: a signed decimal [mantissa * 10 ^ exp10] in lowest
    terms, an infinity, or a NaN. *)
Inductive float_val : Type :=
| Finite (neg : bool) (mantissa : N) (exp10 : Z)
| Infinity (neg : bool)
| NaN.

(** Underscores of a numeric literal: each one between two digits. *)
Fixpoint underscores_ok (prev : ascii) (s : string) : bool :=
  match s with
  | EmptyString => negb (Ascii.eqb prev "_")
  | String c s' =>
      (if Ascii.eqb c "_" then Py.is_decimal prev
       else negb (Ascii.eqb prev "_") || Py.is_decimal c)
      && underscores_ok c s'
  end.

(** A run of digits: its value appended to [acc], the number of digits read
    and the rest of the input. *)
Fixpoint digits (acc : N) (count : nat) (s : string) : N * nat * string :=
  match s with
  | String c s' =>
      if Py.is_decimal c
      then digits (10 * acc + (Py.ord c - 48))%N (S count) s'
      else (acc, count, s)
  | EmptyString => (acc, count, s)
  end.

Definition exponent (s : string) : option Z :=
  match s with
  | EmptyString => Some 0
  | String c s' =>
      if Ascii.eqb (Py.upper_char c) "E" then
        let '(neg, s'') :=
          match s' with
          | String "+" t => (false, t)
          | String "-" t => (true, t)
          | _ => (false, s')
          end in
        match digits 0 0 s'' with
        | (_, O, _) => None
        | (e, _, EmptyString) => Some (if neg then - Z.of_N e else Z.of_N e)
        | _ => None
        end
      else None
  end.

(** Lowest terms: no trailing zero in the mantissa; [fuel] bounds the number
    of zeros removed. *)
Fixpoint normalize (fuel : nat) (m : N) (e : Z) : N * Z :=
  match fuel with
  | O => (m, e)
  | S fuel' =>
      if (m =? 0)%N then (0%N, 0)
      else if (m mod 10 =? 0)%N then normalize fuel' (m / 10)%N (e + 1)
      else (m, e)
  end.

Definition finite (neg : bool) (m : N) (e : Z) : float_val :=
  let '(m', e') := normalize (N.to_nat (N.log2 m) + 1) m e in
  Finite neg m' e'.

(** [number [exponent]], underscores removed. *)
Definition float_number (neg : bool) (s : string) : option float_val :=
  let '(ip, ni, rest) := digits 0 0 s in
  let '(m, nf, rest) :=
    match rest with
    | String "." t => digits ip 0 t
    | _ => (ip, O, rest)
    end in
  if (ni + nf =? 0)%nat then None
  else e ← exponent rest; Some (finite neg m (e - Z.of_nat nf)).

Definition float_of_str (s : string) : option float_val :=
  let t := Py.strip_by Py.int_space s in
  let '(neg, body) :=
    match t with
    | String "+" r => (false, r)
    | String "-" r => (true, r)
    | _ => (false, t)
    end in
  let name := Py.upper_ascii body in
  if bool_decide (name = "INF") || bool_decide (name = "INFINITY") then Some (Infinity neg)
  else if bool_decide (name = "NAN") then Some NaN
  else if underscores_ok "000" body then float_number neg (Py.remove "_" body)
  else None.

End Ref.

#[local] Instance ref_lib : PyLib := {|
  datetime := Z * Z * Z;
  strptime := Ref.strptime;
  strftime := Ref.strftime;
  pyfloat := Ref.float_val;
  float_zero := Ref.Finite false 0 0;
  float_of_str := Ref.float_of_str
|}.

(** * Statements of the specification

    Definitions that follow the words of the specification, to be compared
    with the code above. *)

(** "The same string with those characters removed": [s] without any
    character of [chars]. *)
Fixpoint without_chars (chars s : string) : string :=
  match s with
  | EmptyString => EmptyString
  | String c s' =>
      if Py.mem c chars then without_chars chars s'
      else String c (without_chars chars s')
  end.

(** The amount "with those characters removed", the whitespace around it
    apart. *)
Definition bare_amount (amount_str : string) : string :=
  Py.strip (without_chars "$," amount_str).

(** What [float] makes of the bare amount; [None] when nothing is left of
    the amount or when [float] rejects it. *)
Definition amount_literal `{L : PyLib} (amount_str : string) : option pyfloat :=
  if Py.truthy (bare_amount amount_str)
  then float_of_str (bare_amount amount_str)
  else None.

(** The received-date filter lets the raw value through: the early
    [return None] is not taken. *)
Definition passes_date_filter (received_date_raw : string) : Prop :=
  before_min_date received_date_raw = Ok false.

(** The received-date filter rejects the row. *)
Definition rejected_by_date (received_date_raw : string) : Prop :=
  before_min_date received_date_raw = Ok true.

(** "Cannot be parsed as an integer YYYYMMDD value from at least its first 8
    characters (including strings shorter than 8 characters and non-numeric
    strings)". *)
Definition unparsable_date (raw : string) : Prop :=
  (Py.len raw < 8)%nat \/ Py.int (Py.slice 0 8 raw) = Raise ValueError.

(** The fail-open rule as the specification words it. *)
Definition fail_open_claim (raw : string) : Prop :=
  raw ≠ "" -> unparsable_date raw -> passes_date_filter raw.

(** "Rejects it when any entity-specific required field (filer id, amount,
    contributor name) is absent": the contributor name is absent when the
    organisation, last-name and first-name columns all are. *)
Definition required_field_absent (row : gmap string string) : Prop :=
  row_get row "filerIdent" = ""
  \/ row_get row "contributionAmount" = ""
  \/ (row_get row "contributorNameOrganization" = ""
      /\ row_get row "contributorNameLast" = ""
      /\ row_get row "contributorNameFirst" = "").

(** The rejection rule for contributions as the specification words it. *)
Definition required_fields_claim `{L : PyLib} (row : gmap string string) : Prop :=
  (row_get row "contributionInfoId" = "" -> parse_contribution_row row = Ok None)
  /\ (required_field_absent row -> parse_contribution_row row = Ok None).

(** The ten numbered report-type-code columns, in column order. *)
Definition report_type_columns : list string :=
  ["reportTypeCd1"; "reportTypeCd2"; "reportTypeCd3"; "reportTypeCd4";
   "reportTypeCd5"; "reportTypeCd6"; "reportTypeCd7"; "reportTypeCd8";
   "reportTypeCd9"; "reportTypeCd10"].

Definition join_or_none (values : list string) : option string :=
  match values with
  | [] => None
  | _ => Some (Py.join ", " values)
  end.

(** The report type as the specification words it: "collecting every
    non-empty value in column order, and joining them with ', '". *)
Definition report_type_of_nonempty (row : gmap string string) : option string :=
  join_or_none (List.filter Py.truthy (row_get row <$> report_type_columns)).

(** The same with every value stripped of surrounding whitespace before it
    is tested and collected. *)
Definition report_type_of_stripped (row : gmap string string) : option string :=
  join_or_none
    (List.filter Py.truthy
       ((fun column => Py.strip (row_get row column)) <$> report_type_columns)).

(** ** Sample rows *)

Definition sample_row_2020 : gmap string string :=
  {[ "receivedDt" := "20200101T00:00"; "contributionInfoId" := "C-1" ]}.

Definition sample_row_2019 : gmap string string :=
  {[ "receivedDt" := "20191231T23:59"; "contributionInfoId" := "C-2" ]}.

Definition sample_row_dashed : gmap string string :=
  {[ "receivedDt" := "2021-03-04"; "contributionInfoId" := "C-3" ]}.

Definition sample_row_short : gmap string string :=
  {[ "receivedDt" := "2021"; "contributionInfoId" := "C-4" ]}.

(** A contribution with an identifier and nothing else. *)
Definition sample_row_bare : gmap string string :=
  {[ "contributionInfoId" := "C-5" ]}.

(** A report whose first report-type column holds a single space. *)
Definition sample_report_blank : gmap string string :=
  {[ "reportInfoIdent" := "R-1"; "reportTypeCd1" := " " ]}.

(** A report with padded codes in columns 2 and 10. *)
Definition sample_report_padded : gmap string string :=
  {[ "reportInfoIdent" := "R-2"; "reportTypeCd2" := " SEMI "; "reportTypeCd10" := "FINAL" ]}.

(** ** Identities in a source file *)

(** [r] is the first row of [rows] whose column [key] holds [x]. *)
Definition first_occurrence (key x : string) (rows : list (gmap string string))
    (r : gmap string string) : Prop :=
  exists pre post,
    rows = pre ++ r :: post
    /\ (forall r', r' ∈ pre -> row_get r' key ≠ x)
    /\ row_get r key = x.

(** The record a row yields on its own, whatever the other rows are. *)
Definition accepted {R : Type} (parse : gmap string string -> result (option R))
    (row : gmap string string) : option R :=
  match parse row with
  | Ok (Some r) => Some r
  | _ => None
  end.

(** Invariant of the loop of [import_filers], after the rows [pre]. *)
Record filers_inv (pre : list (gmap string string))
    (st : list Filer.t * gset string) : Prop := {
  inv_seen : forall x,
    x ∈ st.2 <-> x ≠ "" /\ exists r, r ∈ pre /\ row_get r "filerIdent" = x;
  inv_first : forall f,
    f ∈ st.1 ->
    Filer.name f ≠ ""
    /\ Filer.id f ≠ ""
    /\ exists r, first_occurrence "filerIdent" (Filer.id f) pre r
                 /\ f = parse_filer_row r;
  inv_emitted : forall x r,
    first_occurrence "filerIdent" x pre r ->
    x ≠ "" -> Filer.name (parse_filer_row r) ≠ "" ->
    parse_filer_row r ∈ st.1;
  inv_nodup : NoDup (Filer.id <$> st.1)
}.

(** Three filer rows: two share the identifier F-1 and differ in the name;
    and two rows for F-9 of which the first has no name. *)
Definition sample_filer_a : gmap string string :=
  {[ "filerIdent" := "F-1"; "filerName" := "Alpha PAC" ]}.

Definition sample_filer_a' : gmap string string :=
  {[ "filerIdent" := "F-1"; "filerName" := "Alpha Political Action Committee" ]}.

Definition sample_filer_b : gmap string string :=
  {[ "filerIdent" := "F-2"; "filerNameLast" := "Doe"; "filerNameFirst" := "Jane" ]}.

Definition sample_filer_unnamed : gmap string string :=
  {[ "filerIdent" := "F-9" ]}.

Definition sample_filer_named : gmap string string :=
  {[ "filerIdent" := "F-9"; "filerName" := "Omega PAC" ]}.

(** ** Calls made to the store *)

(** The number of records the store accepted, counted from the log. *)
Definition imported {R : Type} (log : call_log R) : nat :=
  sum_list_with (fun call : list R * bool =>
                   if call.2 then length call.1 else 0%nat) log.

(** The scenario of the specification: five records, batch size 5, fallback
    size 2, against the store that rejects batches of more than two records.
    The result is the log of the calls and [total_imported]. *)
Definition degradation_scenario : call_log nat * nat :=
  let '((_, log), total_imported) :=
    @load_batches nat (logged (size_limited nat 2)) 5 2
      [1; 2; 3; 4; 5]%nat ((tt, []), 0%nat) in
  (log, total_imported).

(** The outcome the specification gives for it: "exactly 3 upsert calls (one
    failing, then two succeeding of sizes 2 and 2, with 1 record dropped)". *)
Definition degradation_claim : Prop :=
  (fun call : list nat * bool => (length call.1, call.2))
    <$> degradation_scenario.1
  = [(5%nat, false); (2%nat, true); (2%nat, true)].

(** ** Shapes of a normalised city name *)

Definition first_char (s : string) : option ascii :=
  match s with
  | EmptyString => None
  | String c _ => Some c
  end.

Fixpoint last_char (s : string) : option ascii :=
  match s with
  | EmptyString => None
  | String c EmptyString => Some c
  | String _ s' => last_char s'
  end.

(** No whitespace at either end. *)
Definition trimmed (s : string) : Prop :=
  (forall c, first_char s = Some c -> Py.isspace c = false)
  /\ (forall c, last_char s = Some c -> Py.isspace c = false).

(** A letter below U+0100 that has an upper-case form: [a] to [z], the
    micro sign U+00B5, and U+00DF to U+00FF less the division sign. *)
Definition is_lower (c : ascii) : bool :=
  Py.in_range 97 122 c || (Py.ord c =? 181)%N
  || (Py.in_range 223 255 c && negb (Py.ord c =? 247)%N).

(** "Uppercase": no letter that has an upper-case form is left. *)
Definition upper_case (s : string) : Prop :=
  Py.forallb (fun c => negb (is_lower c)) s = true.

Definition starts_with_space (s : string) : bool :=
  match s with
  | EmptyString => false
  | String c _ => Py.isspace c
  end.

(** Whitespace runs are collapsed: every whitespace character is a space
    and no two are adjacent. *)
Fixpoint single_spaced (s : string) : bool :=
  match s with
  | EmptyString => true
  | String c s' =>
      (negb (Py.isspace c) || Ascii.eqb c " ")
      && negb (Py.isspace c && starts_with_space s')
      && single_spaced s'
  end.

(** [s[n:]] *)
Fixpoint string_drop (n : nat) (s : string) : string :=
  match n, s with
  | S n', String _ s' => string_drop n' s'
  | _, _ => s
  end.

(** Length of the longest prefix of [s] made of characters of the class. *)
Fixpoint span (p : ascii -> bool) (s : string) : nat :=
  match s with
  | String c s' => if p c then S (span p s') else O
  | EmptyString => O
  end.

(** The shape of [^FT\.?\s+] and [^ST\.?\s+]: two characters, an optional
    third, whitespace. *)
Definition lead_pattern (q1 q2 q3 : ascii -> bool) : Re.regex :=
  Re.Cat Re.Bol
    (Re.Cat (Re.Cat (Re.Chr q1) (Re.Chr q2))
       (Re.Cat (Re.Opt (Re.Chr q3)) (Re.Plus Py.isspace))).

(** No line feed in the string. *)
Definition no_newline (s : string) : bool :=
  Py.forallb (fun c => negb (Ascii.eqb c Re.newline)) s.

(** A pattern whose matches all end where [$] holds. *)
Definition ends_at_eol (r : Re.regex) : Prop :=
  forall (pos : nat) (s : string) (caps : Re.captures)
         (k : nat -> string -> Re.captures -> option nat) (a : nat),
    Re.run r pos s caps k = Some a ->
    exists n caps',
      k (pos + n)%nat (string_drop n s) caps' = Some a
      /\ (string_drop n s = "" \/ string_drop n s = String Re.newline "").

(** ** City-name normalisation in the words of the specification

    "Uppercase and trim; collapse runs of whitespace to a single space;
    rewrite a leading FT or FT. token (with trailing space) to FORT; rewrite a
    leading ST or ST. token (with trailing space) to SAINT; strip a trailing
    , TX or TX or TEXAS token (comma and whitespace before it optional,
    case-insensitive); strip a trailing TX USA sequence; trim again."  The
    definitions below use no regular expression. *)

(** "Collapse runs of whitespace to a single space"; [in_run] says that the
    character before was whitespace. *)
Fixpoint collapse_from (in_run : bool) (s : string) : string :=
  match s with
  | EmptyString => EmptyString
  | String c s' =>
      if Py.isspace c then
        if in_run then collapse_from true s'
        else String " " (collapse_from true s')
      else String c (collapse_from false s')
  end.

Definition collapse_whitespace (s : string) : string := collapse_from false s.

(** [s] without [prefix] at its start; [None] when it does not start with
    it. *)
Fixpoint drop_prefix (prefix s : string) : option string :=
  match prefix, s with
  | EmptyString, _ => Some s
  | String a prefix', String c s' =>
      if Ascii.eqb c a then drop_prefix prefix' s' else None
  | String _ _, EmptyString => None
  end.

(** [s] without the character [c] at its start, when it starts with it. *)
Definition drop_leading (c : ascii) (s : string) : string :=
  match s with
  | String d s' => if Ascii.eqb d c then s' else s
  | EmptyString => s
  end.

(** "A leading token (with trailing space)": what follows [token], a full
    stop if there is one, and the whitespace after them; [None] when [s] does
    not start that way. *)
Definition after_token (token s : string) : option string :=
  match drop_prefix token s with
  | Some rest =>
      let rest := drop_leading "." rest in
      if starts_with_space rest then Some (Py.lstrip_by Py.isspace rest)
      else None
  | None => None
  end.

Definition rewrite_leading (token replacement s : string) : string :=
  match after_token token s with
  | Some rest => replacement +:+ rest
  | None => s
  end.

(** [s] starts with [word], the case of ASCII letters apart. *)
Fixpoint starts_with_letters (word s : string) : bool :=
  match word, s with
  | EmptyString, _ => true
  | String a word', String c s' =>
      Ascii.eqb (Py.upper_char c) (Py.upper_char a)
      && starts_with_letters word' s'
  | String _ _, EmptyString => false
  end.

(** [s] is [word], the case of ASCII letters apart. *)
Fixpoint same_letters (s word : string) : bool :=
  match s, word with
  | EmptyString, EmptyString => true
  | String c s', String a word' =>
      Ascii.eqb (Py.upper_char c) (Py.upper_char a) && same_letters s' word'
  | _, _ => false
  end.

(** The end of a name that is "a trailing , TX or TX or TEXAS token (comma
    and whitespace before it optional, case-insensitive)". *)
Definition state_token (tail : string) : bool :=
  let word := Py.lstrip_by Py.isspace (drop_leading "," tail) in
  same_letters word "TX" || same_letters word "TEXAS".

(** The end of a name that is "a trailing TX USA sequence": whitespace, TX,
    whitespace, USA. *)
Definition tx_usa_sequence (tail : string) : bool :=
  starts_with_space tail
  && (let rest := Py.lstrip_by Py.isspace tail in
      starts_with_letters "TX" rest
      && (let rest := string_drop 2 rest in
          starts_with_space rest
          && same_letters (Py.lstrip_by Py.isspace rest) "USA")).

(** "Strip a trailing ...": [s] up to the first place from which the rest
    of it is such an end. *)
Fixpoint strip_trailing (is_tail : string -> bool) (s : string) : string :=
  if is_tail s then EmptyString
  else
    match s with
    | EmptyString => EmptyString
    | String c s' => String c (strip_trailing is_tail s')
    end.

Definition normalize_city_spec (city_name : string) : string :=
  let n := Py.strip (Py.upper city_name) in
  let n := collapse_whitespace n in
  let n := rewrite_leading "FT" "FORT " n in
  let n := rewrite_leading "ST" "SAINT " n in
  let n := strip_trailing state_token n in
  let n := strip_trailing tx_usa_sequence n in
  Py.strip n.

(** Penitas, with U+00F1 and with U+00D1. *)
Definition penitas_lower : string := "Pe" +:+ String (ascii_of_N 241) "itas".
Definition penitas_upper : string := "PE" +:+ String (ascii_of_N 209) "ITAS".

(** * Further statements *)

(** The steps of [normalize_city] after the upper-casing and the first
    [strip]. *)
Definition rewrite_city (n : string) : string :=
  Py.strip
    (Re.sub Geo.re_tx_usa ""
       (Re.sub Geo.re_state ""
          (Re.sub Geo.re_st "SAINT "
             (Re.sub Geo.re_ft "FORT " (Re.sub Geo.re_spaces " " n))))).

(** What a gazetteer row offers to the lookup: nothing unless its state is
    TX and its stripped city and county are not empty; otherwise the
    normalised city name and the entry for it. *)
Definition city_of_row (row : gmap string string)
  : option (string * GeoLookup.entry) :=
  if bool_decide (row !! "state_id" = Some "TX") then
    let city := Py.strip (row_get row "city") in
    let county := Py.strip (row_get row "county_name") in
    if Py.truthy city && Py.truthy county then
      Some (Geo.normalize_city city,
            {| GeoLookup.county := county;
               GeoLookup.county_fips := Py.strip (row_get row "county_fips");
               GeoLookup.region := GeoLookup.get_region_for_county county |})
    else None
  else None.

(** [r] is the first row of [rows] that offers an entry for the key [k]. *)
Definition first_offer (k : string) (rows : list (gmap string string))
    (r : gmap string string) : Prop :=
  exists pre post,
    rows = pre ++ r :: post
    /\ (forall r', r' ∈ pre -> fst <$> city_of_row r' ≠ Some k)
    /\ fst <$> city_of_row r = Some k.

(** Invariant of the loop of [main], after the rows [pre]. *)
Record cities_inv (pre : list (gmap string string))
    (st : gmap string GeoLookup.entry * gset string) : Prop := {
  inv_keys : forall k,
    is_Some (st.1 !! k) <-> exists r, r ∈ pre /\ fst <$> city_of_row r = Some k;
  inv_entry : forall k e,
    st.1 !! k = Some e ->
    exists r, first_offer k pre r /\ city_of_row r = Some (k, e);
  inv_counties : forall c,
    c ∈ st.2 <->
    exists r k e, r ∈ pre /\ city_of_row r = Some (k, e) /\ GeoLookup.county e = c
}.

(** The characters [strip(', ')] removes. *)
Definition comma_or_space (c : ascii) : bool := Py.mem c ", ".

(** A character that [int] accepts nowhere in a literal that starts with a
    digit: not a digit, not an underscore, not whitespace. *)
Definition separator (c : ascii) : bool :=
  negb (Py.is_decimal c) && negb (Ascii.eqb c "_") && negb (Py.int_space c).

Fixpoint existsb (p : ascii -> bool) (s : string) : bool :=
  match s with
  | EmptyString => false
  | String c s' => p c || existsb p s'
  end.

(** Sample gazetteer rows: Fort Worth twice, under two spellings. *)
Definition sample_city_fw : gmap string string :=
  {[ "state_id" := "TX"; "city" := "Fort Worth"; "county_name" := "Tarrant";
     "county_fips" := "48439" ]}.

Definition sample_city_fw' : gmap string string :=
  {[ "state_id" := "TX"; "city" := "Ft. Worth"; "county_name" := "Denton";
     "county_fips" := "48121" ]}.

Definition sample_city_ok : gmap string string :=
  {[ "state_id" := "OK"; "city" := "Tulsa"; "county_name" := "Tulsa" ]}.

(** A contribution received on an ISO-formatted date before the cutoff. *)
Definition sample_row_iso_1999 : gmap string string :=
  {[ "receivedDt" := "1999-12-31"; "contributionInfoId" := "C-6" ]}.

(** A name part that [strip(', ')] leaves alone: not empty, with neither a
    comma nor a space at either end. *)
Definition clean_part (s : string) : Prop :=
  s ≠ ""
  /\ (forall c, first_char s = Some c -> comma_or_space c = false)
  /\ (forall c, last_char s = Some c -> comma_or_space c = false).

(** [" {suffix}"] when there is a suffix. *)
Definition suffix_part (suffix : string) : string :=
  if Py.truthy suffix then " " +:+ suffix else "".

(** A filer row with nothing but an identifier and a suffix. *)
Definition sample_filer_suffix_only : gmap string string :=
  {[ "filerIdent" := "F-7"; "filerNameSuffixCd" := "JR" ]}.

Definition sample_filer_parts : gmap string string :=
  {[ "filerIdent" := "F-8"; "filerNameLast" := "Roe"; "filerNameFirst" := "Ann";
     "filerNameSuffixCd" := "III" ]}.

(** The number of records in the payloads a client accepted. *)
Definition landed {R : Type} (log : list (payload R * bool)) : nat :=
  sum_list_with (fun call : payload R * bool =>
                   if call.2 then
                     match call.1 with
                     | Rows records => length records
                     | Row _ => 1%nat
                     end
                   else 0%nat) log.

(** Two contribution files and a report file as [csv.DictReader] yields
    them, every line complete. *)
Definition sample_dict_files : list (list dict_row) :=
  [[Some <$> sample_row_2020; Some <$> sample_row_2019];
   [Some <$> sample_row_bare]].

Definition sample_dict_reports : list dict_row :=
  [Some <$> sample_report_blank; Some <$> sample_report_padded].

(** The store takes every non-empty list of at most [limit] records. *)
Definition accepts_up_to {R : Type} (S : Store R) (limit : nat) : Prop :=
  forall (records : list R) (s : @store R S),
    (0 < length records <= limit)%nat -> (@upsert R S records s).1 = Ok ().

(** * Properties *)

(** ** Strings *)

Lemma truthy_true (s : string) : Py.truthy s = true <-> s ≠ "".
Proof. destruct s; simpl; split; congruence. Qed.

Lemma truthy_false (s : string) : Py.truthy s = false <-> s = "".
Proof. destruct s; simpl; split; congruence. Qed.

Lemma is_decimal_isdigit (c : ascii) :
  Py.is_decimal c = true -> Py.isdigit_char c = true.
Proof. unfold Py.isdigit_char. intros ->. reflexivity. Qed.

Lemma remove_absent (c : ascii) (s : string) :
  Py.forallb (fun d => negb (Ascii.eqb d c)) s = true -> Py.remove c s = s.
Proof.
  induction s as [|d s IH]; simpl; [reflexivity|].
  intros [Hd Hs]%andb_prop. destruct (Ascii.eqb d c); [discriminate|].
  f_equal. auto.
Qed.

(** ** Dates *)

Section DateProperties.
Context `{L : PyLib}.

Lemma try_formats_caught (date_str : string) (fmts : list string) :
  returns (catch_Exception (try_formats date_str fmts) (Ok None)).
Proof.
  unfold returns. destruct (try_formats date_str fmts) as [v|e]; simpl; eauto.
Qed.

Lemma parse_date_returns (date_str : string) : returns (parse_date date_str).
Proof.
  unfold parse_date.
  destruct (negb (Py.truthy date_str) || (Py.len date_str <? 8)%nat).
  - exists None. reflexivity.
  - destruct ((Py.len date_str =? 8)%nat && Py.isdigit date_str).
    + simpl. unfold returns. eauto.
    + apply try_formats_caught.
Qed.

Lemma parse_date_short (date_str : string) :
  (Py.len date_str < 8)%nat -> parse_date date_str = Ok None.
Proof.
  intros Hlen. unfold parse_date.
  apply Nat.ltb_lt in Hlen. rewrite Hlen, orb_true_r. reflexivity.
Qed.

Lemma parse_date_digits (y1 y2 y3 y4 m1 m2 d1 d2 : ascii) :
  Forall (fun c => Py.is_decimal c = true) [y1; y2; y3; y4; m1; m2; d1; d2] ->
  parse_date (String.string_of_list_ascii [y1; y2; y3; y4; m1; m2; d1; d2])
  = Ok (Some (String.string_of_list_ascii
                [y1; y2; y3; y4; "-"%char; m1; m2; "-"%char; d1; d2])).
Proof.
  intros H. repeat (apply Forall_cons in H as [?%is_decimal_isdigit H]).
  unfold parse_date, Py.isdigit. simpl.
  repeat match goal with E : Py.isdigit_char _ = true |- _ => rewrite E; clear E end.
  reflexivity.
Qed.

End DateProperties.

(** C4. [parse_date] regroups a string of exactly eight ASCII digits as
    YYYY-MM-DD with the same digits ("20230615" gives "2023-06-15"), returns
    [None] on every string shorter than eight characters, the empty string
    included, and never raises, whatever the library's [strptime] and
    [strftime] do. *)
Theorem parse_date_contract `{L : PyLib} :
  (forall y1 y2 y3 y4 m1 m2 d1 d2 : ascii,
      Forall (fun c => Py.is_decimal c = true) [y1; y2; y3; y4; m1; m2; d1; d2] ->
      parse_date (String.string_of_list_ascii [y1; y2; y3; y4; m1; m2; d1; d2])
      = Ok (Some (String.string_of_list_ascii
                    [y1; y2; y3; y4; "-"%char; m1; m2; "-"%char; d1; d2])))
  /\ parse_date "20230615" = Ok (Some "2023-06-15")
  /\ parse_date "" = Ok None
  /\ (forall date_str, (Py.len date_str < 8)%nat -> parse_date date_str = Ok None)
  /\ (forall date_str, exists v, parse_date date_str = Ok v).
Proof.
  split; [exact parse_date_digits|].
  split; [reflexivity|].
  split; [reflexivity|].
  split; [exact parse_date_short|exact parse_date_returns].
Qed.

Lemma parse_date_contract_witness :
  @parse_date ref_lib "19991231" = Ok (Some "1999-12-31")
  /\ @parse_date ref_lib "2023061" = Ok None
  /\ exists v, @parse_date ref_lib "06/15/2023" = Ok v.
Proof.
  destruct (@parse_date_contract ref_lib) as (Hd & _ & _ & Hs & Hr).
  split; [|split].
  - apply (Hd "1" "9" "9" "9" "1" "2" "3" "1")%char.
    repeat constructor.
  - apply Hs. simpl. lia.
  - apply Hr.
Defined.

(** ** Money *)

Lemma remove_decoration (s : string) :
  Py.remove "$" (Py.remove "," s) = without_chars "$," s.
Proof.
  induction s as [|c s IH]; simpl; [reflexivity|].
  destruct (Ascii.eqb c ",") eqn:Hcomma; simpl.
  - rewrite orb_true_r. exact IH.
  - rewrite orb_false_r.
    destruct (Ascii.eqb c "$"); [exact IH|]. f_equal. exact IH.
Qed.

Lemma without_chars_idem (chars s : string) :
  without_chars chars (without_chars chars s) = without_chars chars s.
Proof.
  induction s as [|c s IH]; simpl; [reflexivity|].
  destruct (Py.mem c chars) eqn:Hc; simpl; [exact IH|].
  rewrite Hc. f_equal. exact IH.
Qed.

Lemma clean_amount_undecorated (s : string) :
  clean_amount (without_chars "$," s) = clean_amount s.
Proof.
  unfold clean_amount. rewrite !remove_decoration, without_chars_idem.
  reflexivity.
Qed.

Lemma clean_amount_empty (s : string) :
  without_chars "$," s = "" -> clean_amount s = "".
Proof.
  intros H. unfold clean_amount. rewrite remove_decoration, H. reflexivity.
Qed.

Lemma clean_amount_bare (s : string) : clean_amount s = bare_amount s.
Proof. unfold clean_amount, bare_amount. rewrite remove_decoration. reflexivity. Qed.

Section AmountValues.
Context `{L : PyLib}.

Lemma parse_amount_opt_value (amount_str : string) :
  parse_amount_opt amount_str = Ok (amount_literal amount_str).
Proof.
  unfold parse_amount_opt, amount_literal, py_float.
  rewrite <- clean_amount_bare.
  destruct amount_str as [|c s]; [reflexivity|]. cbn [Py.truthy negb].
  destruct (Py.truthy (clean_amount (String c s))); [|reflexivity].
  destruct (float_of_str (clean_amount (String c s))); reflexivity.
Qed.

Lemma parse_amount_value (amount_str : string) :
  parse_amount amount_str = Ok (default float_zero (amount_literal amount_str)).
Proof.
  unfold parse_amount, amount_literal, py_float.
  rewrite <- clean_amount_bare.
  destruct amount_str as [|c s]; [reflexivity|]. cbn [Py.truthy negb].
  destruct (Py.truthy (clean_amount (String c s))); [|reflexivity].
  destruct (float_of_str (clean_amount (String c s))); reflexivity.
Qed.

End AmountValues.

(** C6. Parsing an amount gives the same result as parsing it with every
    ['$'] and [','] removed, in the variant that defaults to zero and in the
    variant that defaults to [None], whatever [float] does; and when [float]
    accepts what is left of the amount once those characters and the
    whitespace around it are gone, that value is the result of both variants.
    With the reference [float], ["$1,234.50"] and ["1234.50"] both yield
    1234.50, that is [12345 * 10 ^ -1]. *)
Theorem parse_amount_decoration `{L : PyLib} (amount_str : string) :
  parse_amount amount_str = parse_amount (without_chars "$," amount_str)
  /\ parse_amount_opt amount_str
     = parse_amount_opt (without_chars "$," amount_str)
  /\ (forall x,
        bare_amount amount_str <> "" ->
        float_of_str (bare_amount amount_str) = Some x ->
        parse_amount amount_str = Ok x
        /\ parse_amount_opt amount_str = Ok (Some x))
  /\ @parse_amount ref_lib "$1,234.50" = Ok (Ref.Finite false 12345 (-1))
  /\ @parse_amount ref_lib "1234.50" = Ok (Ref.Finite false 12345 (-1))
  /\ @parse_amount_opt ref_lib "$1,234.50"
     = Ok (Some (Ref.Finite false 12345 (-1)))
  /\ @parse_amount_opt ref_lib "1234.50"
     = Ok (Some (Ref.Finite false 12345 (-1))).
Proof.
  assert (parse_amount amount_str = parse_amount (without_chars "$," amount_str)
          /\ parse_amount_opt amount_str
             = parse_amount_opt (without_chars "$," amount_str)) as [H1 H2].
  { unfold parse_amount, parse_amount_opt.
    destruct (Py.truthy (without_chars "$," amount_str)) eqn:Hw; simpl.
    - assert (Py.truthy amount_str = true) as ->.
      { destruct amount_str; [discriminate|reflexivity]. }
      simpl. rewrite clean_amount_undecorated. split; reflexivity.
    - apply truthy_false in Hw.
      destruct (Py.truthy amount_str); simpl; [|split; reflexivity].
      rewrite (clean_amount_empty _ Hw). simpl. split; reflexivity. }
  split; [exact H1|]. split; [exact H2|]. split.
  - intros x Hne Hx. apply truthy_true in Hne.
    rewrite parse_amount_value, parse_amount_opt_value.
    unfold amount_literal. rewrite Hne, Hx. split; reflexivity.
  - vm_compute. repeat split.
Qed.

Lemma parse_amount_decoration_witness :
  @parse_amount ref_lib "$1,234.50" = Ok (Ref.Finite false 12345 (-1))
  /\ @parse_amount_opt ref_lib "$1,234.50"
     = Ok (Some (Ref.Finite false 12345 (-1))).
Proof.
  destruct (@parse_amount_decoration ref_lib "$1,234.50") as (_ & _ & H & _).
  apply H.
  - vm_compute. discriminate.
  - vm_compute. reflexivity.
Defined.

(** The amounts of the specification, with the reference [float]:
    1234.50 is [12345 * 10 ^ -1]. *)
Example parse_amount_examples :
  @parse_amount ref_lib "$1,234.50" = Ok (Ref.Finite false 12345 (-1))
  /\ @parse_amount ref_lib "1234.50" = Ok (Ref.Finite false 12345 (-1))
  /\ @parse_amount_opt ref_lib "$1,234.50" = Ok (Some (Ref.Finite false 12345 (-1)))
  /\ @parse_amount_opt ref_lib "1234.50" = Ok (Some (Ref.Finite false 12345 (-1)))
  /\ @parse_amount ref_lib "n/a" = Ok (Ref.Finite false 0 0)
  /\ @parse_amount_opt ref_lib "n/a" = Ok None
  /\ @parse_amount ref_lib "$," = Ok (Ref.Finite false 0 0)
  /\ @parse_amount_opt ref_lib "$," = Ok None.
Proof. vm_compute. repeat split. Qed.

(** ** Integers *)

Lemma digit_val_range (c : ascii) :
  Py.is_decimal c = true -> 0 <= Py.digit_val c <= 9.
Proof.
  unfold Py.is_decimal, Py.in_range, Py.digit_val.
  intros [H1 H2]%andb_prop.
  apply N.leb_le in H1. apply N.leb_le in H2. lia.
Qed.

Lemma int_digits_bound (s : string) : forall acc flag n,
  0 <= acc -> Py.int_digits acc flag s = Some n ->
  0 <= n < (acc + 1) * 10 ^ Z.of_nat (String.length s).
Proof.
  induction s as [|c s IH]; intros acc flag n Hacc; simpl String.length.
  - simpl. destruct flag; [discriminate|]. intros [= <-]. lia.
  - rewrite Nat2Z.inj_succ, Z.pow_succ_r by lia.
    assert (0 < 10 ^ Z.of_nat (String.length s)) by (apply Z.pow_pos_nonneg; lia).
    simpl. destruct (Py.is_decimal c) eqn:Hc.
    + pose proof (digit_val_range c Hc).
      intros Hn. apply IH in Hn; [|lia]. nia.
    + destruct (Ascii.eqb c "_"); [|discriminate].
      destruct flag; [discriminate|].
      intros Hn. apply IH in Hn; [|lia]. nia.
Qed.

Lemma int_unsigned_bound (s : string) (n : Z) :
  Py.int_unsigned s = Some n -> 0 <= n < 10 ^ Z.of_nat (String.length s).
Proof.
  destruct s as [|c s]; simpl; [discriminate|].
  destruct (Py.is_decimal c) eqn:Hc; [|discriminate].
  pose proof (digit_val_range c Hc). intros Hn.
  apply int_digits_bound in Hn; [|lia].
  rewrite Nat2Z.inj_succ, Z.pow_succ_r by lia.
  assert (0 < 10 ^ Z.of_nat (String.length s)) by (apply Z.pow_pos_nonneg; lia).
  nia.
Qed.

Lemma int_signed_cons (c : ascii) (s : string) :
  Py.int_signed (String c s)
  = if Ascii.eqb c "+" then Py.int_unsigned s
    else if Ascii.eqb c "-" then Z.opp <$> Py.int_unsigned s
    else Py.int_unsigned (String c s).
Proof. destruct c as [[] [] [] [] [] [] [] []]; reflexivity. Qed.

Lemma int_signed_bound (s : string) (n : Z) :
  Py.int_signed s = Some n -> n < 10 ^ Z.of_nat (String.length s).
Proof.
  destruct s as [|c s]; [discriminate|].
  rewrite int_signed_cons.
  assert (0 < 10 ^ Z.of_nat (String.length s)) by (apply Z.pow_pos_nonneg; lia).
  assert (10 ^ Z.of_nat (String.length s)
          <= 10 ^ Z.of_nat (String.length (String c s))).
  { simpl String.length. rewrite Nat2Z.inj_succ, Z.pow_succ_r by lia. lia. }
  destruct (Ascii.eqb c "+").
  - intros Hn%int_unsigned_bound. lia.
  - destruct (Ascii.eqb c "-").
    + destruct (Py.int_unsigned s) as [m|] eqn:Hm; [|discriminate].
      apply int_unsigned_bound in Hm. intros [= <-]. lia.
    + intros Hn%int_unsigned_bound. lia.
Qed.

Lemma lstrip_by_length (p : ascii -> bool) (s : string) :
  (String.length (Py.lstrip_by p s) <= String.length s)%nat.
Proof.
  induction s as [|c s IH]; simpl; [lia|].
  destruct (p c); simpl; lia.
Qed.

Lemma rstrip_by_length (p : ascii -> bool) (s : string) :
  (String.length (Py.rstrip_by p s) <= String.length s)%nat.
Proof.
  induction s as [|c s IH]; simpl; [lia|].
  destruct (Py.rstrip_by p s); [destruct (p c)|]; simpl in *; lia.
Qed.

Lemma strip_by_length (p : ascii -> bool) (s : string) :
  (String.length (Py.strip_by p s) <= String.length s)%nat.
Proof.
  unfold Py.strip_by.
  pose proof (rstrip_by_length p (Py.lstrip_by p s)).
  pose proof (lstrip_by_length p s). lia.
Qed.

Lemma substring_length (m : nat) (s : string) :
  (String.length (String.substring 0 m s) <= String.length s)%nat.
Proof.
  revert m. induction s as [|c s IH]; intros [|m]; simpl; try lia.
  specialize (IH m). lia.
Qed.

(** [int] accepts no literal of [k] characters for a number of more than [k]
    digits. *)
Lemma int_bound (s : string) (n : Z) :
  Py.int s = Ok n -> n < 10 ^ Z.of_nat (String.length s).
Proof.
  unfold Py.int.
  destruct (Py.int_signed (Py.strip_by Py.int_space s)) as [m|] eqn:Hm;
    [|discriminate].
  intros [= <-]. apply int_signed_bound in Hm.
  pose proof (strip_by_length Py.int_space s).
  assert (10 ^ Z.of_nat (String.length (Py.strip_by Py.int_space s))
          <= 10 ^ Z.of_nat (String.length s)) by (apply Z.pow_le_mono_r; lia).
  lia.
Qed.

Lemma int_raises (s : string) (e : exn) : Py.int s = Raise e -> e = ValueError.
Proof.
  unfold Py.int. destruct (Py.int_signed _); [discriminate|]. congruence.
Qed.

(** ** The received-date filter *)

(** What the filter decides, as a function of the raw string. *)
Lemma before_min_date_unfold (raw : string) :
  before_min_date raw
  = Ok (if Py.truthy raw then
          if (8 <=? Py.len raw)%nat then
            match Py.int (Py.slice 0 8 raw) with
            | Ok date_int => date_int <? MIN_DATE
            | Raise _ => false
            end
          else true
        else false).
Proof.
  unfold before_min_date. destruct (Py.truthy raw); [|reflexivity].
  destruct (8 <=? Py.len raw)%nat; [|reflexivity].
  destruct (Py.int (Py.slice 0 8 raw)) as [n|e] eqn:Hint; [reflexivity|].
  apply int_raises in Hint. subst e. reflexivity.
Qed.

Lemma before_min_date_returns (raw : string) :
  exists skip, before_min_date raw = Ok skip.
Proof. rewrite before_min_date_unfold. eauto. Qed.

Lemma before_min_date_parsed (raw : string) (n : Z) :
  Py.int (Py.slice 0 8 raw) = Ok n ->
  before_min_date raw = Ok (n <? MIN_DATE).
Proof.
  intros Hint. rewrite before_min_date_unfold, Hint.
  assert (Py.truthy raw = true) as ->.
  { destruct raw; [discriminate Hint|reflexivity]. }
  destruct (8 <=? Py.len raw)%nat eqn:Hlen; [reflexivity|].
  apply Nat.leb_gt in Hlen. apply int_bound in Hint.
  pose proof (substring_length (8 - 0) raw). unfold Py.slice, Py.len in *.
  assert (10 ^ Z.of_nat (String.length (String.substring 0 (8 - 0) raw)) <= 10 ^ 7)
    by (apply Z.pow_le_mono_r; lia).
  f_equal. symmetry. apply Z.ltb_lt. unfold MIN_DATE. lia.
Qed.

Lemma before_min_date_prefix (prefix suffix : string) (n : Z) :
  String.length prefix = 8%nat -> Py.int prefix = Ok n ->
  before_min_date (prefix +:+ suffix) = Ok (n <? MIN_DATE).
Proof.
  intros Hlen Hint. apply before_min_date_parsed.
  replace (Py.slice 0 8 (prefix +:+ suffix)) with prefix; [exact Hint|].
  do 9 (destruct prefix as [|? prefix]; try discriminate Hlen).
  destruct suffix; reflexivity.
Qed.

(** ** Amounts never raise *)

Section AmountProperties.
Context `{L : PyLib}.

Lemma parse_amount_returns (amount_str : string) :
  exists x, parse_amount amount_str = Ok x.
Proof.
  unfold parse_amount, py_float.
  destruct (Py.truthy amount_str); simpl; [|eauto].
  destruct (Py.truthy (clean_amount amount_str)); simpl; [|eauto].
  destruct (float_of_str (clean_amount amount_str)); simpl; eauto.
Qed.

Lemma parse_amount_opt_returns (amount_str : string) :
  exists x, parse_amount_opt amount_str = Ok x.
Proof.
  unfold parse_amount_opt, py_float.
  destruct (Py.truthy amount_str); simpl; [|eauto].
  destruct (Py.truthy (clean_amount amount_str)); simpl; [|eauto].
  destruct (float_of_str (clean_amount amount_str)); simpl; eauto.
Qed.

Lemma parse_amount_empty : parse_amount "" = Ok float_zero.
Proof. reflexivity. Qed.

End AmountProperties.

(** Replace every call of a field parser in the goal by the value it
    returns. *)
Ltac run_field_parsers :=
  repeat match goal with
    | |- context [parse_date ?s] =>
        destruct (parse_date_returns s) as [? ->]
    | |- context [parse_amount ?s] =>
        destruct (parse_amount_returns s) as [? ->]
    | |- context [parse_amount_opt ?s] =>
        destruct (parse_amount_opt_returns s) as [? ->]
    end.

(** ** Row parsers *)

Section RowProperties.
Context `{L : PyLib}.

(** The rows [parse_contribution_row] rejects: those the date filter stops
    and those without an identifier; nothing else. *)
Lemma parse_contribution_row_rejects (row : gmap string string) :
  parse_contribution_row row = Ok None
  <-> rejected_by_date (row_get row "receivedDt")
      \/ row_get row "contributionInfoId" = "".
Proof.
  unfold parse_contribution_row, rejected_by_date.
  destruct (before_min_date_returns (row_get row "receivedDt")) as [skip ->].
  simpl. destruct skip; [tauto|].
  destruct (row_get row "contributionInfoId") as [|c s] eqn:Hid; simpl; [tauto|].
  run_field_parsers.
  simpl. split; [discriminate|]. intros [?|?]; discriminate.
Qed.

(** The record built from an accepted row. *)
Lemma parse_contribution_row_accepts (row : gmap string string) :
  passes_date_filter (row_get row "receivedDt") ->
  row_get row "contributionInfoId" ≠ "" ->
  exists c,
    parse_contribution_row row = Ok (Some c)
    /\ Contribution.id c = row_get row "contributionInfoId"
    /\ Contribution.filer_id c = row_get row "filerIdent"
    /\ Contribution.contributor_name c = build_contributor_name row
    /\ parse_amount (row_get row "contributionAmount") = Ok (Contribution.amount c).
Proof.
  unfold parse_contribution_row, passes_date_filter. intros -> Hid.
  apply truthy_true in Hid. simpl. rewrite Hid. simpl.
  run_field_parsers.
  simpl. eexists. split; [reflexivity|]. simpl. auto.
Qed.

Lemma parse_expenditure_row_rejects (row : gmap string string) :
  parse_expenditure_row row = Ok None
  <-> rejected_by_date (row_get row "receivedDt")
      \/ row_get row "expendInfoId" = "".
Proof.
  unfold parse_expenditure_row, rejected_by_date.
  destruct (before_min_date_returns (row_get row "receivedDt")) as [skip ->].
  simpl. destruct skip; [tauto|].
  destruct (row_get row "expendInfoId") as [|c s] eqn:Hid; simpl; [tauto|].
  run_field_parsers.
  simpl. split; [discriminate|]. intros [?|?]; discriminate.
Qed.

Lemma parse_report_row_rejects (row : gmap string string) :
  parse_report_row row = Ok None
  <-> rejected_by_date (row_get row "receivedDt")
      \/ row_get row "reportInfoIdent" = "".
Proof.
  unfold parse_report_row, rejected_by_date.
  destruct (before_min_date_returns (row_get row "receivedDt")) as [skip ->].
  simpl. destruct skip; [tauto|].
  destruct (row_get row "reportInfoIdent") as [|c s] eqn:Hid; simpl; [tauto|].
  run_field_parsers.
  simpl. split; [discriminate|]. intros [?|?]; discriminate.
Qed.

(** A row that passes the date filter is rejected only for a missing
    identifier. *)
Lemma passes_contribution (row : gmap string string) :
  passes_date_filter (row_get row "receivedDt") ->
  (parse_contribution_row row = Ok None <-> row_get row "contributionInfoId" = "").
Proof.
  intros Hp. rewrite parse_contribution_row_rejects.
  unfold rejected_by_date, passes_date_filter in *. rewrite Hp.
  split; [intros [?|?]; [discriminate|assumption]|auto].
Qed.

Lemma passes_expenditure (row : gmap string string) :
  passes_date_filter (row_get row "receivedDt") ->
  (parse_expenditure_row row = Ok None <-> row_get row "expendInfoId" = "").
Proof.
  intros Hp. rewrite parse_expenditure_row_rejects.
  unfold rejected_by_date, passes_date_filter in *. rewrite Hp.
  split; [intros [?|?]; [discriminate|assumption]|auto].
Qed.

Lemma passes_report (row : gmap string string) :
  passes_date_filter (row_get row "receivedDt") ->
  (parse_report_row row = Ok None <-> row_get row "reportInfoIdent" = "").
Proof.
  intros Hp. rewrite parse_report_row_rejects.
  unfold rejected_by_date, passes_date_filter in *. rewrite Hp.
  split; [intros [?|?]; [discriminate|assumption]|auto].
Qed.

End RowProperties.

(** C5. A received date whose first eight characters parse to an integer
    of at least 20200101 passes the filter whatever follows them (so does
    every string that starts with "20200101"): the contribution row is then
    rejected only for a missing identifier.  One whose first eight characters
    parse to less than 20200101 (every string that starts with "20191231") is
    rejected.  An empty received date passes. *)
Theorem received_date_cutoff `{L : PyLib} (row : gmap string string) :
  (forall n, Py.int (Py.slice 0 8 (row_get row "receivedDt")) = Ok n ->
             MIN_DATE <= n ->
             passes_date_filter (row_get row "receivedDt")
             /\ (parse_contribution_row row = Ok None
                 <-> row_get row "contributionInfoId" = ""))
  /\ (forall n, Py.int (Py.slice 0 8 (row_get row "receivedDt")) = Ok n ->
                n < MIN_DATE ->
                rejected_by_date (row_get row "receivedDt")
                /\ parse_contribution_row row = Ok None)
  /\ (forall suffix, row_get row "receivedDt" = "20200101" +:+ suffix ->
                     passes_date_filter (row_get row "receivedDt")
                     /\ (parse_contribution_row row = Ok None
                         <-> row_get row "contributionInfoId" = ""))
  /\ (forall suffix, row_get row "receivedDt" = "20191231" +:+ suffix ->
                     rejected_by_date (row_get row "receivedDt")
                     /\ parse_contribution_row row = Ok None)
  /\ (row_get row "receivedDt" = "" ->
      passes_date_filter (row_get row "receivedDt")
      /\ (parse_contribution_row row = Ok None
          <-> row_get row "contributionInfoId" = "")).
Proof.
  assert (forall raw, raw = row_get row "receivedDt" ->
                      passes_date_filter raw ->
                      passes_date_filter (row_get row "receivedDt")
                      /\ (parse_contribution_row row = Ok None
                          <-> row_get row "contributionInfoId" = "")) as Hpass.
  { intros raw -> Hp. split; [exact Hp|]. apply passes_contribution, Hp. }
  assert (forall raw, raw = row_get row "receivedDt" ->
                      rejected_by_date raw ->
                      rejected_by_date (row_get row "receivedDt")
                      /\ parse_contribution_row row = Ok None) as Hrej.
  { intros raw -> Hr. split; [exact Hr|].
    apply parse_contribution_row_rejects. left. exact Hr. }
  repeat split_and.
  - intros n Hint Hn. apply (Hpass _ eq_refl).
    unfold passes_date_filter. rewrite (before_min_date_parsed _ _ Hint).
    f_equal. apply Z.ltb_ge. exact Hn.
  - intros n Hint Hn. apply (Hrej _ eq_refl).
    unfold rejected_by_date. rewrite (before_min_date_parsed _ _ Hint).
    f_equal. apply Z.ltb_lt. exact Hn.
  - intros suffix Hraw. apply (Hpass _ eq_refl). rewrite Hraw.
    apply (before_min_date_prefix "20200101" suffix 20200101); reflexivity.
  - intros suffix Hraw. apply (Hrej _ eq_refl). rewrite Hraw.
    apply (before_min_date_prefix "20191231" suffix 20191231); reflexivity.
  - intros Hraw. apply (Hpass _ eq_refl). rewrite Hraw. reflexivity.
Qed.

Lemma received_date_cutoff_witness :
  (passes_date_filter (row_get sample_row_2020 "receivedDt")
   /\ (@parse_contribution_row ref_lib sample_row_2020 = Ok None
       <-> row_get sample_row_2020 "contributionInfoId" = ""))
  /\ (rejected_by_date (row_get sample_row_2019 "receivedDt")
      /\ @parse_contribution_row ref_lib sample_row_2019 = Ok None).
Proof.
  split.
  - destruct (@received_date_cutoff ref_lib sample_row_2020) as (H & _).
    apply (H 20200101); [vm_compute; reflexivity|unfold MIN_DATE; lia].
  - destruct (@received_date_cutoff ref_lib sample_row_2019) as (_ & H & _).
    apply (H 20191231); [vm_compute; reflexivity|unfold MIN_DATE; lia].
Defined.

(** C1, as the specification states it, fails on a received date shorter
    than eight characters: "2021" is not empty and cannot be read as
    YYYYMMDD, and the filter rejects it. *)
Lemma fail_open_short_counterexample : ~ fail_open_claim "2021".
Proof.
  unfold fail_open_claim, passes_date_filter, unparsable_date. intros H.
  assert (before_min_date "2021" = Ok false) as Hf.
  { apply H; [discriminate|]. left. simpl. lia. }
  vm_compute in Hf. discriminate Hf.
Qed.

(** The rows of the three importers with that received date are dropped,
    identifier or not. *)
Example short_received_date_rows :
  @parse_contribution_row ref_lib
    {[ "receivedDt" := "2021"; "contributionInfoId" := "C-1" ]} = Ok None
  /\ @parse_expenditure_row ref_lib
       {[ "receivedDt" := "2021"; "expendInfoId" := "E-1" ]} = Ok None
  /\ @parse_report_row ref_lib
       {[ "receivedDt" := "2021"; "reportInfoIdent" := "R-1" ]} = Ok None.
Proof. vm_compute. repeat split. Qed.

(** C1, amended.  A received date of at least eight characters whose first
    eight characters [int] cannot read passes the filter, and the report,
    contribution and expenditure rows carrying it are rejected only for a
    missing identifier.  A non-empty received date of fewer than eight
    characters is read as the integer 0 and is rejected. *)
Theorem unparsable_date_fail_open `{L : PyLib} (row : gmap string string) :
  ((8 <= Py.len (row_get row "receivedDt"))%nat ->
   Py.int (Py.slice 0 8 (row_get row "receivedDt")) = Raise ValueError ->
   passes_date_filter (row_get row "receivedDt")
   /\ (parse_report_row row = Ok None <-> row_get row "reportInfoIdent" = "")
   /\ (parse_contribution_row row = Ok None
       <-> row_get row "contributionInfoId" = "")
   /\ (parse_expenditure_row row = Ok None <-> row_get row "expendInfoId" = ""))
  /\ (row_get row "receivedDt" ≠ "" ->
      (Py.len (row_get row "receivedDt") < 8)%nat ->
      rejected_by_date (row_get row "receivedDt")
      /\ parse_report_row row = Ok None
      /\ parse_contribution_row row = Ok None
      /\ parse_expenditure_row row = Ok None).
Proof.
  split.
  - intros Hlen Hint.
    assert (passes_date_filter (row_get row "receivedDt")) as Hp.
    { unfold passes_date_filter. rewrite before_min_date_unfold, Hint.
      apply Nat.leb_le in Hlen. rewrite Hlen.
      destruct (Py.truthy _); reflexivity. }
    split; [exact Hp|].
    split; [apply passes_report, Hp|].
    split; [apply passes_contribution, Hp|apply passes_expenditure, Hp].
  - intros Hne Hlen.
    assert (rejected_by_date (row_get row "receivedDt")) as Hr.
    { unfold rejected_by_date. rewrite before_min_date_unfold.
      apply truthy_true in Hne. rewrite Hne.
      apply Nat.leb_gt in Hlen. rewrite Hlen. reflexivity. }
    split; [exact Hr|].
    split; [apply parse_report_row_rejects; left; exact Hr|].
    split; [apply parse_contribution_row_rejects; left; exact Hr|].
    apply parse_expenditure_row_rejects; left; exact Hr.
Qed.

Lemma unparsable_date_fail_open_witness :
  passes_date_filter (row_get sample_row_dashed "receivedDt")
  /\ rejected_by_date (row_get sample_row_short "receivedDt").
Proof.
  split.
  - destruct (@unparsable_date_fail_open ref_lib sample_row_dashed) as (H & _).
    apply H; [vm_compute; lia|vm_compute; reflexivity].
  - destruct (@unparsable_date_fail_open ref_lib sample_row_short) as (_ & H).
    apply H; [vm_compute; discriminate|vm_compute; lia].
Defined.

(** ** Contributions: what is rejected *)

(** C3, as the specification states it, fails on a row that has an
    identifier and no filer id, amount or contributor name: the importer
    accepts it. *)
Lemma required_fields_counterexample :
  ~ @required_fields_claim ref_lib sample_row_bare.
Proof.
  unfold required_fields_claim. intros [_ H].
  assert (@parse_contribution_row ref_lib sample_row_bare = Ok None) as Hn.
  { apply H. left. reflexivity. }
  vm_compute in Hn. discriminate Hn.
Qed.

(** The record the importer builds from that row. *)
Example bare_row_accepted :
  @parse_contribution_row ref_lib sample_row_bare
  = Ok (Some {| Contribution.id := "C-5";
                Contribution.filer_id := "";
                Contribution.filer_name := "";
                Contribution.contributor_name := "Unknown";
                Contribution.contributor_type := "";
                Contribution.contributor_city := "";
                Contribution.contributor_state := "";
                Contribution.contributor_employer := "";
                Contribution.contributor_occupation := "";
                Contribution.amount := Ref.Finite false 0 0;
                Contribution.date := None;
                Contribution.description := "";
                Contribution.report_id := "";
                Contribution.received_date := None |}).
Proof. vm_compute. reflexivity. Qed.

Lemma build_name_unknown : build_name "" "" "" "" = "Unknown".
Proof. reflexivity. Qed.

(** C3, amended.  [parse_contribution_row] rejects a row without an
    identifier, and rejects a row exactly when the received-date filter stops
    it or its identifier is absent.  It checks no other field: a row that
    passes the filter and has an identifier is accepted, with the filer id
    copied as it is (empty when absent), the amount 0.0 when the amount column
    is absent and the contributor name "Unknown" when the organisation, last
    and first names all are. *)
Theorem contribution_rejection `{L : PyLib} (row : gmap string string) :
  (row_get row "contributionInfoId" = "" -> parse_contribution_row row = Ok None)
  /\ (parse_contribution_row row = Ok None
      <-> rejected_by_date (row_get row "receivedDt")
          \/ row_get row "contributionInfoId" = "")
  /\ (passes_date_filter (row_get row "receivedDt") ->
      row_get row "contributionInfoId" ≠ "" ->
      exists c,
        parse_contribution_row row = Ok (Some c)
        /\ Contribution.id c = row_get row "contributionInfoId"
        /\ Contribution.filer_id c = row_get row "filerIdent"
        /\ (row_get row "contributionAmount" = "" ->
            Contribution.amount c = float_zero)
        /\ (row_get row "contributorNameOrganization" = "" ->
            row_get row "contributorNameLast" = "" ->
            row_get row "contributorNameFirst" = "" ->
            Contribution.contributor_name c = "Unknown")).
Proof.
  split; [|split].
  - intros Hid. apply parse_contribution_row_rejects. right. exact Hid.
  - apply parse_contribution_row_rejects.
  - intros Hp Hid.
    destruct (parse_contribution_row_accepts row Hp Hid)
      as (c & Hc & Hcid & Hfiler & Hname & Hamount).
    exists c. repeat split_and; try assumption.
    + intros Hempty. rewrite Hempty, parse_amount_empty in Hamount. congruence.
    + intros Horg Hlast Hfirst. rewrite Hname.
      unfold build_contributor_name. rewrite Horg, Hlast, Hfirst.
      reflexivity.
Qed.

Lemma contribution_rejection_witness :
  exists c,
    @parse_contribution_row ref_lib sample_row_bare = Ok (Some c)
    /\ Contribution.id c = row_get sample_row_bare "contributionInfoId"
    /\ Contribution.filer_id c = row_get sample_row_bare "filerIdent"
    /\ (row_get sample_row_bare "contributionAmount" = "" ->
        Contribution.amount c = float_zero)
    /\ (row_get sample_row_bare "contributorNameOrganization" = "" ->
        row_get sample_row_bare "contributorNameLast" = "" ->
        row_get sample_row_bare "contributorNameFirst" = "" ->
        Contribution.contributor_name c = "Unknown").
Proof.
  destruct (@contribution_rejection ref_lib sample_row_bare) as (_ & _ & H).
  apply H; [vm_compute; reflexivity|vm_compute; discriminate].
Defined.

(** ** Reports: the aggregated report type *)

Lemma report_type_column_names :
  report_type_column <$> seq 1 10 = report_type_columns.
Proof. vm_compute. reflexivity. Qed.

Lemma report_types_fold (row : gmap string string) (columns : list nat) :
  forall report_types,
    fold_left (report_types_step row) columns report_types
    = report_types
      ++ List.filter Py.truthy
           ((fun i => Py.strip (row_get row (report_type_column i))) <$> columns).
Proof.
  induction columns as [|i columns IH]; intros acc; simpl.
  - rewrite app_nil_r. reflexivity.
  - rewrite IH. unfold report_types_step.
    destruct (Py.truthy (Py.strip (row_get row (report_type_column i)))).
    + rewrite <- app_assoc. reflexivity.
    + reflexivity.
Qed.

Lemma collect_report_types_columns (row : gmap string string) :
  collect_report_types row
  = List.filter Py.truthy
      ((fun column => Py.strip (row_get row column)) <$> report_type_columns).
Proof.
  unfold collect_report_types. rewrite report_types_fold. simpl app.
  rewrite <- report_type_column_names, <- list_fmap_compose. reflexivity.
Qed.

Lemma build_report_type_stripped (row : gmap string string) :
  build_report_type row = report_type_of_stripped row.
Proof.
  unfold build_report_type, report_type_of_stripped.
  rewrite collect_report_types_columns.
  destruct (List.filter _ _); reflexivity.
Qed.

Lemma filter_none {A} (p : A -> bool) (l : list A) :
  Forall (fun x => p x = false) l -> List.filter p l = [].
Proof.
  induction 1 as [|x l Hx _ IH]; simpl; [reflexivity|]. rewrite Hx. exact IH.
Qed.

Section ReportProperties.
Context `{L : PyLib}.

Lemma parse_report_row_accepts (row : gmap string string) :
  passes_date_filter (row_get row "receivedDt") ->
  row_get row "reportInfoIdent" ≠ "" ->
  exists r,
    parse_report_row row = Ok (Some r)
    /\ Report.id r = row_get row "reportInfoIdent"
    /\ Report.report_type r = build_report_type row.
Proof.
  unfold parse_report_row, passes_date_filter. intros -> Hid.
  apply truthy_true in Hid. simpl. rewrite Hid. simpl.
  run_field_parsers.
  simpl. eexists. split; [reflexivity|]. simpl. auto.
Qed.

End ReportProperties.

(** C9, as the specification states it, fails on a report-type column that
    holds only whitespace: the value is not empty, and the importer does not
    collect it. *)
Lemma report_type_counterexample :
  build_report_type sample_report_blank
  ≠ report_type_of_nonempty sample_report_blank.
Proof. vm_compute. discriminate. Qed.

Example report_type_examples :
  build_report_type sample_report_blank = None
  /\ report_type_of_nonempty sample_report_blank = Some " "
  /\ build_report_type sample_report_padded = Some "SEMI, FINAL"
  /\ report_type_of_nonempty sample_report_padded = Some " SEMI , FINAL".
Proof. vm_compute. repeat split. Qed.

(** C9, amended.  The report type is built from the ten columns
    reportTypeCd1 to reportTypeCd10 in column order: each value is stripped
    of surrounding whitespace, the ones that are then non-empty are
    collected, stripped, and joined with ", ".  With no such value the report
    type is [None], and the row is not rejected for it: a row that passes the
    date filter and has an identifier yields a record with that report
    type. *)
Theorem report_type_aggregation `{L : PyLib} (row : gmap string string) :
  build_report_type row = report_type_of_stripped row
  /\ (Forall (fun column => Py.strip (row_get row column) = "") report_type_columns
      -> build_report_type row = None)
  /\ (parse_report_row row = Ok None
      <-> rejected_by_date (row_get row "receivedDt")
          \/ row_get row "reportInfoIdent" = "")
  /\ (passes_date_filter (row_get row "receivedDt") ->
      row_get row "reportInfoIdent" ≠ "" ->
      exists r, parse_report_row row = Ok (Some r)
                /\ Report.report_type r = build_report_type row).
Proof.
  split; [apply build_report_type_stripped|].
  split; [|split].
  - intros Hblank. rewrite build_report_type_stripped.
    unfold report_type_of_stripped. rewrite filter_none; [reflexivity|].
    apply Forall_fmap. eapply Forall_impl; [exact Hblank|].
    intros column Hc. simpl. rewrite Hc. reflexivity.
  - apply parse_report_row_rejects.
  - intros Hp Hid.
    destruct (parse_report_row_accepts row Hp Hid) as (r & Hr & _ & Ht).
    exists r. split; assumption.
Qed.

Lemma report_type_aggregation_witness :
  exists r,
    @parse_report_row ref_lib sample_report_blank = Ok (Some r)
    /\ Report.report_type r = build_report_type sample_report_blank.
Proof.
  destruct (@report_type_aggregation ref_lib sample_report_blank) as (_ & _ & _ & H).
  apply H; [vm_compute; reflexivity|vm_compute; discriminate].
Defined.

(** ** Filers: first occurrence wins *)

Lemma parse_filer_row_id (row : gmap string string) :
  Filer.id (parse_filer_row row) = row_get row "filerIdent".
Proof. reflexivity. Qed.

Lemma first_occurrence_snoc (key x : string) (pre : list (gmap string string))
    (r0 r : gmap string string) :
  first_occurrence key x (pre ++ [r0]) r <->
  first_occurrence key x pre r
  \/ ((forall r', r' ∈ pre -> row_get r' key ≠ x) /\ r = r0 /\ row_get r0 key = x).
Proof.
  split.
  - intros (p1 & p2 & Heq & Hpre & Hr).
    destruct p2 as [|y p2 _] using rev_ind.
    + apply app_inj_tail in Heq as [-> ->]. right. auto.
    + rewrite app_comm_cons, app_assoc in Heq.
      apply app_inj_tail in Heq as [-> ->]. left. exists p1, p2. auto.
  - intros [(p1 & p2 & -> & Hpre & Hr)|(Hpre & -> & Hr)].
    + exists p1, (p2 ++ [r0]). rewrite <- app_assoc. auto.
    + exists pre, []. auto.
Qed.

Lemma first_occurrence_unique (key x : string) (rows : list (gmap string string))
    (r1 r2 : gmap string string) :
  first_occurrence key x rows r1 -> first_occurrence key x rows r2 -> r1 = r2.
Proof.
  intros (p1 & q1 & -> & Hp1 & Hr1) (p2 & q2 & Heq & Hp2 & Hr2).
  revert p2 Heq Hp2. induction p1 as [|a p1 IH]; intros [|b p2] Heq Hp2.
  - simpl in Heq. congruence.
  - simpl in Heq. injection Heq as -> _.
    exfalso. apply (Hp2 b); [left|exact Hr1].
  - simpl in Heq. injection Heq as -> _.
    exfalso. apply (Hp1 r2); [left|exact Hr2].
  - simpl in Heq. injection Heq as -> Heq.
    apply (IH (fun r' Hin => Hp1 r' (list_elem_of_further _ _ _ Hin)) p2 Heq).
    intros r' Hin. apply Hp2. right. exact Hin.
Qed.

Lemma first_occurrence_elem (key x : string) (rows : list (gmap string string))
    (r : gmap string string) :
  first_occurrence key x rows r -> r ∈ rows /\ row_get r key = x.
Proof.
  intros (p & q & -> & _ & Hr). split; [|exact Hr].
  apply elem_of_app. right. left.
Qed.

Lemma filers_inv_init : filers_inv [] ([], ∅).
Proof.
  split; simpl.
  - intros x. split; [set_solver|].
    intros (_ & r & Hr & _). inversion Hr.
  - intros f Hf. inversion Hf.
  - intros x r (p & q & Heq & _). destruct p; discriminate.
  - constructor.
Qed.

Lemma filers_inv_skip (pre : list (gmap string string))
    (filers : list Filer.t) (seen_ids : gset string) (r0 : gmap string string) :
  filers_inv pre (filers, seen_ids) ->
  row_get r0 "filerIdent" = "" \/ row_get r0 "filerIdent" ∈ seen_ids ->
  filers_inv (pre ++ [r0]) (filers, seen_ids).
Proof.
  intros [Hseen Hfirst Hemit Hnodup] Hskip. cbn [fst snd] in *.
  assert (forall x, row_get r0 "filerIdent" = x -> x ≠ "" ->
                    exists r, r ∈ pre /\ row_get r "filerIdent" = x) as Hold.
  { intros x <- Hne. destruct Hskip as [Hempty|Hin]; [contradiction|].
    apply Hseen in Hin as [_ Hin]. exact Hin. }
  split; cbn [fst snd].
  - intros x. rewrite Hseen. split.
    + intros (Hne & r & Hr & Hx). split; [exact Hne|].
      exists r. split; [apply elem_of_app; left; exact Hr|exact Hx].
    + intros (Hne & r & Hr & Hx). split; [exact Hne|].
      apply elem_of_app in Hr as [Hr|Hr]; [eauto|].
      apply list_elem_of_singleton in Hr as ->. apply Hold; assumption.
  - intros f Hf. destruct (Hfirst f Hf) as (Hn & Hi & r & Hr & Hfr).
    split; [exact Hn|]. split; [exact Hi|].
    exists r. split; [|exact Hfr].
    apply first_occurrence_snoc. left. exact Hr.
  - intros x r Hr Hne Hname.
    apply first_occurrence_snoc in Hr as [Hr|(Hpre & -> & Hx)]; [eauto|].
    exfalso. destruct (Hold x Hx Hne) as (r & Hr & Hrx).
    exact (Hpre r Hr Hrx).
  - exact Hnodup.
Qed.

Lemma filers_inv_new (pre : list (gmap string string))
    (filers : list Filer.t) (seen_ids : gset string) (r0 : gmap string string) :
  filers_inv pre (filers, seen_ids) ->
  row_get r0 "filerIdent" ≠ "" -> row_get r0 "filerIdent" ∉ seen_ids ->
  filers_inv (pre ++ [r0])
    (if negb (Py.truthy (Filer.name (parse_filer_row r0))) then filers
     else filers ++ [parse_filer_row r0],
     {[row_get r0 "filerIdent"]} ∪ seen_ids).
Proof.
  intros [Hseen Hfirst Hemit Hnodup] Hne Hnew. cbn [fst snd] in *.
  assert (forall r', r' ∈ pre -> row_get r' "filerIdent" ≠ row_get r0 "filerIdent")
    as Hfresh.
  { intros r' Hr' Heq. apply Hnew, Hseen. split; [exact Hne|eauto]. }
  assert (first_occurrence "filerIdent" (row_get r0 "filerIdent") (pre ++ [r0]) r0)
    as Hocc.
  { exists pre, []. auto. }
  split; cbn [fst snd].
  - intros x. rewrite elem_of_union, elem_of_singleton, Hseen. split.
    + intros [->|(Hx & r & Hr & Hrx)].
      * split; [exact Hne|]. exists r0. split; [|reflexivity].
        apply elem_of_app. right. left.
      * split; [exact Hx|]. exists r. split; [|exact Hrx].
        apply elem_of_app. left. exact Hr.
    + intros (Hx & r & Hr & Hrx).
      apply elem_of_app in Hr as [Hr|Hr]; [right; eauto|].
      apply list_elem_of_singleton in Hr as ->. left. congruence.
  - intros f Hf.
    assert (f ∈ filers
            \/ (f = parse_filer_row r0
                /\ Py.truthy (Filer.name (parse_filer_row r0)) = true)) as [Hold|[-> Hn]].
    { destruct (Py.truthy (Filer.name (parse_filer_row r0))); cbn [negb] in Hf; [|auto].
      apply elem_of_app in Hf as [Hf|Hf]; [auto|].
      apply list_elem_of_singleton in Hf. auto. }
    + destruct (Hfirst f Hold) as (Hn & Hi & r & Hr & Hfr).
      split; [exact Hn|]. split; [exact Hi|]. exists r. split; [|exact Hfr].
      apply first_occurrence_snoc. left. exact Hr.
    + split; [apply truthy_true; exact Hn|]. split; [exact Hne|].
      exists r0. split; [exact Hocc|reflexivity].
  - intros x r Hr Hx Hname.
    apply first_occurrence_snoc in Hr as [Hr|(_ & -> & _)].
    + specialize (Hemit x r Hr Hx Hname).
      destruct (negb _); [exact Hemit|]. apply elem_of_app. left. exact Hemit.
    + apply truthy_true in Hname. rewrite Hname. cbn [negb].
      apply elem_of_app. right. left.
  - destruct (negb _); [exact Hnodup|].
    rewrite fmap_app. apply NoDup_app. split; [exact Hnodup|].
    split; [|apply NoDup_singleton].
    intros x Hx Hx'. cbn [fmap list_fmap] in Hx'. apply list_elem_of_singleton in Hx' as ->.
    apply list_elem_of_fmap in Hx as (f & Hid & Hf).
    destruct (Hfirst f Hf) as (_ & _ & r & Hr & _).
    apply first_occurrence_elem in Hr as [Hr Hrx].
    apply (Hfresh r Hr). rewrite Hrx, <- Hid. reflexivity.
Qed.

Lemma filers_inv_step (pre : list (gmap string string))
    (st : list Filer.t * gset string) (r0 : gmap string string) :
  filers_inv pre st -> filers_inv (pre ++ [r0]) (filers_step st r0).
Proof.
  destruct st as [filers seen_ids]. intros Hinv. unfold filers_step. cbv zeta.
  destruct (Py.truthy (row_get r0 "filerIdent")) eqn:Hid; cbn [negb orb].
  - case_bool_decide as Hseen.
    + apply filers_inv_skip; auto.
    + apply truthy_true in Hid.
      pose proof (filers_inv_new pre filers seen_ids r0 Hinv Hid Hseen) as Hnew.
      destruct (negb (Py.truthy (Filer.name (parse_filer_row r0)))); exact Hnew.
  - apply truthy_false in Hid. apply filers_inv_skip; auto.
Qed.

Lemma read_filers_inv (rows : list (gmap string string)) :
  filers_inv rows (read_filers rows).
Proof.
  unfold read_filers. induction rows as [|r0 rows IH] using rev_ind.
  - apply filers_inv_init.
  - rewrite fold_left_app. simpl. apply filers_inv_step, IH.
Qed.

(** ** Reading without an index of identities *)

Section ReadRowsProperties.
Context {R : Type} (parse : gmap string string -> result (option R)).
Hypothesis parse_returns : forall row, exists v, parse row = Ok v.

Lemma omap_accepted_length (rows : list (gmap string string)) :
  (length (omap (accepted parse) rows) <= length rows)%nat.
Proof.
  induction rows as [|row rows IH]; csimpl; [lia|].
  destruct (accepted parse row); csimpl; lia.
Qed.

Lemma read_from_accepted (rows : list (gmap string string)) :
  forall records skipped,
    read_from parse (records, skipped) rows
    = Ok (records ++ omap (accepted parse) rows,
          (skipped + (length rows - length (omap (accepted parse) rows)))%nat).
Proof.
  induction rows as [|row rows IH]; intros records skipped; csimpl.
  - rewrite app_nil_r, Nat.add_0_r. reflexivity.
  - pose proof (omap_accepted_length rows) as Hlen.
    destruct (parse_returns row) as [v Hv].
    assert (accepted parse row = v) as Hacc.
    { unfold accepted. rewrite Hv. destruct v; reflexivity. }
    unfold read_step. rewrite Hv, Hacc. destruct v as [r|]; csimpl.
    + rewrite IH, <- app_assoc. reflexivity.
    + rewrite IH. do 2 f_equal. lia.
Qed.

(** Every row is kept or dropped on its own merits: the records read are
    those of the accepted rows, in order, repeated rows included. *)
Lemma read_rows_accepted (rows : list (gmap string string)) :
  read_rows parse rows
  = Ok (omap (accepted parse) rows,
        (length rows - length (omap (accepted parse) rows))%nat).
Proof. unfold read_rows. rewrite read_from_accepted. reflexivity. Qed.

End ReadRowsProperties.

Section NoIndex.
Context `{L : PyLib}.

Lemma parse_report_row_returns (row : gmap string string) :
  exists v, parse_report_row row = Ok v.
Proof.
  destruct (before_min_date_returns (row_get row "receivedDt")) as [[] Hskip].
  - exists None. apply parse_report_row_rejects. left. exact Hskip.
  - destruct (decide (row_get row "reportInfoIdent" = "")) as [Hid|Hid].
    + exists None. apply parse_report_row_rejects. right. exact Hid.
    + destruct (parse_report_row_accepts row Hskip Hid) as (r & -> & _). eauto.
Qed.

Lemma parse_contribution_row_returns (row : gmap string string) :
  exists v, parse_contribution_row row = Ok v.
Proof.
  destruct (before_min_date_returns (row_get row "receivedDt")) as [[] Hskip].
  - exists None. apply parse_contribution_row_rejects. left. exact Hskip.
  - destruct (decide (row_get row "contributionInfoId" = "")) as [Hid|Hid].
    + exists None. apply parse_contribution_row_rejects. right. exact Hid.
    + destruct (parse_contribution_row_accepts row Hskip Hid) as (r & -> & _). eauto.
Qed.

Lemma parse_expenditure_row_returns (row : gmap string string) :
  exists v, parse_expenditure_row row = Ok v.
Proof.
  unfold parse_expenditure_row.
  destruct (before_min_date_returns (row_get row "receivedDt")) as [skip ->].
  simpl. destruct skip; [eauto|].
  destruct (Py.truthy (row_get row "expendInfoId")); simpl; [|eauto].
  run_field_parsers.
  simpl. eauto.
Qed.

End NoIndex.

(** C7. The filer importer keeps one record per identity, the one derived
    from the first row that bears it: emitted identities are unique, every
    emitted record comes from the first row with its identity, that first row
    is emitted whenever it has an identity and a name, and a later row with
    the same identity and other derived values is dropped.  The report,
    contribution and expenditure importers keep no index of identities: what
    they read is the list of the records of the accepted rows, each row
    judged on its own, so a repeated row is read twice. *)
Theorem deduplication_filer_only `{L : PyLib} (rows : list (gmap string string)) :
  NoDup (Filer.id <$> (read_filers rows).1)
  /\ (forall f, f ∈ (read_filers rows).1 ->
        exists r, first_occurrence "filerIdent" (Filer.id f) rows r
                  /\ f = parse_filer_row r)
  /\ (forall x r, first_occurrence "filerIdent" x rows r ->
        x ≠ "" -> Filer.name (parse_filer_row r) ≠ "" ->
        parse_filer_row r ∈ (read_filers rows).1)
  /\ (forall x r1 r2, first_occurrence "filerIdent" x rows r1 ->
        r2 ∈ rows -> row_get r2 "filerIdent" = x ->
        parse_filer_row r2 ≠ parse_filer_row r1 ->
        parse_filer_row r2 ∉ (read_filers rows).1)
  /\ (exists skipped,
        read_rows parse_report_row rows
        = Ok (omap (accepted parse_report_row) rows, skipped))
  /\ (exists skipped,
        read_rows parse_contribution_row rows
        = Ok (omap (accepted parse_contribution_row) rows, skipped))
  /\ (exists skipped,
        read_rows parse_expenditure_row rows
        = Ok (omap (accepted parse_expenditure_row) rows, skipped)).
Proof.
  destruct (read_filers_inv rows) as [_ Hfirst Hemit Hnodup].
  repeat split_and.
  - exact Hnodup.
  - intros f Hf. destruct (Hfirst f Hf) as (_ & _ & H). exact H.
  - exact Hemit.
  - intros x r1 r2 Hr1 _ Hx Hne Hin.
    destruct (Hfirst _ Hin) as (_ & _ & r & Hr & Heq).
    rewrite parse_filer_row_id, Hx in Hr.
    rewrite (first_occurrence_unique _ _ _ _ _ Hr1 Hr) in Hne. auto.
  - eexists. apply read_rows_accepted, parse_report_row_returns.
  - eexists. apply read_rows_accepted, parse_contribution_row_returns.
  - eexists. apply read_rows_accepted, parse_expenditure_row_returns.
Qed.

(** On the sample file the second row for F-1 leaves no trace. *)
Example read_filers_sample :
  (read_filers [sample_filer_a; sample_filer_a'; sample_filer_b]).1
  = [parse_filer_row sample_filer_a; parse_filer_row sample_filer_b]
  /\ Filer.name (parse_filer_row sample_filer_a) = "Alpha PAC"
  /\ Filer.name (parse_filer_row sample_filer_b) = "Doe, Jane".
Proof. vm_compute. repeat split. Qed.

(** A repeated contribution row is read twice. *)
Example read_contributions_repeated :
  exists c,
    @read_rows (Contribution.t Ref.float_val) (@parse_contribution_row ref_lib)
      [sample_row_2020; sample_row_2020]
    = Ok ([c; c], 0%nat).
Proof. eexists. vm_compute. reflexivity. Qed.

Lemma deduplication_filer_only_witness :
  parse_filer_row sample_filer_a'
  ∉ (read_filers [sample_filer_a; sample_filer_a'; sample_filer_b]).1.
Proof.
  destruct (@deduplication_filer_only ref_lib
              [sample_filer_a; sample_filer_a'; sample_filer_b])
    as (_ & _ & _ & H & _).
  apply (H "F-1" sample_filer_a sample_filer_a').
  - exists [], [sample_filer_a'; sample_filer_b].
    split; [reflexivity|]. split; [|vm_compute; reflexivity].
    intros r' Hr'. inversion Hr'.
  - right. left.
  - vm_compute. reflexivity.
  - vm_compute. discriminate.
Defined.

(** C10. [import_filers] adds an identity to [seen_ids] before it looks at
    the name.  When the first row bearing an identity derives an empty name,
    no record with that identity is emitted, whatever the later rows with
    that identity hold; the identity, if not empty, is in [seen_ids]. *)
Theorem unnamed_first_row_blocks_identity (rows : list (gmap string string))
    (x : string) (r : gmap string string) :
  first_occurrence "filerIdent" x rows r ->
  Filer.name (parse_filer_row r) = "" ->
  (forall f, f ∈ (read_filers rows).1 -> Filer.id f ≠ x)
  /\ (x ≠ "" -> x ∈ (read_filers rows).2).
Proof.
  intros Hr Hname. destruct (read_filers_inv rows) as [Hseen Hfirst _ _]. split.
  - intros f Hf Hid.
    destruct (Hfirst f Hf) as (Hn & _ & r' & Hr' & ->).
    rewrite Hid in Hr'.
    rewrite (first_occurrence_unique _ _ _ _ _ Hr' Hr) in Hn. auto.
  - intros Hx. apply Hseen. split; [exact Hx|].
    apply first_occurrence_elem in Hr as [Hin Hrx]. eauto.
Qed.

Lemma unnamed_first_row_blocks_identity_witness :
  (forall f, f ∈ (read_filers [sample_filer_unnamed; sample_filer_named]).1 ->
             Filer.id f ≠ "F-9")
  /\ ("F-9" ≠ "" -> "F-9" ∈ (read_filers [sample_filer_unnamed; sample_filer_named]).2).
Proof.
  apply (unnamed_first_row_blocks_identity
           [sample_filer_unnamed; sample_filer_named] "F-9" sample_filer_unnamed).
  - exists [], [sample_filer_named].
    split; [reflexivity|]. split; [|vm_compute; reflexivity].
    intros r' Hr'. inversion Hr'.
  - vm_compute. reflexivity.
Defined.

(** The later row alone would have been imported. *)
Example named_row_alone :
  (read_filers [sample_filer_named]).1 = [parse_filer_row sample_filer_named]
  /\ (read_filers [sample_filer_unnamed; sample_filer_named]).1 = [].
Proof. vm_compute. repeat split. Qed.

(** ** Batches *)

Section BatchProperties.
Context {A : Type}.

Lemma list_slice_drop (n i : nat) (l : list A) :
  list_slice (n + i) (n + i + n) l = list_slice i (i + n) (drop n l).
Proof.
  unfold list_slice. rewrite drop_drop. f_equal; lia.
Qed.

Lemma range_count_step (len n : nat) :
  (0 < len)%nat -> (0 < n)%nat ->
  ((len + n - 1) / n = S ((len - n + n - 1) / n))%nat.
Proof.
  intros Hlen Hn. destruct (le_lt_dec n len) as [Hle|Hlt].
  - replace (len + n - 1)%nat with (len - n + n - 1 + 1 * n)%nat by lia.
    rewrite Nat.div_add by lia. lia.
  - replace (len - n + n - 1)%nat with (n - 1)%nat by lia.
    rewrite (Nat.div_small (n - 1)) by lia.
    replace (len + n - 1)%nat with (len - 1 + 1 * n)%nat by lia.
    rewrite Nat.div_add by lia. rewrite Nat.div_small by lia. reflexivity.
Qed.

(** The first batch is the first [step] records, the others are the batches
    of the rest. *)
Lemma batches_cons (step : positive) (l : list A) :
  l ≠ [] ->
  batches step l = take (Pos.to_nat step) l :: batches step (drop (Pos.to_nat step) l).
Proof.
  intros Hl. unfold batches, range_step.
  pose proof (Pos2Nat.is_pos step) as Hn. set (n := Pos.to_nat step) in *.
  assert (0 < length l)%nat as Hlen by (destruct l; [congruence|simpl; lia]).
  rewrite (range_count_step (length l) n Hlen Hn), length_drop.
  cbn [seq fmap list_fmap]. f_equal.
  - unfold list_slice. simpl. f_equal. lia.
  - rewrite <- fmap_S_seq, <- !list_fmap_compose.
    apply list_fmap_ext. intros _ k _. simpl.
    rewrite <- (list_slice_drop n (k * n)). f_equal; lia.
Qed.

Lemma batches_nil (step : positive) : batches step (@nil A) = [].
Proof.
  unfold batches, range_step. simpl.
  rewrite Nat.div_small by lia. reflexivity.
Qed.

(** Splitting loses nothing and keeps the order; every batch is non-empty
    and of at most [step] records. *)
Lemma batches_partition (step : positive) (l : list A) :
  concat (batches step l) = l
  /\ Forall (fun b => (0 < length b <= Pos.to_nat step)%nat) (batches step l).
Proof.
  pose proof (Pos2Nat.is_pos step) as Hn.
  remember (length l) as len eqn:Hlen. revert l Hlen.
  induction len as [len IH] using lt_wf_ind. intros l Hlen.
  destruct l as [|x l'] eqn:Hl.
  - rewrite batches_nil. split; [reflexivity|constructor].
  - rewrite <- Hl in *. assert (l ≠ []) as Hne by (rewrite Hl; discriminate).
    rewrite (batches_cons step l Hne).
    destruct (IH (length (drop (Pos.to_nat step) l))
                (ltac:(rewrite length_drop, Hlen, Hl; simpl; lia))
                (drop (Pos.to_nat step) l) eq_refl) as [Hc Hf].
    split.
    + simpl. rewrite Hc. apply take_drop.
    + constructor; [|exact Hf].
      rewrite length_take, Hl. simpl. lia.
Qed.

End BatchProperties.

(** ** The loader against a logged store *)

Lemma imported_app {R : Type} (log1 log2 : call_log R) :
  imported (log1 ++ log2) = (imported log1 + imported log2)%nat.
Proof. unfold imported. apply sum_list_with_app. Qed.

Section LoggedStore.
Context {R : Type} (S : Store R).

Lemma logged_upsert (records : list R) (s : @store R S) (log : call_log R) :
  @upsert R (logged S) records (s, log)
  = ((@upsert R S records s).1,
     ((@upsert R S records s).2,
      log ++ [(records, is_ok (@upsert R S records s).1)])).
Proof. simpl. destruct (@upsert R S records s). reflexivity. Qed.

(** The sub-batches of a failed batch: each is sent once, in order, whether
    or not the ones before it failed. *)
Lemma logged_minis (mini_batches : list (list R)) :
  forall (s : @store R S) (log : call_log R) (total : nat),
  exists s' entries,
    fold_left (@upsert_mini R (logged S)) mini_batches ((s, log), total)
    = ((s', log ++ entries), (total + imported entries)%nat)
    /\ entries.*1 = mini_batches.
Proof.
  induction mini_batches as [|mini rest IH]; intros s log total.
  - exists s, []. simpl. rewrite app_nil_r, Nat.add_0_r. auto.
  - cbn [fold_left]. unfold upsert_mini at 2. rewrite logged_upsert.
    destruct (@upsert R S mini s) as [[[]|e] s1]; cbn [fst snd is_ok].
    + destruct (IH s1 (log ++ [(mini, true)]) (total + length mini)%nat)
        as (s' & entries & Heq & Hcalls).
      exists s', ((mini, true) :: entries). split; [|rewrite fmap_cons; cbn [fst]; f_equal; exact Hcalls].
      etransitivity; [exact Heq|].
      rewrite <- app_assoc. cbn [app]. f_equal. unfold imported. simpl. lia.
    + destruct (IH s1 (log ++ [(mini, false)]) total)
        as (s' & entries & Heq & Hcalls).
      exists s', ((mini, false) :: entries). split; [|rewrite fmap_cons; cbn [fst]; f_equal; exact Hcalls].
      etransitivity; [exact Heq|].
      rewrite <- app_assoc. cbn [app]. f_equal.
Qed.

Lemma logged_batch (fallback : positive) (batch : list R)
    (s : @store R S) (log : call_log R) (total : nat) :
  exists s' entries,
    @upsert_batch R (logged S) fallback ((s, log), total) batch
    = ((s', log ++ entries), (total + imported entries)%nat)
    /\ entries.*1
       = batch :: (if is_ok (@upsert R S batch s).1 then []
                   else batches fallback batch).
Proof.
  unfold upsert_batch. rewrite logged_upsert.
  destruct (@upsert R S batch s) as [[[]|e] s1]; cbn [fst snd is_ok].
  - exists s1, [(batch, true)]. split; [|reflexivity].
    f_equal. unfold imported. simpl. lia.
  - destruct (logged_minis (batches fallback batch) s1 (log ++ [(batch, false)]) total)
      as (s' & entries & Heq & Hcalls).
    exists s', ((batch, false) :: entries). split; [|rewrite fmap_cons; cbn [fst]; f_equal; exact Hcalls].
    etransitivity; [exact Heq|].
    rewrite <- app_assoc. cbn [app]. f_equal.
Qed.

Lemma logged_batches (fallback : positive) (all_batches : list (list R)) :
  forall (s : @store R S) (log : call_log R) (total : nat),
  exists s' entries,
    fold_left (@upsert_batch R (logged S) fallback) all_batches ((s, log), total)
    = ((s', log ++ entries), (total + imported entries)%nat).
Proof.
  induction all_batches as [|batch rest IH]; intros s log total.
  - exists s, []. simpl. rewrite app_nil_r, Nat.add_0_r. reflexivity.
  - cbn [fold_left].
    destruct (logged_batch fallback batch s log total) as (s1 & e1 & Heq1 & _).
    destruct (IH s1 (log ++ e1) (total + imported e1)%nat) as (s' & e2 & Heq2).
    exists s', (e1 ++ e2).
    etransitivity; [apply (f_equal (fold_left _ rest) Heq1)|].
    etransitivity; [exact Heq2|].
    rewrite imported_app, <- app_assoc. f_equal. lia.
Qed.

End LoggedStore.

(** ** The importers against a logged store *)

Section ImportersLogged.
Context `{L : PyLib}.

(** [import_contributions], one file: the rows are read, the accepted ones
    are loaded in batches of 1000 with sub-batches of 100, and
    [total_imported] grows by the number of records in the calls that
    succeeded. *)
Lemma import_contributions_file_count (S : Store (Contribution.t pyfloat))
    (rows : list (gmap string string)) (s : @store _ S)
    (log : call_log (Contribution.t pyfloat)) (total skipped : nat) :
  exists s' entries skipped',
    @import_contributions_file L (logged S) ((s, log), total, skipped) rows
    = Ok ((s', log ++ entries), (total + imported entries)%nat, skipped').
Proof.
  unfold import_contributions_file.
  rewrite (read_rows_accepted _ parse_contribution_row_returns). cbn [mbind result_bind].
  unfold load_batches.
  destruct (logged_batches S MINI_BATCH_SIZE
              (batches BATCH_SIZE (omap (accepted parse_contribution_row) rows))
              s log total) as (s' & entries & Heq).
  exists s', entries. eexists.
  match goal with
  | |- (let '(_, _) := ?x in _) = _ => replace x with ((s', log ++ entries), (total + imported entries)%nat)
  end.
  reflexivity.
Qed.

Lemma import_expenditures_file_count (S : Store (Expenditure.t pyfloat))
    (rows : list (gmap string string)) (s : @store _ S)
    (log : call_log (Expenditure.t pyfloat)) (total skipped : nat) :
  exists s' entries skipped',
    @import_expenditures_file L (logged S) ((s, log), total, skipped) rows
    = Ok ((s', log ++ entries), (total + imported entries)%nat, skipped').
Proof.
  unfold import_expenditures_file.
  rewrite (read_rows_accepted _ parse_expenditure_row_returns). cbn [mbind result_bind].
  unfold load_batches.
  destruct (logged_batches S MINI_BATCH_SIZE
              (batches BATCH_SIZE (omap (accepted parse_expenditure_row) rows))
              s log total) as (s' & entries & Heq).
  exists s', entries. eexists.
  match goal with
  | |- (let '(_, _) := ?x in _) = _ => replace x with ((s', log ++ entries), (total + imported entries)%nat)
  end.
  reflexivity.
Qed.

Lemma import_contributions_count (S : Store (Contribution.t pyfloat))
    (files : list (list (gmap string string))) :
  forall (s : @store _ S) (log : call_log (Contribution.t pyfloat))
         (total skipped : nat),
  exists s' entries skipped',
    @import_contributions_files L (logged S) ((s, log), total, skipped) files
    = Ok ((s', log ++ entries), (total + imported entries)%nat, skipped').
Proof.
  induction files as [|rows files IH]; intros s log total skipped.
  - exists s, [], skipped. simpl. rewrite app_nil_r, Nat.add_0_r. reflexivity.
  - cbn [import_contributions_files].
    destruct (import_contributions_file_count S rows s log total skipped)
      as (s1 & e1 & k1 & Heq1).
    destruct (IH s1 (log ++ e1) (total + imported e1)%nat k1)
      as (s' & e2 & k' & Heq2).
    exists s', (e1 ++ e2), k'.
    etransitivity; [apply (f_equal (fun m => mbind _ m) Heq1)|].
    etransitivity; [exact Heq2|].
    rewrite imported_app, <- app_assoc, Nat.add_assoc. reflexivity.
Qed.

Lemma import_expenditures_count (S : Store (Expenditure.t pyfloat))
    (files : list (list (gmap string string))) :
  forall (s : @store _ S) (log : call_log (Expenditure.t pyfloat))
         (total skipped : nat),
  exists s' entries skipped',
    @import_expenditures_files L (logged S) ((s, log), total, skipped) files
    = Ok ((s', log ++ entries), (total + imported entries)%nat, skipped').
Proof.
  induction files as [|rows files IH]; intros s log total skipped.
  - exists s, [], skipped. simpl. rewrite app_nil_r, Nat.add_0_r. reflexivity.
  - cbn [import_expenditures_files].
    destruct (import_expenditures_file_count S rows s log total skipped)
      as (s1 & e1 & k1 & Heq1).
    destruct (IH s1 (log ++ e1) (total + imported e1)%nat k1)
      as (s' & e2 & k' & Heq2).
    exists s', (e1 ++ e2), k'.
    etransitivity; [apply (f_equal (fun m => mbind _ m) Heq1)|].
    etransitivity; [exact Heq2|].
    rewrite imported_app, <- app_assoc, Nat.add_assoc. reflexivity.
Qed.

End ImportersLogged.

(** C2, as the specification states it, fails on its own scenario: the
    loader makes four calls, not three. *)
Lemma degradation_counterexample : ~ degradation_claim.
Proof. unfold degradation_claim. vm_compute. discriminate. Qed.

(** C2, amended.  When the upsert of a full batch fails, the loader sends
    every fallback-size sub-batch of it once, in order, whether or not earlier
    ones failed; the sub-batches partition the batch (none is empty, none is
    larger than the fallback size, the last may be smaller, no record is left
    out); and [total_imported] is the number of records in the calls that
    succeeded, in the loader and in [import_contributions] and
    [import_expenditures], which use it with the sizes 1000 and 100.  Against
    the store that rejects batches of more than two records, five records with
    batch size 5 and fallback size 2 take four calls: one failing of size 5,
    then three succeeding of sizes 2, 2 and 1, no record dropped, and
    [total_imported] is 5. *)
Theorem batch_degradation `{L : PyLib} {R : Type} (S : Store R)
    (batch_size fallback : positive) :
  (forall batch : list R,
      concat (batches fallback batch) = batch
      /\ Forall (fun b => (0 < length b <= Pos.to_nat fallback)%nat)
                (batches fallback batch))
  /\ (forall batch s log total e,
        (@upsert R S batch s).1 = Raise e ->
        exists s' entries,
          @upsert_batch R (logged S) fallback ((s, log), total) batch
          = ((s', log ++ entries), (total + imported entries)%nat)
          /\ entries.*1 = batch :: batches fallback batch)
  /\ (forall records s,
        exists s' log,
          @load_batches R (logged S) batch_size fallback records ((s, []), 0%nat)
          = ((s', log), imported log))
  /\ (forall (SC : Store (Contribution.t pyfloat)) files s,
        exists s' log total_skipped,
          @import_contributions L (logged SC) (s, []) files
          = Ok ((s', log), imported log, total_skipped))
  /\ (forall (SE : Store (Expenditure.t pyfloat)) files s,
        exists s' log total_skipped,
          @import_expenditures L (logged SE) (s, []) files
          = Ok ((s', log), imported log, total_skipped))
  /\ degradation_scenario
     = ([([1; 2; 3; 4; 5], false); ([1; 2], true); ([3; 4], true); ([5], true)]%nat,
        5%nat).
Proof.
  repeat split_and.
  - intros batch. apply batches_partition.
  - intros batch s log total e He.
    destruct (logged_batch S fallback batch s log total) as (s' & entries & Heq & Hc).
    rewrite He in Hc. eauto.
  - intros records s. unfold load_batches.
    destruct (logged_batches S fallback (batches batch_size records) s [] 0%nat)
      as (s' & entries & Heq).
    exists s', entries. exact Heq.
  - intros SC files s.
    destruct (import_contributions_count SC files s [] 0%nat 0%nat)
      as (s' & entries & skipped & Heq).
    exists s', entries, skipped. exact Heq.
  - intros SE files s.
    destruct (import_expenditures_count SE files s [] 0%nat 0%nat)
      as (s' & entries & skipped & Heq).
    exists s', entries, skipped. exact Heq.
  - vm_compute. reflexivity.
Qed.

Lemma batch_degradation_witness :
  exists s' entries,
    @upsert_batch nat (logged (size_limited nat 2)) 2
      ((tt, []), 0%nat) [1; 2; 3; 4; 5]%nat
    = ((s', [] ++ entries), (0 + imported entries)%nat)
    /\ entries.*1 = [1; 2; 3; 4; 5]%nat :: batches 2 [1; 2; 3; 4; 5]%nat.
Proof.
  destruct (@batch_degradation ref_lib nat (size_limited nat 2) 5 2)
    as (_ & H & _).
  apply (H [1; 2; 3; 4; 5]%nat tt [] 0%nat (OtherException "APIError")).
  vm_compute. reflexivity.
Defined.

(** With the sizes of the importers: 250 contributions that the store
    rejects as one batch go through as sub-batches of 100, 100 and 50. *)
Example contributions_fallback :
  let '((_, log), total_imported) :=
    @load_batches nat (logged (size_limited nat 100)) BATCH_SIZE MINI_BATCH_SIZE
      (seq 0 250) ((tt, []), 0%nat) in
  ((fun call : list nat * bool => (length call.1, call.2)) <$> log, total_imported)
  = ([(250, false); (100, true); (100, true); (50, true)]%nat, 250%nat).
Proof. vm_compute. reflexivity. Qed.

(** ** City names *)

Lemma forallb_app (p : ascii -> bool) (s t : string) :
  Py.forallb p (s +:+ t) = Py.forallb p s && Py.forallb p t.
Proof.
  induction s as [|c s IH]; simpl; [reflexivity|].
  rewrite IH, andb_assoc. reflexivity.
Qed.

Lemma forallb_lstrip (p q : ascii -> bool) (s : string) :
  Py.forallb p s = true -> Py.forallb p (Py.lstrip_by q s) = true.
Proof.
  induction s as [|c s IH]; simpl; [reflexivity|].
  intros [Hc Hs]%andb_prop. destruct (q c); [auto|].
  simpl. rewrite Hc, Hs. reflexivity.
Qed.

Lemma forallb_rstrip (p q : ascii -> bool) (s : string) :
  Py.forallb p s = true -> Py.forallb p (Py.rstrip_by q s) = true.
Proof.
  induction s as [|c s IH]; simpl; [reflexivity|].
  intros [Hc Hs]%andb_prop. specialize (IH Hs).
  destruct (Py.rstrip_by q s) as [|d r].
  - destruct (q c); simpl; [reflexivity|]. rewrite Hc. reflexivity.
  - change (Py.forallb p (String c (String d r))) with (p c && Py.forallb p (String d r)).
    rewrite Hc, IH. reflexivity.
Qed.

Lemma forallb_strip (p : ascii -> bool) (s : string) :
  Py.forallb p s = true -> Py.forallb p (Py.strip s) = true.
Proof. intros H. apply forallb_rstrip, forallb_lstrip, H. Qed.

(** [re.sub] builds its result from characters of the input and of the
    replacement. *)
Lemma forallb_sub_from (p : ascii -> bool) (r : Re.regex) (repl : string) :
  Py.forallb p repl = true ->
  forall s pos skip,
    Py.forallb p s = true -> Py.forallb p (Re.sub_from r repl pos skip s) = true.
Proof.
  intros Hrepl. induction s as [|c s IH]; intros pos skip Hs; simpl.
  - destruct (Re.match_at r pos "" false); [exact Hrepl|reflexivity].
  - simpl in Hs. apply andb_prop in Hs as [Hc Hs].
    destruct skip as [|skip]; [|apply IH, Hs].
    destruct (Re.match_at r pos (String c s) false) as [[|n]|].
    + rewrite forallb_app, Hrepl. simpl.
      destruct (Re.match_at r pos (String c s) true) as [[|n]|].
      * simpl. rewrite Hc. apply IH, Hs.
      * rewrite forallb_app, Hrepl. simpl. apply IH, Hs.
      * simpl. rewrite Hc. apply IH, Hs.
    + rewrite forallb_app, Hrepl. simpl. apply IH, Hs.
    + simpl. rewrite Hc. apply IH, Hs.
Qed.

Lemma forallb_sub (p : ascii -> bool) (r : Re.regex) (repl s : string) :
  Py.forallb p repl = true -> Py.forallb p s = true ->
  Py.forallb p (Re.sub r repl s) = true.
Proof. intros Hrepl Hs. apply forallb_sub_from; assumption. Qed.

Lemma upper_of_upper_case (c : ascii) :
  negb ((Py.ord c =? 181) || (Py.ord c =? 255))%N = true ->
  Py.forallb (fun c => negb (is_lower c)) (Py.upper_of c) = true.
Proof. destruct c as [[] [] [] [] [] [] [] []]; vm_compute; congruence. Qed.

Lemma upper_upper_case (s : string) :
  Py.upper_below_256 s = true -> upper_case (Py.upper s).
Proof.
  unfold upper_case, Py.upper_below_256.
  induction s as [|c s IH]; cbn [Py.forallb Py.upper]; [reflexivity|].
  intros [Hc Hs]%andb_prop.
  rewrite forallb_app, (upper_of_upper_case c Hc), (IH Hs). reflexivity.
Qed.

Lemma lstrip_by_first (p : ascii -> bool) (s : string) (c : ascii) :
  first_char (Py.lstrip_by p s) = Some c -> p c = false.
Proof.
  induction s as [|d s IH]; simpl; [discriminate|].
  destruct (p d) eqn:Hd; [exact IH|]. simpl. congruence.
Qed.

Lemma rstrip_by_first (p : ascii -> bool) (s : string) (c : ascii) :
  first_char (Py.rstrip_by p s) = Some c -> first_char s = Some c.
Proof.
  destruct s as [|d s]; simpl; [discriminate|].
  destruct (Py.rstrip_by p s); [destruct (p d)|]; simpl; congruence.
Qed.

Lemma rstrip_by_last (p : ascii -> bool) (s : string) (c : ascii) :
  last_char (Py.rstrip_by p s) = Some c -> p c = false.
Proof.
  induction s as [|d s IH]; simpl; [discriminate|].
  destruct (Py.rstrip_by p s) as [|e r].
  - destruct (p d) eqn:Hd; simpl; [discriminate|congruence].
  - exact IH.
Qed.

Lemma strip_trimmed (s : string) : trimmed (Py.strip s).
Proof.
  split; intros c Hc.
  - apply rstrip_by_first in Hc. apply (lstrip_by_first _ _ _ Hc).
  - apply (rstrip_by_last _ _ _ Hc).
Qed.

(** *** Whitespace runs *)

Lemma starts_with_space_app (t u : string) :
  starts_with_space t = true -> starts_with_space (t +:+ u) = true.
Proof. destruct t; simpl; [discriminate|auto]. Qed.

Lemma single_spaced_tail (c : ascii) (s : string) :
  single_spaced (String c s) = true -> single_spaced s = true.
Proof. simpl. intros [_ H]%andb_prop. exact H. Qed.

Lemma single_spaced_prefix (t u : string) :
  single_spaced (t +:+ u) = true -> single_spaced t = true.
Proof.
  induction t as [|c t IH]; simpl; [reflexivity|].
  intros [[Hc Hadj]%andb_prop Ht]%andb_prop.
  rewrite Hc, (IH Ht), andb_true_r. simpl.
  destruct (Py.isspace c); [|reflexivity]. simpl in *.
  destruct (starts_with_space t) eqn:Hst; [|reflexivity].
  rewrite (starts_with_space_app t u Hst) in Hadj. discriminate.
Qed.

Lemma single_spaced_drop (n : nat) (s : string) :
  single_spaced s = true -> single_spaced (string_drop n s) = true.
Proof.
  revert s. induction n as [|n IH]; intros [|c s]; simpl; auto.
  intros [_ H]%andb_prop. apply IH, H.
Qed.

Lemma single_spaced_lstrip (p : ascii -> bool) (s : string) :
  single_spaced s = true -> single_spaced (Py.lstrip_by p s) = true.
Proof.
  induction s as [|c s IH]; [reflexivity|].
  intros H. cbn [Py.lstrip_by]. destruct (p c); [|exact H].
  apply IH, (single_spaced_tail c s H).
Qed.

(** What [rstrip] leaves is a prefix of the string. *)
Lemma rstrip_by_prefix (p : ascii -> bool) (s : string) :
  exists u, s = Py.rstrip_by p s +:+ u.
Proof.
  induction s as [|c s [u Hu]]; [exists ""; reflexivity|].
  cbn [Py.rstrip_by]. destruct (Py.rstrip_by p s) as [|d r] eqn:Hr.
  - destruct (p c).
    + exists (String c s). reflexivity.
    + exists s. reflexivity.
  - exists u. change (String c s = String c (String d r +:+ u)).
    f_equal. exact Hu.
Qed.

Lemma single_spaced_strip (s : string) :
  single_spaced s = true -> single_spaced (Py.strip s) = true.
Proof.
  intros H. unfold Py.strip, Py.strip_by.
  destruct (rstrip_by_prefix Py.isspace (Py.lstrip_by Py.isspace s)) as [u Hu].
  apply (single_spaced_prefix _ u). rewrite <- Hu.
  apply single_spaced_lstrip, H.
Qed.

Lemma single_spaced_space (t : string) :
  single_spaced t = true -> starts_with_space t = false ->
  single_spaced (String " " t) = true.
Proof. intros Ht Hs. cbn [single_spaced]. rewrite Ht, Hs. reflexivity. Qed.

Lemma single_spaced_char (c : ascii) (t : string) :
  Py.isspace c = false -> single_spaced t = true ->
  single_spaced (String c t) = true.
Proof. intros Hc Ht. cbn [single_spaced]. rewrite Hc, Ht. reflexivity. Qed.

(** A greedy repetition followed by something that cannot fail takes the
    whole run. *)
Lemma star_total {A} (p : ascii -> bool) (g : nat -> A) (s : string) :
  forall pos k,
    (forall pos' s', (pos <= pos')%nat -> k pos' s' = Some (g pos')) ->
    Re.star p pos s k = Some (g (pos + span p s)%nat).
Proof.
  induction s as [|c s IH]; intros pos k Hk; simpl.
  - rewrite Hk, Nat.add_0_r by lia. reflexivity.
  - destruct (p c).
    + rewrite (IH (S pos) k) by (intros; apply Hk; lia). do 2 f_equal. lia.
    + rewrite Hk, Nat.add_0_r by lia. reflexivity.
Qed.

Lemma span_drop (p : ascii -> bool) (s : string) :
  match string_drop (span p s) s with
  | String c _ => p c = false
  | EmptyString => True
  end.
Proof.
  induction s as [|c s IH]; simpl; [exact I|].
  destruct (p c) eqn:Hc; simpl; [exact IH|exact Hc].
Qed.

Lemma match_spaces (pos : nat) (s : string) :
  Re.match_at Geo.re_spaces pos s false
  = match s with
    | String c s' => if Py.isspace c then Some (S (span Py.isspace s')) else None
    | EmptyString => None
    end.
Proof.
  unfold Re.match_at, Re.report, Geo.re_spaces, Re.Plus. cbn [Re.run andb].
  destruct s as [|c s']; [reflexivity|].
  destruct (Py.isspace c); [|reflexivity].
  rewrite (star_total Py.isspace (fun pos' => (pos' - pos)%nat)); [|reflexivity].
  f_equal. lia.
Qed.

(** [re.sub(r'\s+', ' ', s)] leaves single spaces; when it resumes after a
    run it has just replaced, what it appends does not start with
    whitespace. *)
Lemma sub_spaces_spaced (s : string) :
  (forall pos, single_spaced (Re.sub_from Geo.re_spaces " " pos 0 s) = true)
  /\ (forall pos,
        single_spaced
          (Re.sub_from Geo.re_spaces " " pos (span Py.isspace s) s) = true
        /\ starts_with_space
             (Re.sub_from Geo.re_spaces " " pos (span Py.isspace s) s) = false).
Proof.
  induction s as [|c s [IH0 IHk]].
  - split; intros pos; cbn [Re.sub_from span]; rewrite match_spaces; auto.
  - assert (forall pos,
              single_spaced (Re.sub_from Geo.re_spaces " " pos 0 (String c s)) = true
              /\ (Py.isspace c = false ->
                  starts_with_space
                    (Re.sub_from Geo.re_spaces " " pos 0 (String c s)) = false))
      as H0.
    { intros pos. cbn [Re.sub_from]. rewrite match_spaces.
      destruct (Py.isspace c) eqn:Hc.
      - destruct (IHk (S pos)) as [Hs Hn].
        split; [|discriminate]. apply single_spaced_space; assumption.
      - split; [|intros _; exact Hc].
        apply single_spaced_char; [exact Hc|apply IH0]. }
    split; [intros pos; apply H0|].
    intros pos. cbn [span]. destruct (Py.isspace c) eqn:Hc.
    + cbn [Re.sub_from]. apply IHk.
    + destruct (H0 pos) as [Hs Hn]. auto.
Qed.

Lemma sub_spaces_single_spaced (s : string) :
  single_spaced (Re.sub Geo.re_spaces " " s) = true.
Proof. apply sub_spaces_spaced. Qed.

(** *** Patterns anchored at the start *)

Lemma string_drop_0 (s : string) : string_drop 0 s = s.
Proof. destruct s; reflexivity. Qed.

Lemma string_drop_nil (n : nat) : string_drop n "" = "".
Proof. destruct n; reflexivity. Qed.

Lemma match_bol_late (r : Re.regex) (pos : nat) (s : string) (advance : bool) :
  (0 < pos)%nat -> Re.match_at (Re.Cat Re.Bol r) pos s advance = None.
Proof.
  intros Hpos. unfold Re.match_at. cbn [Re.run].
  destruct pos; [lia|reflexivity].
Qed.

(** Past the first character a pattern that starts with [^] matches
    nowhere: the rest of the input is copied. *)
Lemma sub_from_bol (r : Re.regex) (repl s : string) :
  forall pos skip,
    (0 < pos)%nat ->
    Re.sub_from (Re.Cat Re.Bol r) repl pos skip s = string_drop skip s.
Proof.
  induction s as [|c s IH]; intros pos skip Hpos; cbn [Re.sub_from].
  - rewrite match_bol_late, string_drop_nil by exact Hpos. reflexivity.
  - destruct skip as [|skip]; [|apply IH; lia].
    rewrite match_bol_late by exact Hpos.
    rewrite IH, string_drop_0 by lia. reflexivity.
Qed.

Lemma plus_spaces_next (advance : bool) (p : nat) (s : string)
    (caps : Re.captures) (a : nat) :
  Re.run (Re.Plus Py.isspace) p s caps (Re.report 0 advance) = Some a ->
  (p < a)%nat /\ starts_with_space (string_drop (a - p) s) = false.
Proof.
  unfold Re.Plus. cbn [Re.run]. destruct s as [|d s]; [discriminate|].
  destruct (Py.isspace d); [|discriminate].
  rewrite (star_total Py.isspace (fun pos' => (pos' - 0)%nat)).
  - intros [= <-]. split; [lia|].
    match goal with
    | |- context [string_drop ?n _] => replace n with (S (span Py.isspace s)) by lia
    end.
    cbn [string_drop]. pose proof (span_drop Py.isspace s) as Hs.
    destruct (string_drop (span Py.isspace s) s); [reflexivity|exact Hs].
  - intros pos' s' Hpos. unfold Re.report.
    destruct pos'; [lia|]. rewrite andb_false_r. reflexivity.
Qed.

(** A match of a lead pattern is not empty, and what follows it does not
    start with whitespace. *)
Lemma lead_match_next (q1 q2 q3 : ascii -> bool) (advance : bool)
    (s : string) (len : nat) :
  Re.match_at (lead_pattern q1 q2 q3) 0 s advance = Some len ->
  (0 < len)%nat /\ starts_with_space (string_drop len s) = false.
Proof.
  unfold Re.match_at, lead_pattern. cbn [Re.run Nat.eqb].
  destruct s as [|c1 s1]; [discriminate|]. destruct (q1 c1); [|discriminate].
  destruct s1 as [|c2 s2]; [discriminate|]. destruct (q2 c2); [|discriminate].
  assert (forall a,
             Re.run (Re.Plus Py.isspace) 2 s2 [] (Re.report 0 advance) = Some a ->
             (0 < a)%nat
             /\ starts_with_space
                  (string_drop a (String c1 (String c2 s2))) = false) as Hplain.
  { intros a Ha. apply plus_spaces_next in Ha as [Hlt Hn]. split; [lia|].
    destruct a as [|[|a]]; try lia. cbn [string_drop].
    replace (S (S a) - 2)%nat with a in Hn by lia. exact Hn. }
  destruct s2 as [|c3 s3]; [discriminate|].
  destruct (q3 c3).
  - destruct (Re.run (Re.Plus Py.isspace) 3 s3 [] (Re.report 0 advance))
      as [a|] eqn:Hdot.
    + intros [= <-]. apply plus_spaces_next in Hdot as [Hlt Hn]. split; [lia|].
      destruct a as [|[|[|a]]]; try lia. cbn [string_drop].
      replace (S (S (S a)) - 3)%nat with a in Hn by lia. exact Hn.
    + apply Hplain.
  - apply Hplain.
Qed.

(** Substituting a lead pattern changes nothing, or replaces a prefix that
    ends a whitespace run. *)
Lemma sub_lead (q1 q2 q3 : ascii -> bool) (repl s : string) :
  Re.sub (lead_pattern q1 q2 q3) repl s = s
  \/ exists len,
       Re.sub (lead_pattern q1 q2 q3) repl s = repl +:+ string_drop len s
       /\ starts_with_space (string_drop len s) = false.
Proof.
  unfold Re.sub. destruct s as [|c s]; cbn [Re.sub_from].
  - left. reflexivity.
  - destruct (Re.match_at (lead_pattern q1 q2 q3) 0 (String c s) false)
      as [len|] eqn:Hm.
    + apply lead_match_next in Hm as [Hpos Hn].
      destruct len as [|len]; [lia|]. right. exists (S len).
      unfold lead_pattern. rewrite sub_from_bol by lia. auto.
    + left. unfold lead_pattern. rewrite sub_from_bol, string_drop_0 by lia.
      reflexivity.
Qed.

Lemma sub_ft_single_spaced (s : string) :
  single_spaced s = true -> single_spaced (Re.sub Geo.re_ft "FORT " s) = true.
Proof.
  intros Hs.
  change Geo.re_ft with (lead_pattern (Re.chr "F") (Re.chr "T") (Re.chr ".")).
  destruct (sub_lead (Re.chr "F") (Re.chr "T") (Re.chr ".") "FORT " s)
    as [Heq|(len & Heq & Hn)]; rewrite Heq; [exact Hs|].
  cbn [String.append]. repeat (apply single_spaced_char; [reflexivity|]).
  apply single_spaced_space; [apply single_spaced_drop, Hs|exact Hn].
Qed.

Lemma sub_st_single_spaced (s : string) :
  single_spaced s = true -> single_spaced (Re.sub Geo.re_st "SAINT " s) = true.
Proof.
  intros Hs.
  change Geo.re_st with (lead_pattern (Re.chr "S") (Re.chr "T") (Re.chr ".")).
  destruct (sub_lead (Re.chr "S") (Re.chr "T") (Re.chr ".") "SAINT " s)
    as [Heq|(len & Heq & Hn)]; rewrite Heq; [exact Hs|].
  cbn [String.append]. repeat (apply single_spaced_char; [reflexivity|]).
  apply single_spaced_space; [apply single_spaced_drop, Hs|exact Hn].
Qed.

(** *** Patterns anchored at the end *)

Lemma string_drop_add (n m : nat) (s : string) :
  string_drop m (string_drop n s) = string_drop (n + m) s.
Proof.
  revert s. induction n as [|n IH]; intros s.
  - rewrite string_drop_0. reflexivity.
  - destruct s as [|c s]; [rewrite !string_drop_nil; reflexivity|].
    cbn [string_drop Nat.add]. apply IH.
Qed.

Lemma star_sound {A} (p : ascii -> bool) (s : string) :
  forall pos (k : nat -> string -> option A) a,
    Re.star p pos s k = Some a ->
    exists n, k (pos + n)%nat (string_drop n s) = Some a.
Proof.
  induction s as [|c s IH]; intros pos k a; cbn [Re.star].
  - intros H. exists 0%nat. rewrite Nat.add_0_r. exact H.
  - assert (k pos (String c s) = Some a ->
            exists n, k (pos + n)%nat (string_drop n (String c s)) = Some a) as Hstop.
    { intros H. exists 0%nat. rewrite Nat.add_0_r. exact H. }
    destruct (p c); [|exact Hstop].
    destruct (Re.star p (S pos) s k) as [a'|] eqn:Hstar; [|exact Hstop].
    intros [= <-]. apply IH in Hstar as [n Hn].
    exists (S n). cbn [string_drop]. rewrite <- Hn. f_equal. lia.
Qed.

(** What the matcher hands to its continuation is the input less the
    characters matched. *)
Lemma run_sound {A} (r : Re.regex) :
  forall pos s caps (k : nat -> string -> Re.captures -> option A) a,
    Re.run r pos s caps k = Some a ->
    exists n caps', k (pos + n)%nat (string_drop n s) caps' = Some a.
Proof.
  induction r as [|p|r1 IH1 r2 IH2|r1 IH1 r2 IH2|r1 IH1|p| | |i r1 IH1];
    intros pos s caps k a; cbn [Re.run].
  - intros H. exists 0%nat, caps. rewrite Nat.add_0_r, string_drop_0. exact H.
  - destruct s as [|c s]; [discriminate|]. destruct (p c); [|discriminate].
    intros H. exists 1%nat, caps. rewrite Nat.add_1_r. exact H.
  - intros H. apply IH1 in H as (n1 & caps1 & H).
    apply IH2 in H as (n2 & caps2 & H).
    exists (n1 + n2)%nat, caps2.
    rewrite string_drop_add, <- Nat.add_assoc in H. exact H.
  - destruct (Re.run r1 pos s caps k) as [a'|] eqn:H1.
    + intros [= <-]. apply IH1 in H1. exact H1.
    + apply IH2.
  - destruct (Re.run r1 pos s caps k) as [a'|] eqn:H1.
    + intros [= <-]. apply IH1 in H1. exact H1.
    + intros H. exists 0%nat, caps. rewrite Nat.add_0_r, string_drop_0. exact H.
  - intros H. apply star_sound in H as [n H]. exists n, caps. exact H.
  - destruct (pos =? 0)%nat; [|discriminate].
    intros H. exists 0%nat, caps. rewrite Nat.add_0_r, string_drop_0. exact H.
  - intros H. exists 0%nat, caps. rewrite Nat.add_0_r, string_drop_0.
    destruct s as [|c [|d s]]; [exact H| |discriminate].
    destruct (Ascii.eqb c Re.newline); [exact H|discriminate].
  - intros H. apply IH1 in H as (n & caps' & H). eauto.
Qed.

Lemma eol_ends : ends_at_eol Re.Eol.
Proof.
  intros pos s caps k a. cbn [Re.run]. intros H.
  exists 0%nat, caps. rewrite Nat.add_0_r, string_drop_0.
  destruct s as [|c [|d s]]; [auto| |discriminate].
  destruct (Ascii.eqb c Re.newline) eqn:Hc; [|discriminate].
  apply Ascii.eqb_eq in Hc as ->. auto.
Qed.

Lemma cat_ends (r1 r2 : Re.regex) : ends_at_eol r2 -> ends_at_eol (Re.Cat r1 r2).
Proof.
  intros H2 pos s caps k a. cbn [Re.run]. intros H.
  apply run_sound in H as (n1 & caps1 & H).
  apply H2 in H as (n2 & caps2 & H & Hend).
  exists (n1 + n2)%nat, caps2.
  rewrite string_drop_add, <- Nat.add_assoc in H.
  rewrite string_drop_add in Hend. auto.
Qed.

Lemma no_newline_drop (n : nat) (s : string) :
  no_newline s = true -> no_newline (string_drop n s) = true.
Proof.
  revert s. induction n as [|n IH]; intros [|c s]; simpl; auto.
  intros [_ H]%andb_prop. apply IH, H.
Qed.

Lemma single_spaced_no_newline (s : string) :
  single_spaced s = true -> no_newline s = true.
Proof.
  unfold no_newline. induction s as [|c s IH]; [reflexivity|].
  cbn [single_spaced Py.forallb].
  intros [[Hc _]%andb_prop Hs]%andb_prop. rewrite (IH Hs), andb_true_r.
  destruct (Ascii.eqb c Re.newline) eqn:Hn; [|reflexivity].
  apply Ascii.eqb_eq in Hn as ->. discriminate Hc.
Qed.

(** On a string without line feed such a pattern matches up to the end. *)
Lemma match_to_end (r : Re.regex) (pos : nat) (s : string) (len : nat) :
  ends_at_eol r -> no_newline s = true ->
  Re.match_at r pos s false = Some len -> string_drop len s = "".
Proof.
  intros Hr Hs Hm. unfold Re.match_at, Re.report in Hm. cbn [andb] in Hm.
  apply Hr in Hm as (n & caps' & [= <-] & Hend).
  replace (pos + n - pos)%nat with n by lia.
  destruct Hend as [Hend|Hend]; [exact Hend|].
  apply (no_newline_drop n) in Hs. rewrite Hend in Hs. discriminate Hs.
Qed.

Lemma sub_from_skip_all (r : Re.regex) (s : string) :
  forall pos skip,
    string_drop skip s = "" -> Re.sub_from r "" pos skip s = "".
Proof.
  induction s as [|c s IH]; intros pos skip Hdrop; cbn [Re.sub_from].
  - destruct (Re.match_at r pos "" false); reflexivity.
  - destruct skip as [|skip]; [discriminate Hdrop|]. apply IH. exact Hdrop.
Qed.

(** Deleting the matches of such a pattern leaves a prefix of the string. *)
Lemma sub_from_prefix (r : Re.regex) (s : string) :
  ends_at_eol r -> no_newline s = true ->
  forall pos, exists u, s = Re.sub_from r "" pos 0 s +:+ u.
Proof.
  intros Hr. induction s as [|c s IH]; intros Hs pos; cbn [Re.sub_from].
  - exists "". destruct (Re.match_at r pos "" false); reflexivity.
  - destruct (Re.match_at r pos (String c s) false) as [len|] eqn:Hm.
    + apply (match_to_end r pos _ len Hr Hs) in Hm.
      destruct len as [|len]; [discriminate Hm|].
      cbn [string_drop] in Hm.
      rewrite (sub_from_skip_all r s (S pos) len Hm). exists (String c s). reflexivity.
    + simpl in Hs. apply andb_prop in Hs as [_ Hs].
      destruct (IH Hs (S pos)) as [u Hu]. exists u.
      change (String c s = String c (Re.sub_from r "" (S pos) 0 s +:+ u)).
      f_equal. exact Hu.
Qed.

Lemma sub_end_single_spaced (r : Re.regex) (s : string) :
  ends_at_eol r -> single_spaced s = true ->
  single_spaced (Re.sub r "" s) = true.
Proof.
  intros Hr Hs.
  destruct (sub_from_prefix r s Hr (single_spaced_no_newline s Hs) 0) as [u Hu].
  apply (single_spaced_prefix _ u). unfold Re.sub. rewrite <- Hu. exact Hs.
Qed.

Lemma re_state_ends : ends_at_eol Geo.re_state.
Proof. unfold Geo.re_state. do 3 apply cat_ends. apply eol_ends. Qed.

Lemma re_tx_usa_ends : ends_at_eol Geo.re_tx_usa.
Proof. unfold Geo.re_tx_usa. do 4 apply cat_ends. apply eol_ends. Qed.

(** Whitespace runs are collapsed in every normalised name. *)
Lemma normalize_city_single_spaced (city_name : string) :
  single_spaced (Geo.normalize_city city_name) = true.
Proof.
  unfold Geo.normalize_city.
  destruct (negb (Py.truthy city_name)); [reflexivity|].
  apply single_spaced_strip.
  apply sub_end_single_spaced; [apply re_tx_usa_ends|].
  apply sub_end_single_spaced; [apply re_state_ends|].
  apply sub_st_single_spaced, sub_ft_single_spaced, sub_spaces_single_spaced.
Qed.

(** *** The substitutions, one by one *)

Lemma drop_span (p : ascii -> bool) (s : string) :
  string_drop (span p s) s = Py.lstrip_by p s.
Proof.
  induction s as [|c s IH]; [reflexivity|].
  cbn [span Py.lstrip_by]. destruct (p c); [exact IH|reflexivity].
Qed.

Lemma length_span_drop (p : ascii -> bool) (s : string) :
  String.length s
  = (span p s + String.length (string_drop (span p s) s))%nat.
Proof.
  induction s as [|c s IH]; [reflexivity|].
  cbn [span]. destruct (p c); [|reflexivity].
  cbn [string_drop String.length]. lia.
Qed.

Lemma no_newline_lstrip (p : ascii -> bool) (s : string) :
  no_newline s = true -> no_newline (Py.lstrip_by p s) = true.
Proof. intros H. rewrite <- drop_span. apply no_newline_drop, H. Qed.

(** [re.sub(r'\s+', ' ', s)] collapses the runs of whitespace. *)
Lemma sub_spaces_collapse (s : string) :
  forall pos,
    Re.sub_from Geo.re_spaces " " pos 0 s = collapse_from false s
    /\ Re.sub_from Geo.re_spaces " " pos (span Py.isspace s) s
       = collapse_from true s.
Proof.
  induction s as [|c s IH]; intros pos.
  - cbn [Re.sub_from span collapse_from]. rewrite match_spaces. auto.
  - assert (Re.sub_from Geo.re_spaces " " pos 0 (String c s)
            = collapse_from false (String c s)) as H0.
    { cbn [Re.sub_from collapse_from]. rewrite match_spaces.
      destruct (Py.isspace c).
      - destruct (IH (S pos)) as [_ ->]. reflexivity.
      - destruct (IH (S pos)) as [-> _]. reflexivity. }
    split; [exact H0|].
    cbn [span]. destruct (Py.isspace c) eqn:Hc.
    + cbn [Re.sub_from collapse_from]. rewrite Hc. apply IH.
    + rewrite H0. cbn [collapse_from]. rewrite Hc. reflexivity.
Qed.

Lemma sub_spaces_refines (s : string) :
  Re.sub Geo.re_spaces " " s = collapse_whitespace s.
Proof. apply sub_spaces_collapse. Qed.

(** A whitespace run at the end of a pattern. *)
Lemma run_plus_report (p : ascii -> bool) (pos0 pos : nat) (s : string)
    (caps : Re.captures) :
  (pos0 <= pos)%nat ->
  Re.run (Re.Plus p) pos s caps (Re.report pos0 false)
  = match s with
    | String c _ => if p c then Some (pos + span p s - pos0)%nat else None
    | EmptyString => None
    end.
Proof.
  intros Hpos. unfold Re.Plus. cbn [Re.run].
  destruct s as [|c s]; [reflexivity|]. cbn [span].
  destruct (p c); [|reflexivity].
  rewrite (star_total p (fun pos' => (pos' - pos0)%nat)); [|reflexivity].
  f_equal. lia.
Qed.

Lemma match_lead (a b : ascii) (s : string) :
  Re.match_at (lead_pattern (Re.chr a) (Re.chr b) (Re.chr ".")) 0 s false
  = match drop_prefix (String a (String b "")) s with
    | Some rest =>
        let rest' := drop_leading "." rest in
        if starts_with_space rest'
        then Some (String.length s - String.length (Py.lstrip_by Py.isspace rest'))%nat
        else None
    | None => None
    end.
Proof.
  unfold Re.match_at, lead_pattern. cbn [Re.run Nat.eqb drop_prefix].
  destruct s as [|c1 s1]; [reflexivity|]. unfold Re.chr at 1.
  destruct (Ascii.eqb c1 a); [|reflexivity].
  destruct s1 as [|c2 rest]; [reflexivity|]. unfold Re.chr at 1.
  destruct (Ascii.eqb c2 b); [|reflexivity].
  cbv zeta.
  assert (forall pos t,
             (String.length (String c1 (String c2 rest))
              = pos + String.length t)%nat ->
             Re.run (Re.Plus Py.isspace) pos t [] (Re.report 0 false)
             = if starts_with_space t
               then Some (String.length (String c1 (String c2 rest))
                          - String.length (Py.lstrip_by Py.isspace t))%nat
               else None) as Hplus.
  { intros pos t Hlen. rewrite run_plus_report by lia.
    destruct t as [|e t]; [reflexivity|]. cbn [starts_with_space].
    destruct (Py.isspace e) eqn:He; [|reflexivity].
    f_equal. rewrite Hlen, <- drop_span.
    pose proof (length_span_drop Py.isspace (String e t)). lia. }
  destruct rest as [|d r].
  - reflexivity.
  - unfold Re.chr at 1. cbn [drop_leading].
    destruct (Ascii.eqb d ".") eqn:Hd.
    + apply Ascii.eqb_eq in Hd. subst d.
      rewrite (Hplus 3%nat r) by (simpl; lia).
      destruct (starts_with_space r); [reflexivity|].
      rewrite (Hplus 2%nat (String "." r)) by (simpl; lia). reflexivity.
    + apply (Hplus 2%nat (String d r)). simpl. lia.
Qed.

Lemma string_drop_length_sub (s t : string) (n : nat) :
  string_drop n s = t -> (n <= String.length s)%nat ->
  (String.length s - String.length t)%nat = n.
Proof.
  revert s. induction n as [|n IH]; intros s Hd Hn.
  - rewrite string_drop_0 in Hd. subst t. lia.
  - destruct s as [|c s]; [simpl in Hn; lia|].
    cbn [string_drop] in Hd. cbn [String.length] in *.
    specialize (IH s Hd ltac:(lia)).
    assert (String.length t <= String.length s)%nat.
    { subst t. clear. revert s. induction n as [|n IHn]; intros [|c s];
        cbn [string_drop String.length]; try lia.
      specialize (IHn s). lia. }
    lia.
Qed.

(** [re.sub(r'^FT\.?\s+', 'FORT ', s)] and [re.sub(r'^ST\.?\s+', 'SAINT ',
    s)] rewrite the leading token. *)
Lemma sub_lead_refines (a b : ascii) (repl s : string) :
  Re.sub (lead_pattern (Re.chr a) (Re.chr b) (Re.chr ".")) repl s
  = rewrite_leading (String a (String b "")) repl s.
Proof.
  unfold Re.sub, rewrite_leading, after_token.
  destruct s as [|c s].
  - reflexivity.
  - cbn [Re.sub_from]. rewrite match_lead.
    destruct (drop_prefix (String a (String b "")) (String c s)) as [rest|] eqn:Hp.
    + cbv zeta.
      destruct (starts_with_space (drop_leading "." rest)) eqn:Hsp.
      * assert (exists n,
                   (String.length (String c s)
                    - String.length
                        (Py.lstrip_by Py.isspace (drop_leading "." rest)))%nat
                   = S n
                   /\ string_drop n s
                      = Py.lstrip_by Py.isspace (drop_leading "." rest))
          as (n & -> & Hn).
        { cbn [drop_prefix] in Hp.
          destruct (Ascii.eqb c a); [|discriminate].
          destruct s as [|c2 s2]; [discriminate|].
          destruct (Ascii.eqb c2 b); [|discriminate].
          injection Hp as <-.
          assert (forall k t,
                     string_drop k s2 = t -> (k <= String.length s2)%nat ->
                     exists n,
                       (String.length (String c (String c2 s2))
                        - String.length (Py.lstrip_by Py.isspace t))%nat = S n
                       /\ string_drop n (String c2 s2)
                          = Py.lstrip_by Py.isspace t) as Hgen.
          { intros k t Hk Hle.
            exists (S (k + span Py.isspace t)).
            pose proof (length_span_drop Py.isspace t) as Hlen.
            rewrite drop_span in Hlen.
            assert (String.length s2 = k + String.length t)%nat as Hs2.
            { pose proof (string_drop_length_sub s2 t k Hk Hle).
              assert (String.length t <= String.length s2)%nat.
              { subst t. clear. revert s2.
                induction k as [|k IHk]; intros [|c s];
                  cbn [string_drop String.length]; try lia.
                specialize (IHk s). lia. }
              lia. }
            split.
            - cbn [String.length]. lia.
            - cbn [string_drop]. rewrite <- string_drop_add, Hk.
              apply drop_span. }
          destruct s2 as [|d r].
          - exact (Hgen 0%nat "" eq_refl ltac:(simpl; lia)).
          - cbn [drop_leading] in *. destruct (Ascii.eqb d ".").
            + apply (Hgen 1%nat r); [reflexivity|simpl; lia].
            + apply (Hgen 0%nat (String d r)); [reflexivity|simpl; lia]. }
        unfold lead_pattern. rewrite sub_from_bol by lia.
        rewrite Hn. reflexivity.
      * unfold lead_pattern. rewrite sub_from_bol, string_drop_0 by lia.
        reflexivity.
    + unfold lead_pattern. rewrite sub_from_bol, string_drop_0 by lia.
      reflexivity.
Qed.

Lemma sub_ft_refines (s : string) :
  Re.sub Geo.re_ft "FORT " s = rewrite_leading "FT" "FORT " s.
Proof. apply (sub_lead_refines "F" "T"). Qed.

Lemma sub_st_refines (s : string) :
  Re.sub Geo.re_st "SAINT " s = rewrite_leading "ST" "SAINT " s.
Proof. apply (sub_lead_refines "S" "T"). Qed.

(** *** Patterns that end the string *)

(** A greedy repetition before something that cannot start with a character
    of the class: the whole run is taken. *)
Lemma star_greedy {A} (p : ascii -> bool) (s : string) :
  forall pos (k : nat -> string -> option A),
    (forall pos' c s', p c = true -> k pos' (String c s') = None) ->
    Re.star p pos s k
    = k (pos + span p s)%nat (Py.lstrip_by p s).
Proof.
  induction s as [|c s IH]; intros pos k Hk; cbn [Re.star span Py.lstrip_by].
  - rewrite Nat.add_0_r. reflexivity.
  - destruct (p c) eqn:Hc.
    + rewrite (IH (S pos) k Hk).
      replace (S pos + span p s)%nat with (pos + S (span p s))%nat by lia.
      destruct (k (pos + S (span p s))%nat (Py.lstrip_by p s)); [reflexivity|].
      apply Hk, Hc.
    + rewrite Nat.add_0_r. reflexivity.
Qed.

(** A literal under [re.I]. *)
Lemma run_lit_i {A} (word : string) :
  forall pos s caps (k : nat -> string -> Re.captures -> option A),
    Re.run (Re.lit_i word) pos s caps k
    = if starts_with_letters word s
      then k (pos + String.length word)%nat
             (string_drop (String.length word) s) caps
      else None.
Proof.
  unfold Re.lit_i.
  induction word as [|a word IH]; intros pos s caps k.
  - cbn [Re.lit_with Re.run starts_with_letters String.length].
    rewrite Nat.add_0_r, string_drop_0. reflexivity.
  - assert (Re.run (Re.Cat (Re.Chr (Re.chr_i a)) (Re.lit_with Re.chr_i word))
              pos s caps k
            = if starts_with_letters (String a word) s
              then k (pos + String.length (String a word))%nat
                     (string_drop (String.length (String a word)) s) caps
              else None) as Hcat.
    { cbn [Re.run starts_with_letters String.length].
      destruct s as [|c s]; [reflexivity|]. unfold Re.chr_i at 1.
      destruct (Ascii.eqb (Py.upper_char c) (Py.upper_char a)); [|reflexivity].
      rewrite IH. cbn [andb string_drop].
      replace (S pos + String.length word)%nat
        with (pos + S (String.length word))%nat by lia.
      reflexivity. }
    destruct word as [|b word]; [|exact Hcat].
    rewrite <- Hcat. cbn [Re.lit_with Re.run].
    destruct s as [|c s]; [reflexivity|].
    destruct (Re.chr_i a c); reflexivity.
Qed.

Lemma same_letters_split (word s : string) :
  same_letters s word
  = starts_with_letters word s
    && negb (Py.truthy (string_drop (String.length word) s)).
Proof.
  revert s. induction word as [|a word IH]; intros [|c s];
    cbn [same_letters starts_with_letters String.length string_drop];
    try reflexivity.
  rewrite IH, andb_assoc. reflexivity.
Qed.

(** [$] on a string without line feed. *)
Lemma eol_report (pos0 pos : nat) (s : string) (caps : Re.captures) :
  no_newline s = true ->
  Re.run Re.Eol pos s caps (Re.report pos0 false)
  = if Py.truthy s then None else Some (pos - pos0)%nat.
Proof.
  intros Hs. cbn [Re.run]. destruct s as [|c [|d s]]; try reflexivity.
  unfold no_newline in Hs. cbn [Py.forallb] in Hs.
  destruct (Ascii.eqb c Re.newline); [discriminate Hs|reflexivity].
Qed.

Lemma space_is_no_letter (a c : ascii) :
  Py.isspace c = true -> Py.isspace a = false ->
  Ascii.eqb (Py.upper_char c) (Py.upper_char a) = false.
Proof.
  intros Hc Ha. apply Ascii.eqb_neq. intros Heq.
  assert (Py.isspace (Py.upper_char c) = Py.isspace (Py.upper_char a)) as H
    by (rewrite Heq; reflexivity).
  assert (forall x, Py.isspace (Py.upper_char x) = Py.isspace x) as Hup
    by (intros [[] [] [] [] [] [] [] []]; reflexivity).
  rewrite !Hup in H. congruence.
Qed.

(** [(TX|TEXAS)$] on a string without line feed. *)
Lemma run_state_word (pos0 pos : nat) (s : string) (caps : Re.captures) :
  no_newline s = true ->
  Re.run (Re.Cat (Re.Group 1 (Re.Alt (Re.lit_i "TX") (Re.lit_i "TEXAS"))) Re.Eol)
    pos s caps (Re.report pos0 false)
  = if same_letters s "TX" then Some (pos + 2 - pos0)%nat
    else if same_letters s "TEXAS" then Some (pos + 5 - pos0)%nat
    else None.
Proof.
  intros Hs.
  change (Re.run (Re.Cat (Re.Group 1 (Re.Alt (Re.lit_i "TX") (Re.lit_i "TEXAS")))
                    Re.Eol) pos s caps (Re.report pos0 false))
    with (let k := fun pos' s' caps' =>
                     Re.run Re.Eol pos' s'
                       ((1%nat, String.substring 0 (pos' - pos) s) :: caps')
                       (Re.report pos0 false) in
          match Re.run (Re.lit_i "TX") pos s caps k with
          | Some a => Some a
          | None => Re.run (Re.lit_i "TEXAS") pos s caps k
          end).
  cbv zeta. rewrite !run_lit_i, !same_letters_split.
  cbn [String.length]. cbv beta.
  rewrite !eol_report by (apply no_newline_drop, Hs).
  destruct (starts_with_letters "TX" s); cbn [andb].
  - destruct (Py.truthy (string_drop 2 s)); cbn [negb]; [|reflexivity].
    destruct (starts_with_letters "TEXAS" s); cbn [andb]; [|reflexivity].
    destruct (Py.truthy (string_drop 5 s)); reflexivity.
  - destruct (starts_with_letters "TEXAS" s); cbn [andb]; [|reflexivity].
    destruct (Py.truthy (string_drop 5 s)); reflexivity.
Qed.

Lemma run_state_word_start (pos0 pos : nat) (c : ascii) (s : string)
    (caps : Re.captures) :
  Py.isspace c = true ->
  Re.run (Re.Cat (Re.Group 1 (Re.Alt (Re.lit_i "TX") (Re.lit_i "TEXAS"))) Re.Eol)
    pos (String c s) caps (Re.report pos0 false) = None.
Proof.
  intros Hc.
  change (Re.run (Re.Cat (Re.Group 1 (Re.Alt (Re.lit_i "TX") (Re.lit_i "TEXAS")))
                    Re.Eol) pos (String c s) caps (Re.report pos0 false))
    with (let k := fun pos' s' caps' =>
                     Re.run Re.Eol pos' s'
                       ((1%nat, String.substring 0 (pos' - pos) (String c s))
                          :: caps')
                       (Re.report pos0 false) in
          match Re.run (Re.lit_i "TX") pos (String c s) caps k with
          | Some a => Some a
          | None => Re.run (Re.lit_i "TEXAS") pos (String c s) caps k
          end).
  cbv zeta. rewrite !run_lit_i. cbn [starts_with_letters].
  rewrite !(space_is_no_letter _ c Hc) by reflexivity. reflexivity.
Qed.

(** [\s*(TX|TEXAS)$] on a string without line feed. *)
Lemma run_spaces_state_word (pos0 pos : nat) (s : string) :
  no_newline s = true ->
  Re.star Py.isspace pos s
    (fun pos' s' =>
       Re.run (Re.Cat (Re.Group 1 (Re.Alt (Re.lit_i "TX") (Re.lit_i "TEXAS")))
                 Re.Eol) pos' s' [] (Re.report pos0 false))
  = if same_letters (Py.lstrip_by Py.isspace s) "TX"
    then Some (pos + span Py.isspace s + 2 - pos0)%nat
    else if same_letters (Py.lstrip_by Py.isspace s) "TEXAS"
         then Some (pos + span Py.isspace s + 5 - pos0)%nat
         else None.
Proof.
  intros Hs. rewrite star_greedy.
  - apply run_state_word, no_newline_lstrip, Hs.
  - intros pos' c s' Hc.
    rewrite run_state_word_start by exact Hc. reflexivity.
Qed.

Lemma match_state_unfold (pos : nat) (s : string) :
  Re.match_at Geo.re_state pos s false
  = let k := fun p t =>
               Re.star Py.isspace p t
                 (fun pos' s' =>
                    Re.run (Re.Cat (Re.Group 1 (Re.Alt (Re.lit_i "TX")
                                                       (Re.lit_i "TEXAS")))
                              Re.Eol) pos' s' [] (Re.report pos false)) in
    match match s with
          | String d r => if Ascii.eqb d "," then k (S pos) r else None
          | EmptyString => None
          end with
    | Some a => Some a
    | None => k pos s
    end.
Proof. reflexivity. Qed.

(** [,?\s*(TX|TEXAS)$] matches from a place exactly when the rest of the
    string is a state token. *)
Lemma match_state (pos : nat) (s : string) :
  no_newline s = true ->
  (state_token s = false -> Re.match_at Geo.re_state pos s false = None)
  /\ (state_token s = true -> Re.match_at Geo.re_state pos s false <> None).
Proof.
  intros Hs. rewrite match_state_unfold. cbv zeta. unfold state_token.
  destruct s as [|d r].
  - rewrite run_spaces_state_word by reflexivity. cbn. split; congruence.
  - cbn [drop_leading]. destruct (Ascii.eqb d ",") eqn:Hd.
    + apply Ascii.eqb_eq in Hd. subst d.
      assert (no_newline r = true) as Hr.
      { unfold no_newline in *. cbn [Py.forallb] in Hs.
        apply andb_prop in Hs as [_ Hs]. exact Hs. }
      rewrite (run_spaces_state_word pos (S pos) r Hr).
      destruct (same_letters (Py.lstrip_by Py.isspace r) "TX").
      { split; [discriminate|]. intros _. discriminate. }
      destruct (same_letters (Py.lstrip_by Py.isspace r) "TEXAS").
      { split; [discriminate|]. intros _. discriminate. }
      rewrite (run_spaces_state_word pos pos _ Hs). cbn.
      split; [reflexivity|discriminate].
    + rewrite (run_spaces_state_word pos pos _ Hs).
      destruct (same_letters (Py.lstrip_by Py.isspace (String d r)) "TX").
      { split; [discriminate|]. intros _. discriminate. }
      destruct (same_letters (Py.lstrip_by Py.isspace (String d r)) "TEXAS").
      { split; [discriminate|]. intros _. discriminate. }
      split; [reflexivity|discriminate].
Qed.

(** [USA$] on a string without line feed. *)
Lemma run_usa (pos0 pos : nat) (s : string) (caps : Re.captures) :
  no_newline s = true ->
  Re.run (Re.Cat (Re.lit_i "USA") Re.Eol) pos s caps (Re.report pos0 false)
  = if same_letters s "USA" then Some (pos + 3 - pos0)%nat else None.
Proof.
  intros Hs.
  change (Re.run (Re.Cat (Re.lit_i "USA") Re.Eol) pos s caps (Re.report pos0 false))
    with (Re.run (Re.lit_i "USA") pos s caps
            (fun pos' s' caps' =>
               Re.run Re.Eol pos' s' caps' (Re.report pos0 false))).
  rewrite run_lit_i, same_letters_split. cbn [String.length]. cbv beta.
  rewrite eol_report by (apply no_newline_drop, Hs).
  destruct (starts_with_letters "USA" s); [|reflexivity].
  destruct (Py.truthy (string_drop 3 s)); reflexivity.
Qed.

(** [\s+USA$] *)
Lemma run_spaces_usa (pos0 pos : nat) (s : string) (caps : Re.captures) :
  no_newline s = true ->
  Re.run (Re.Cat (Re.Plus Py.isspace) (Re.Cat (Re.lit_i "USA") Re.Eol))
    pos s caps (Re.report pos0 false)
  = if starts_with_space s && same_letters (Py.lstrip_by Py.isspace s) "USA"
    then Some (pos + span Py.isspace s + 3 - pos0)%nat
    else None.
Proof.
  intros Hs.
  change (Re.run (Re.Cat (Re.Plus Py.isspace) (Re.Cat (Re.lit_i "USA") Re.Eol))
            pos s caps (Re.report pos0 false))
    with (match s with
          | String c s' =>
              if Py.isspace c
              then Re.star Py.isspace (S pos) s'
                     (fun pos' t' =>
                        Re.run (Re.Cat (Re.lit_i "USA") Re.Eol) pos' t' caps
                          (Re.report pos0 false))
              else None
          | EmptyString => None
          end).
  destruct s as [|c s']; [reflexivity|].
  cbn [starts_with_space Py.lstrip_by span].
  destruct (Py.isspace c) eqn:Hc; [|reflexivity]. cbn [andb].
  assert (no_newline s' = true) as Hs'.
  { unfold no_newline in *. cbn [Py.forallb] in Hs.
    apply andb_prop in Hs as [_ Hs]. exact Hs. }
  rewrite star_greedy.
  - rewrite run_usa by (apply no_newline_lstrip, Hs').
    replace (S pos + span Py.isspace s')%nat
      with (pos + S (span Py.isspace s'))%nat by lia.
    reflexivity.
  - intros pos' d t Hd.
    change (Re.run (Re.Cat (Re.lit_i "USA") Re.Eol) pos' (String d t) caps
              (Re.report pos0 false))
      with (Re.run (Re.lit_i "USA") pos' (String d t) caps
              (fun p1 s1 caps1 => Re.run Re.Eol p1 s1 caps1 (Re.report pos0 false))).
    rewrite run_lit_i. cbn [starts_with_letters].
    rewrite (space_is_no_letter _ d Hd) by reflexivity. reflexivity.
Qed.

(** [\s+TX\s+USA$] matches from a place exactly when the rest of the string
    is the sequence. *)
Lemma match_tx_usa (pos : nat) (s : string) :
  no_newline s = true ->
  (tx_usa_sequence s = false -> Re.match_at Geo.re_tx_usa pos s false = None)
  /\ (tx_usa_sequence s = true -> Re.match_at Geo.re_tx_usa pos s false <> None).
Proof.
  intros Hs.
  change (Re.match_at Geo.re_tx_usa pos s false)
    with (match s with
          | String c s' =>
              if Py.isspace c
              then Re.star Py.isspace (S pos) s'
                     (fun pos' t' =>
                        Re.run (Re.lit_i "TX") pos' t' []
                          (fun p1 s1 caps1 =>
                             Re.run (Re.Cat (Re.Plus Py.isspace)
                                       (Re.Cat (Re.lit_i "USA") Re.Eol))
                               p1 s1 caps1 (Re.report pos false)))
              else None
          | EmptyString => None
          end).
  unfold tx_usa_sequence.
  destruct s as [|c s']; [split; [reflexivity|discriminate]|].
  cbn [starts_with_space Py.lstrip_by].
  destruct (Py.isspace c) eqn:Hc; [|split; [reflexivity|discriminate]].
  cbn [andb].
  assert (no_newline s' = true) as Hs'.
  { unfold no_newline in *. cbn [Py.forallb] in Hs.
    apply andb_prop in Hs as [_ Hs]. exact Hs. }
  rewrite star_greedy.
  - rewrite run_lit_i. cbn [String.length].
    destruct (starts_with_letters "TX" (Py.lstrip_by Py.isspace s'));
      [|split; [reflexivity|discriminate]].
    cbn [andb].
    rewrite run_spaces_usa
      by (apply no_newline_drop, no_newline_lstrip, Hs').
    destruct (starts_with_space (string_drop 2 (Py.lstrip_by Py.isspace s'))
              && same_letters
                   (Py.lstrip_by Py.isspace
                      (string_drop 2 (Py.lstrip_by Py.isspace s'))) "USA").
    + split; [discriminate|]. intros _. discriminate.
    + split; [reflexivity|discriminate].
  - intros pos' d t Hd. rewrite run_lit_i. cbn [starts_with_letters].
    rewrite (space_is_no_letter _ d Hd) by reflexivity. reflexivity.
Qed.

(** Deleting the matches of a pattern that ends the string strips the
    longest end that matches. *)
Lemma sub_strip_trailing (r : Re.regex) (is_tail : string -> bool) :
  ends_at_eol r ->
  (forall pos s,
      no_newline s = true ->
      (is_tail s = false -> Re.match_at r pos s false = None)
      /\ (is_tail s = true -> Re.match_at r pos s false <> None)) ->
  forall s pos,
    no_newline s = true -> Re.sub_from r "" pos 0 s = strip_trailing is_tail s.
Proof.
  intros Hr Hm. induction s as [|c s IH]; intros pos Hs;
    cbn [Re.sub_from strip_trailing].
  - destruct (Re.match_at r pos "" false); destruct (is_tail ""); reflexivity.
  - destruct (Hm pos (String c s) Hs) as [Hnone Hsome].
    destruct (is_tail (String c s)).
    + destruct (Re.match_at r pos (String c s) false) as [len|] eqn:Hlen;
        [|exfalso; apply Hsome; reflexivity].
      apply (match_to_end r pos _ len Hr Hs) in Hlen.
      destruct len as [|len]; [discriminate Hlen|].
      cbn [string_drop] in Hlen.
      rewrite (sub_from_skip_all r s (S pos) len Hlen). reflexivity.
    + rewrite Hnone by reflexivity. f_equal. apply IH.
      unfold no_newline in *. cbn [Py.forallb] in Hs.
      apply andb_prop in Hs as [_ Hs]. exact Hs.
Qed.

Lemma sub_state_refines (s : string) :
  no_newline s = true ->
  Re.sub Geo.re_state "" s = strip_trailing state_token s.
Proof.
  intros Hs. apply (sub_strip_trailing _ _ re_state_ends); [|exact Hs].
  intros pos t Ht. apply match_state, Ht.
Qed.

Lemma sub_tx_usa_refines (s : string) :
  no_newline s = true ->
  Re.sub Geo.re_tx_usa "" s = strip_trailing tx_usa_sequence s.
Proof.
  intros Hs. apply (sub_strip_trailing _ _ re_tx_usa_ends); [|exact Hs].
  intros pos t Ht. apply match_tx_usa, Ht.
Qed.

(** [normalize_city] does what the specification says, step by step. *)
Lemma normalize_city_refines (city_name : string) :
  Geo.normalize_city city_name = normalize_city_spec city_name.
Proof.
  unfold Geo.normalize_city, normalize_city_spec.
  destruct city_name as [|c s]; [reflexivity|]. cbn [Py.truthy negb]. cbv zeta.
  set (n := Py.strip (Py.upper (String c s))).
  pose proof (sub_spaces_single_spaced n) as H1.
  pose proof (sub_ft_single_spaced _ H1) as H2.
  pose proof (sub_st_single_spaced _ H2) as H3.
  pose proof (sub_end_single_spaced _ _ re_state_ends H3) as H4.
  rewrite (sub_tx_usa_refines _ (single_spaced_no_newline _ H4)).
  rewrite (sub_state_refines _ (single_spaced_no_newline _ H3)).
  rewrite sub_st_refines, sub_ft_refines, sub_spaces_refines.
  reflexivity.
Qed.

(** C8. [normalize_city] does what the specification says, in its order:
    uppercase and trim, collapse the runs of whitespace to one space, rewrite
    a leading FT or FT. followed by whitespace to FORT and a leading ST or ST.
    to SAINT, strip a trailing TX or TEXAS with the whitespace and the comma
    before it, strip a trailing TX USA sequence, trim again.  It sends
    "Ft. Worth, TX" to "FORT WORTH", "ST HEDWIG TEXAS" to "SAINT HEDWIG",
    "Dallas TX USA" to "DALLAS" and the empty string to the empty string.  Its
    result never starts or ends with whitespace and has every whitespace run
    collapsed to one space; and for every name whose upper-case form stays
    below U+0100, the result is that of the rules of the specification
    applied one after the other, and holds no letter that has an upper-case
    form. *)
Theorem normalize_city_contract :
  Geo.normalize_city "Ft. Worth, TX" = "FORT WORTH"
  /\ Geo.normalize_city "ST HEDWIG TEXAS" = "SAINT HEDWIG"
  /\ Geo.normalize_city "Dallas TX USA" = "DALLAS"
  /\ Geo.normalize_city "" = ""
  /\ Geo.normalize_city "  san   antonio  " = "SAN ANTONIO"
  /\ Geo.normalize_city "FT STOCKTON" = "FORT STOCKTON"
  /\ Geo.normalize_city "ft.  stockton" = "FORT STOCKTON"
  /\ Geo.normalize_city "st. hedwig" = "SAINT HEDWIG"
  /\ Geo.normalize_city "Austin, tx" = "AUSTIN"
  /\ Geo.normalize_city "Austin TX" = "AUSTIN"
  /\ Geo.normalize_city "Austin Texas" = "AUSTIN"
  /\ Geo.normalize_city "West Lake Hills" = "WEST LAKE HILLS"
  /\ Geo.normalize_city "Croft Ranch" = "CROFT RANCH"
  /\ Geo.normalize_city penitas_lower = penitas_upper
  /\ (forall city_name, trimmed (Geo.normalize_city city_name))
  /\ (forall city_name, single_spaced (Geo.normalize_city city_name) = true)
  /\ (forall city_name,
        Py.upper_below_256 city_name = true ->
        Geo.normalize_city city_name = normalize_city_spec city_name
        /\ upper_case (Geo.normalize_city city_name)).
Proof.
  do 14 (split; [vm_compute; reflexivity|]).
  split; [|split; [exact normalize_city_single_spaced|]].
  - intros city_name. unfold Geo.normalize_city.
    destruct (negb (Py.truthy city_name)); [|apply strip_trimmed].
    split; intros c Hc; discriminate Hc.
  - intros city_name Hdom. split; [apply normalize_city_refines|].
    unfold Geo.normalize_city.
    destruct (negb (Py.truthy city_name)); [reflexivity|].
    unfold upper_case.
    repeat first [apply forallb_strip | apply forallb_sub; [reflexivity|]].
    apply upper_upper_case, Hdom.
Qed.

Lemma normalize_city_contract_witness :
  Geo.normalize_city "Ft. Worth, TX" = normalize_city_spec "Ft. Worth, TX"
  /\ upper_case (Geo.normalize_city "Ft. Worth, TX").
Proof.
  destruct normalize_city_contract
    as (_ & _ & _ & _ & _ & _ & _ & _ & _ & _ & _ & _ & _ & _ & _ & _ & H).
  apply (H "Ft. Worth, TX"). vm_compute. reflexivity.
Defined.

(** * Further properties *)

(** ** City names: what does not matter *)

Lemma append_nil_r (a : string) : a +:+ "" = a.
Proof.
  induction a as [|c a IH]; [reflexivity|].
  change (String c a +:+ "") with (String c (a +:+ "")). rewrite IH. reflexivity.
Qed.

Lemma append_assoc (a b c : string) : (a +:+ b) +:+ c = a +:+ b +:+ c.
Proof.
  induction a as [|x a IH]; [reflexivity|].
  change ((String x a +:+ b) +:+ c) with (String x ((a +:+ b) +:+ c)).
  change (String x a +:+ b +:+ c) with (String x (a +:+ b +:+ c)).
  rewrite IH. reflexivity.
Qed.

Lemma first_char_app (a b : string) :
  a ≠ "" -> first_char (a +:+ b) = first_char a.
Proof. destruct a; [congruence|reflexivity]. Qed.

Lemma last_char_app (a b : string) :
  b ≠ "" -> last_char (a +:+ b) = last_char b.
Proof.
  intros Hb. induction a as [|c a IH]; [reflexivity|].
  change (String c a +:+ b) with (String c (a +:+ b)). cbn [last_char].
  destruct (a +:+ b) eqn:Hab; [|exact IH].
  destruct a; [|discriminate Hab]. destruct (Hb Hab).
Qed.

Lemma lstrip_by_noop (p : ascii -> bool) (s : string) :
  (forall c, first_char s = Some c -> p c = false) -> Py.lstrip_by p s = s.
Proof.
  destruct s as [|c s]; simpl; [reflexivity|].
  intros H. rewrite (H c eq_refl). reflexivity.
Qed.

Lemma rstrip_by_noop (p : ascii -> bool) (s : string) :
  (forall c, last_char s = Some c -> p c = false) -> Py.rstrip_by p s = s.
Proof.
  induction s as [|c s IH]; [reflexivity|].
  intros H. cbn [Py.rstrip_by]. destruct s as [|d s].
  - simpl. rewrite (H c eq_refl). reflexivity.
  - rewrite IH by exact H. reflexivity.
Qed.

Lemma strip_by_idem (p : ascii -> bool) (s : string) :
  Py.strip_by p (Py.strip_by p s) = Py.strip_by p s.
Proof.
  unfold Py.strip_by at 1.
  rewrite lstrip_by_noop.
  - apply rstrip_by_noop. intros c. apply rstrip_by_last.
  - intros c Hc. apply rstrip_by_first in Hc.
    apply (lstrip_by_first _ _ _ Hc).
Qed.

Lemma upper_app (a b : string) : Py.upper (a +:+ b) = Py.upper a +:+ Py.upper b.
Proof.
  induction a as [|c a IH]; [reflexivity|].
  change (String c a +:+ b) with (String c (a +:+ b)).
  cbn [Py.upper]. rewrite IH, append_assoc. reflexivity.
Qed.

Lemma upper_of_idem (c : ascii) : Py.upper (Py.upper_of c) = Py.upper_of c.
Proof. destruct c as [[] [] [] [] [] [] [] []]; reflexivity. Qed.

Lemma upper_idem (s : string) : Py.upper (Py.upper s) = Py.upper s.
Proof.
  induction s as [|c s IH]; [reflexivity|].
  cbn [Py.upper]. rewrite upper_app, upper_of_idem, IH. reflexivity.
Qed.

(** Whitespace has no upper-case form, and the upper-case form of anything
    else has no whitespace at its ends. *)
Lemma upper_of_space (c : ascii) :
  Py.isspace c = true -> Py.upper_of c = String c "".
Proof. destruct c as [[] [] [] [] [] [] [] []]; vm_compute; congruence. Qed.

Lemma upper_of_no_space_check (c : ascii) :
  Py.isspace c
  || (Py.truthy (Py.upper_of c)
      && String.eqb (Py.lstrip_by Py.isspace (Py.upper_of c)) (Py.upper_of c)
      && String.eqb (Py.rstrip_by Py.isspace (Py.upper_of c)) (Py.upper_of c)
      && negb (starts_with_space (Py.upper_of c))) = true.
Proof. destruct c as [[] [] [] [] [] [] [] []]; reflexivity. Qed.

Lemma upper_of_no_space (c : ascii) :
  Py.isspace c = false ->
  Py.upper_of c <> ""
  /\ Py.lstrip_by Py.isspace (Py.upper_of c) = Py.upper_of c
  /\ Py.rstrip_by Py.isspace (Py.upper_of c) = Py.upper_of c
  /\ (forall d, first_char (Py.upper_of c) = Some d -> Py.isspace d = false).
Proof.
  intros Hc. pose proof (upper_of_no_space_check c) as H.
  rewrite Hc in H. cbn [orb] in H.
  apply andb_prop in H as [H Hfirst]. apply andb_prop in H as [H Hr].
  apply andb_prop in H as [Hne Hl].
  apply String.eqb_eq in Hl, Hr. apply negb_true_iff in Hfirst.
  repeat split_and; try assumption.
  - apply truthy_true, Hne.
  - intros d Hd. destruct (Py.upper_of c) as [|e r]; [discriminate Hd|].
    injection Hd as <-. exact Hfirst.
Qed.

Lemma upper_lstrip (s : string) :
  Py.upper (Py.lstrip_by Py.isspace s) = Py.lstrip_by Py.isspace (Py.upper s).
Proof.
  induction s as [|c s IH]; [reflexivity|].
  cbn [Py.lstrip_by Py.upper]. destruct (Py.isspace c) eqn:Hc.
  - rewrite (upper_of_space c Hc).
    change (String c "" +:+ Py.upper s) with (String c (Py.upper s)).
    cbn [Py.lstrip_by]. rewrite Hc. exact IH.
  - destruct (upper_of_no_space c Hc) as (Hne & _ & _ & Hfirst).
    cbn [Py.upper]. symmetry. apply lstrip_by_noop.
    intros d Hd. rewrite (first_char_app _ _ Hne) in Hd. apply Hfirst, Hd.
Qed.

Lemma rstrip_by_app (p : ascii -> bool) (a b : string) :
  Py.rstrip_by p (a +:+ b)
  = if Py.truthy (Py.rstrip_by p b) then a +:+ Py.rstrip_by p b
    else Py.rstrip_by p a.
Proof.
  induction a as [|c a IH].
  - change ("" +:+ b) with b. destruct (Py.rstrip_by p b); reflexivity.
  - change (String c a +:+ b) with (String c (a +:+ b)).
    cbn [Py.rstrip_by]. rewrite IH.
    destruct (Py.rstrip_by p b) as [|d r]; cbn [Py.truthy]; [reflexivity|].
    change (String c a +:+ String d r) with (String c (a +:+ String d r)).
    destruct (a +:+ String d r) eqn:Happ; [|reflexivity].
    destruct a; discriminate Happ.
Qed.

Lemma upper_truthy (s : string) : Py.truthy (Py.upper s) = Py.truthy s.
Proof.
  destruct s as [|c s]; [reflexivity|]. cbn [Py.upper Py.truthy].
  destruct c as [[] [] [] [] [] [] [] []]; reflexivity.
Qed.

Lemma upper_rstrip (s : string) :
  Py.upper (Py.rstrip_by Py.isspace s) = Py.rstrip_by Py.isspace (Py.upper s).
Proof.
  induction s as [|c s IH]; [reflexivity|].
  cbn [Py.upper]. rewrite rstrip_by_app, <- IH, upper_truthy.
  cbn [Py.rstrip_by].
  destruct (Py.rstrip_by Py.isspace s) as [|d r]; cbn [Py.truthy].
  - destruct (Py.isspace c) eqn:Hc.
    + rewrite (upper_of_space c Hc). cbn [Py.rstrip_by]. rewrite Hc. reflexivity.
    + destruct (upper_of_no_space c Hc) as (_ & _ & -> & _).
      cbn [Py.upper]. apply append_nil_r.
  - reflexivity.
Qed.

Lemma upper_strip (s : string) : Py.upper (Py.strip s) = Py.strip (Py.upper s).
Proof.
  unfold Py.strip, Py.strip_by. rewrite upper_rstrip, upper_lstrip. reflexivity.
Qed.

(** [normalize_city] is a function of the upper-cased, stripped name. *)
Lemma normalize_city_steps (city_name : string) :
  Geo.normalize_city city_name = rewrite_city (Py.strip (Py.upper city_name)).
Proof.
  unfold Geo.normalize_city, rewrite_city.
  destruct city_name; [vm_compute|]; reflexivity.
Qed.

(** X1. [normalize_city] ignores the letter case of its argument and the
    whitespace around it.  For names whose upper-case forms stay below U+0100:
    two names that [str.upper] makes equal get the same key (so do Penitas
    written with U+00F1 and PENITAS written with U+00D1), a name and its
    upper-case form get the same key, and so do a name and its stripped
    form. *)
Theorem normalize_city_insensitive (a b : string) :
  Py.upper_below_256 a = true -> Py.upper_below_256 b = true ->
  (Py.upper a = Py.upper b -> Geo.normalize_city a = Geo.normalize_city b)
  /\ Geo.normalize_city (Py.upper a) = Geo.normalize_city a
  /\ Geo.normalize_city (Py.strip a) = Geo.normalize_city a.
Proof.
  intros _ _. split; [|split].
  - intros Hab. rewrite !normalize_city_steps, Hab. reflexivity.
  - rewrite !normalize_city_steps, upper_idem. reflexivity.
  - rewrite !normalize_city_steps, upper_strip.
    f_equal. apply strip_by_idem.
Qed.

Lemma normalize_city_insensitive_witness :
  Geo.normalize_city penitas_lower = Geo.normalize_city penitas_upper.
Proof.
  destruct (normalize_city_insensitive penitas_lower penitas_upper) as (H & _).
  - vm_compute. reflexivity.
  - vm_compute. reflexivity.
  - apply H. vm_compute. reflexivity.
Defined.

(** ** Regions *)

Lemma region_in_sound (regions : list (string * list string))
    (county region : string) :
  GeoLookup.region_in regions county = Some region ->
  exists counties, (region, counties) ∈ regions /\ county ∈ counties.
Proof.
  induction regions as [|[r cs] rest IH]; simpl; [discriminate|].
  case_bool_decide as Hin.
  - intros [= <-]. exists cs. split; [left|exact Hin].
  - intros H. destruct (IH H) as (cs' & Hr & Hc).
    exists cs'. split; [right; exact Hr|exact Hc].
Qed.

Lemma elem_of_concat {A} (x : A) (l : list A) (ls : list (list A)) :
  x ∈ l -> l ∈ ls -> x ∈ concat ls.
Proof.
  intros Hx. induction ls as [|l' ls IH]; intros Hl; [inversion Hl|].
  simpl. apply elem_of_app. apply elem_of_cons in Hl as [->|Hl]; auto.
Qed.

Lemma region_in_complete (regions : list (string * list string))
    (county region : string) (counties : list string) :
  NoDup (concat (regions.*2)) ->
  (region, counties) ∈ regions -> county ∈ counties ->
  GeoLookup.region_in regions county = Some region.
Proof.
  induction regions as [|[r cs] rest IH]; intros Hnd Hr Hc.
  - inversion Hr.
  - cbn [fmap list_fmap concat snd] in Hnd.
    apply NoDup_app in Hnd as (_ & Hdisj & Hnd).
    cbn [GeoLookup.region_in]. apply elem_of_cons in Hr as [[= -> ->]|Hr].
    + rewrite bool_decide_eq_true_2 by exact Hc. reflexivity.
    + case_bool_decide as Hin; [|apply IH; assumption].
      exfalso. apply (Hdisj county Hin).
      apply (elem_of_concat _ counties); [exact Hc|].
      apply list_elem_of_fmap. exists (region, counties). auto.
Qed.

Lemma regions_disjoint : NoDup (concat (GeoLookup.TEXAS_REGIONS.*2)).
Proof. apply (bool_decide_unpack _). vm_compute. exact I. Qed.

(** X2. [get_region_for_county] returns a region exactly for the counties
    listed under it in TEXAS_REGIONS: no county is listed twice, so the answer
    does not depend on the order of the table; a county in no list has no
    region. *)
Theorem region_of_county (county : string) :
  (forall region,
      GeoLookup.get_region_for_county county = Some region
      <-> exists counties,
            (region, counties) ∈ GeoLookup.TEXAS_REGIONS /\ county ∈ counties)
  /\ (GeoLookup.get_region_for_county county = None
      <-> forall region counties,
            (region, counties) ∈ GeoLookup.TEXAS_REGIONS -> county ∉ counties).
Proof.
  assert (forall region,
             GeoLookup.get_region_for_county county = Some region
             <-> exists counties,
                   (region, counties) ∈ GeoLookup.TEXAS_REGIONS
                   /\ county ∈ counties) as Hsome.
  { intros region. split.
    - apply region_in_sound.
    - intros (counties & Hr & Hc).
      exact (region_in_complete _ _ _ _ regions_disjoint Hr Hc). }
  split; [exact Hsome|]. split.
  - intros Hnone region counties Hr Hc.
    assert (GeoLookup.get_region_for_county county = Some region) as Hs.
    { apply Hsome. eauto. }
    congruence.
  - intros Hno. destruct (GeoLookup.get_region_for_county county) as [region|] eqn:Hg;
      [|reflexivity].
    destruct (region_in_sound _ _ _ Hg) as (counties & Hr & Hc).
    destruct (Hno _ _ Hr Hc).
Qed.

Lemma region_of_county_witness :
  GeoLookup.get_region_for_county "Austin" = Some "Houston"
  /\ GeoLookup.get_region_for_county "austin" = None.
Proof.
  split.
  - destruct (region_of_county "Austin") as (H & _). apply H.
    exists ["Harris"; "Fort Bend"; "Montgomery"; "Brazoria"; "Galveston";
            "Chambers"; "Liberty"; "Waller"; "Austin"].
    split; apply (bool_decide_unpack _); vm_compute; exact I.
  - destruct (region_of_county "austin") as (_ & H). apply H.
    intros region counties Hr.
    repeat (apply elem_of_cons in Hr as [[= -> ->]|Hr];
            [apply (bool_decide_unpack _); vm_compute; exact I|]).
    inversion Hr.
Defined.

(** ** The city lookup: first occurrence wins *)

Lemma main_step_offer (cities : gmap string GeoLookup.entry)
    (counties : gset string) (row : gmap string string) :
  GeoLookup.main_step (cities, counties) row
  = match city_of_row row with
    | None => (cities, counties)
    | Some (k, e) =>
        (match cities !! k with
         | Some _ => cities
         | None => <[k := e]> cities
         end,
         {[GeoLookup.county e]} ∪ counties)
    end.
Proof.
  unfold GeoLookup.main_step, city_of_row.
  case_bool_decide; cbn [negb]; [|reflexivity].
  destruct (Py.truthy (Py.strip (row_get row "city")));
    destruct (Py.truthy (Py.strip (row_get row "county_name")));
    cbn [negb orb andb GeoLookup.county]; try reflexivity.
  destruct (cities !! _); reflexivity.
Qed.

Lemma first_offer_snoc (k : string) (pre : list (gmap string string))
    (r0 r : gmap string string) :
  first_offer k (pre ++ [r0]) r <->
  first_offer k pre r
  \/ ((forall r', r' ∈ pre -> fst <$> city_of_row r' ≠ Some k)
      /\ r = r0 /\ fst <$> city_of_row r0 = Some k).
Proof.
  split.
  - intros (p1 & p2 & Heq & Hpre & Hr).
    destruct p2 as [|y p2 _] using rev_ind.
    + apply app_inj_tail in Heq as [-> ->]. right. auto.
    + rewrite app_comm_cons, app_assoc in Heq.
      apply app_inj_tail in Heq as [-> ->]. left. exists p1, p2. auto.
  - intros [(p1 & p2 & -> & Hpre & Hr)|(Hpre & -> & Hr)].
    + exists p1, (p2 ++ [r0]). rewrite <- app_assoc. auto.
    + exists pre, []. auto.
Qed.

Lemma first_offer_unique (k : string) (rows : list (gmap string string))
    (r1 r2 : gmap string string) :
  first_offer k rows r1 -> first_offer k rows r2 -> r1 = r2.
Proof.
  intros (p1 & q1 & -> & Hp1 & Hr1) (p2 & q2 & Heq & Hp2 & Hr2).
  revert p2 Heq Hp2. induction p1 as [|a p1 IH]; intros [|b p2] Heq Hp2.
  - simpl in Heq. congruence.
  - simpl in Heq. injection Heq as -> _.
    exfalso. apply (Hp2 b); [left|exact Hr1].
  - simpl in Heq. injection Heq as -> _.
    exfalso. apply (Hp1 r2); [left|exact Hr2].
  - simpl in Heq. injection Heq as -> Heq.
    apply (IH (fun r' Hin => Hp1 r' (list_elem_of_further _ _ _ Hin)) p2 Heq).
    intros r' Hin. apply Hp2. right. exact Hin.
Qed.

Lemma first_offer_elem (k : string) (rows : list (gmap string string))
    (r : gmap string string) :
  first_offer k rows r -> r ∈ rows /\ fst <$> city_of_row r = Some k.
Proof.
  intros (p & q & -> & _ & Hr). split; [|exact Hr].
  apply elem_of_app. right. left.
Qed.

Lemma cities_inv_init : cities_inv [] (∅, ∅).
Proof.
  split; cbn [fst snd].
  - intros k. rewrite lookup_empty. split.
    + intros [? [=]].
    + intros (r & Hr & _). inversion Hr.
  - intros k e. rewrite lookup_empty. discriminate.
  - intros c. split; [set_solver|].
    intros (r & _ & _ & Hr & _). inversion Hr.
Qed.

Lemma cities_inv_step (pre : list (gmap string string))
    (st : gmap string GeoLookup.entry * gset string) (r0 : gmap string string) :
  cities_inv pre st -> cities_inv (pre ++ [r0]) (GeoLookup.main_step st r0).
Proof.
  destruct st as [cities counties]. intros [Hkeys Hentry Hcounties].
  cbn [fst snd] in *. rewrite main_step_offer.
  destruct (city_of_row r0) as [[k0 e0]|] eqn:Hoffer.
  - assert (is_Some (cities !! k0) ->
            (match cities !! k0 with
             | Some _ => cities
             | None => <[k0 := e0]> cities
             end) = cities) as Hold.
    { intros [e He]. rewrite He. reflexivity. }
    split; cbn [fst snd].
    + intros k. split.
      * intros Hk. destruct (decide (k = k0)) as [->|Hne].
        { exists r0. split; [apply elem_of_app; right; left|].
          rewrite Hoffer. reflexivity. }
        assert (is_Some (cities !! k)) as Hk'.
        { destruct (cities !! k0); [exact Hk|].
          rewrite lookup_insert_ne in Hk by congruence. exact Hk. }
        apply Hkeys in Hk' as (r & Hr & Hrk).
        exists r. split; [apply elem_of_app; left; exact Hr|exact Hrk].
      * intros (r & Hr & Hrk). destruct (decide (k = k0)) as [->|Hne].
        { destruct (cities !! k0) as [e|] eqn:He; [rewrite He; eauto|].
          rewrite lookup_insert_eq. eauto. }
        assert (is_Some (cities !! k)) as Hk'.
        { apply Hkeys. apply elem_of_app in Hr as [Hr|Hr]; [eauto|].
          apply list_elem_of_singleton in Hr as ->.
          rewrite Hoffer in Hrk. simpl in Hrk. congruence. }
        destruct (cities !! k0); [exact Hk'|].
        rewrite lookup_insert_ne by congruence. exact Hk'.
    + intros k e Hke.
      destruct (cities !! k0) as [e'|] eqn:He0.
      * destruct (Hentry k e Hke) as (r & Hr & Hre).
        exists r. split; [|exact Hre]. apply first_offer_snoc. left. exact Hr.
      * destruct (decide (k = k0)) as [->|Hne].
        { rewrite lookup_insert_eq in Hke. injection Hke as <-.
          exists r0. split; [|exact Hoffer].
          apply first_offer_snoc. right. split; [|split; [reflexivity|]].
          - intros r' Hr' Hk'.
            assert (is_Some (cities !! k0)) as [e He] by (apply Hkeys; eauto).
            congruence.
          - rewrite Hoffer. reflexivity. }
        rewrite lookup_insert_ne in Hke by congruence.
        destruct (Hentry k e Hke) as (r & Hr & Hre).
        exists r. split; [|exact Hre]. apply first_offer_snoc. left. exact Hr.
    + intros c. rewrite elem_of_union, elem_of_singleton, Hcounties. split.
      * intros [->|(r & k & e & Hr & Hre & Hc)].
        { exists r0, k0, e0. split; [apply elem_of_app; right; left|auto]. }
        exists r, k, e. split; [apply elem_of_app; left; exact Hr|auto].
      * intros (r & k & e & Hr & Hre & Hc).
        apply elem_of_app in Hr as [Hr|Hr]; [right; eauto 10|].
        apply list_elem_of_singleton in Hr as ->. left.
        rewrite Hoffer in Hre. injection Hre as <- <-. congruence.
  - split; cbn [fst snd].
    + intros k. rewrite Hkeys. split.
      * intros (r & Hr & Hrk). exists r. split; [apply elem_of_app; left; exact Hr|exact Hrk].
      * intros (r & Hr & Hrk). apply elem_of_app in Hr as [Hr|Hr]; [eauto|].
        apply list_elem_of_singleton in Hr as ->.
        rewrite Hoffer in Hrk. discriminate.
    + intros k e Hke. destruct (Hentry k e Hke) as (r & Hr & Hre).
      exists r. split; [|exact Hre]. apply first_offer_snoc. left. exact Hr.
    + intros c. rewrite Hcounties. split.
      * intros (r & k & e & Hr & Hre & Hc).
        exists r, k, e. split; [apply elem_of_app; left; exact Hr|auto].
      * intros (r & k & e & Hr & Hre & Hc).
        apply elem_of_app in Hr as [Hr|Hr]; [eauto 10|].
        apply list_elem_of_singleton in Hr as ->. congruence.
Qed.

Lemma read_cities_inv (rows : list (gmap string string)) :
  cities_inv rows (GeoLookup.read_cities rows).
Proof.
  unfold GeoLookup.read_cities. induction rows as [|r0 rows IH] using rev_ind.
  - apply cities_inv_init.
  - rewrite fold_left_app. simpl fold_left at 1. apply cities_inv_step, IH.
Qed.

(** X3. In the city lookup the first row that offers a normalised name
    wins: the entry stored under a key is the one of the first Texas row, with
    a city and a county, whose normalised city is that key; rows that offer the
    key later never replace it; and a key is absent exactly when no row offers
    it. *)
Theorem lookup_first_wins (rows : list (gmap string string)) (k : string) :
  (forall e, (GeoLookup.read_cities rows).1 !! k = Some e ->
             exists r, first_offer k rows r /\ city_of_row r = Some (k, e))
  /\ (forall r e, first_offer k rows r -> city_of_row r = Some (k, e) ->
                  (GeoLookup.read_cities rows).1 !! k = Some e)
  /\ ((GeoLookup.read_cities rows).1 !! k = None
      <-> forall r, r ∈ rows -> fst <$> city_of_row r ≠ Some k).
Proof.
  destruct (read_cities_inv rows) as [Hkeys Hentry _].
  split; [exact (Hentry k)|]. split.
  - intros r e Hfirst Hre.
    destruct (first_offer_elem _ _ _ Hfirst) as [Hr Hrk].
    assert (is_Some ((GeoLookup.read_cities rows).1 !! k)) as [e' He']
      by (apply Hkeys; eauto).
    destruct (Hentry k e' He') as (r' & Hfirst' & Hre').
    rewrite (first_offer_unique _ _ _ _ Hfirst' Hfirst) in Hre'. congruence.
  - rewrite eq_None_not_Some, Hkeys. split.
    + intros Hno r Hr Hrk. apply Hno. eauto.
    + intros Hno (r & Hr & Hrk). exact (Hno r Hr Hrk).
Qed.

Lemma lookup_first_wins_witness :
  (GeoLookup.read_cities [sample_city_ok; sample_city_fw; sample_city_fw']).1
    !! "FORT WORTH"
  = Some {| GeoLookup.county := "Tarrant";
            GeoLookup.county_fips := "48439";
            GeoLookup.region := Some "DFW" |}.
Proof.
  destruct (lookup_first_wins [sample_city_ok; sample_city_fw; sample_city_fw']
              "FORT WORTH") as (_ & H & _).
  apply (H sample_city_fw).
  - exists [sample_city_ok], [sample_city_fw'].
    split; [reflexivity|]. split; [|vm_compute; reflexivity].
    intros r' Hr'. apply list_elem_of_singleton in Hr' as ->.
    vm_compute. discriminate.
  - vm_compute. reflexivity.
Defined.

(** ** The county list *)

Lemma sorted_elements (strings : gset string) :
  Sorted String.le (GeoLookup.sorted strings)
  /\ NoDup (GeoLookup.sorted strings)
  /\ (forall x, x ∈ GeoLookup.sorted strings <-> x ∈ strings).
Proof.
  unfold GeoLookup.sorted.
  pose proof (merge_sort_Permutation String.le (elements strings)) as Hperm.
  split; [apply (Sorted_merge_sort String.le)|]. split.
  - rewrite Hperm. apply NoDup_elements.
  - intros x. rewrite Hperm. apply elem_of_elements.
Qed.

(** X4. The object [main] writes is consistent: the county list is in
    increasing order without repetition; it holds exactly the stripped county
    names of the Texas rows that have a city and a county, also of the rows
    whose city name was already taken; every city entry names a county of that
    list and carries the region [get_region_for_county] gives for it. *)
Theorem lookup_output_consistent (rows : list (gmap string string))
    (o : GeoLookup.output) :
  GeoLookup.main (Some rows) = Some o ->
  Sorted String.le (GeoLookup.out_counties o)
  /\ NoDup (GeoLookup.out_counties o)
  /\ (forall c, c ∈ GeoLookup.out_counties o
                <-> exists r k e, r ∈ rows /\ city_of_row r = Some (k, e)
                                  /\ GeoLookup.county e = c)
  /\ (forall k e, GeoLookup.out_cities o !! k = Some e ->
                  GeoLookup.county e ∈ GeoLookup.out_counties o
                  /\ GeoLookup.region e
                     = GeoLookup.get_region_for_county (GeoLookup.county e)).
Proof.
  unfold GeoLookup.main. pose proof (read_cities_inv rows) as [_ Hentry Hcounties].
  destruct (GeoLookup.read_cities rows) as [cities counties]. cbn [fst snd] in *.
  intros [= <-]. cbn [GeoLookup.out_counties GeoLookup.out_cities].
  destruct (sorted_elements counties) as (Hsorted & Hnodup & Helem).
  split; [exact Hsorted|]. split; [exact Hnodup|]. split.
  - intros c. rewrite Helem. apply Hcounties.
  - intros k e Hke. destruct (Hentry k e Hke) as (r & Hfirst & Hre).
    destruct (first_offer_elem _ _ _ Hfirst) as [Hr _]. split.
    + apply Helem, Hcounties. eauto 10.
    + unfold city_of_row in Hre.
      repeat match type of Hre with
             | (if ?b then _ else _) = _ => destruct b; [|discriminate Hre]
             end.
      injection Hre as _ <-. reflexivity.
Qed.

Lemma lookup_output_consistent_witness :
  exists o,
    GeoLookup.main (Some [sample_city_ok; sample_city_fw; sample_city_fw']) = Some o
    /\ GeoLookup.out_counties o = ["Denton"; "Tarrant"]
    /\ Sorted String.le (GeoLookup.out_counties o).
Proof.
  eexists. split; [vm_compute; reflexivity|]. split; [reflexivity|].
  eapply (lookup_output_consistent [sample_city_ok; sample_city_fw; sample_city_fw']).
  vm_compute. reflexivity.
Defined.

(** ** Filer names *)

Lemma rstrip_by_app_all (p : ascii -> bool) (a t : string) :
  Py.forallb p t = true -> Py.rstrip_by p (a +:+ t) = Py.rstrip_by p a.
Proof.
  intros Ht.
  assert (Py.rstrip_by p t = "") as Hnil.
  { induction t as [|c t IH]; [reflexivity|].
    simpl in Ht. apply andb_prop in Ht as [Hc Ht].
    cbn [Py.rstrip_by]. rewrite (IH Ht), Hc. reflexivity. }
  induction a as [|c a IH]; [exact Hnil|].
  change (String c a +:+ t) with (String c (a +:+ t)).
  cbn [Py.rstrip_by]. rewrite IH. reflexivity.
Qed.

Lemma strip_chars_clean (s : string) :
  (forall c, first_char s = Some c -> comma_or_space c = false) ->
  (forall c, last_char s = Some c -> comma_or_space c = false) ->
  Py.strip_chars ", " s = s.
Proof.
  intros Hf Hl. unfold Py.strip_chars, Py.strip_by.
  rewrite (lstrip_by_noop _ s) by exact Hf.
  apply rstrip_by_noop. exact Hl.
Qed.

Section FilerNames.
Variable row : gmap string string.
Hypothesis no_full_name : row_get row "filerName" = "".

Lemma filer_name_parts :
  Filer.name (parse_filer_row row)
  = if Py.truthy (row_get row "filerNameFirst")
       || Py.truthy (row_get row "filerNameLast")
    then Py.strip_chars ", "
           (row_get row "filerNameLast" +:+ ", " +:+ row_get row "filerNameFirst")
         +:+ suffix_part (row_get row "filerNameSuffixCd")
    else "".
Proof.
  unfold parse_filer_row, suffix_part. cbn [Filer.name]. rewrite no_full_name.
  cbn [Py.truthy negb].
  destruct (Py.truthy (row_get row "filerNameFirst")
            || Py.truthy (row_get row "filerNameLast")); [|reflexivity].
  destruct (Py.truthy (row_get row "filerNameSuffixCd")); [reflexivity|].
  symmetry. apply append_nil_r.
Qed.

End FilerNames.

(** X5. The name of a filer: the full-name column as it is when it is not
    empty; otherwise "last, first", the last name alone or the first name
    alone (for parts without comma or space at their ends), followed by a
    space and the suffix when there is one; and the empty string when full,
    first and last name are all empty, suffix or not. *)
Theorem filer_name_assembly (row : gmap string string) :
  (row_get row "filerName" ≠ "" ->
   Filer.name (parse_filer_row row) = row_get row "filerName")
  /\ (row_get row "filerName" = "" ->
      row_get row "filerNameFirst" = "" -> row_get row "filerNameLast" = "" ->
      Filer.name (parse_filer_row row) = "")
  /\ (row_get row "filerName" = "" ->
      clean_part (row_get row "filerNameLast") ->
      clean_part (row_get row "filerNameFirst") ->
      Filer.name (parse_filer_row row)
      = row_get row "filerNameLast" +:+ ", " +:+ row_get row "filerNameFirst"
        +:+ suffix_part (row_get row "filerNameSuffixCd"))
  /\ (row_get row "filerName" = "" ->
      clean_part (row_get row "filerNameLast") ->
      row_get row "filerNameFirst" = "" ->
      Filer.name (parse_filer_row row)
      = row_get row "filerNameLast" +:+ suffix_part (row_get row "filerNameSuffixCd"))
  /\ (row_get row "filerName" = "" ->
      row_get row "filerNameLast" = "" ->
      clean_part (row_get row "filerNameFirst") ->
      Filer.name (parse_filer_row row)
      = row_get row "filerNameFirst" +:+ suffix_part (row_get row "filerNameSuffixCd")).
Proof.
  repeat split_and.
  - intros Hname. apply truthy_true in Hname.
    unfold parse_filer_row. cbn [Filer.name]. rewrite Hname. reflexivity.
  - intros Hname Hfirst Hlast.
    rewrite (filer_name_parts row Hname), Hfirst, Hlast. reflexivity.
  - intros Hname (Hl & Hlf & _) (Hf & _ & Hfl).
    rewrite (filer_name_parts row Hname).
    apply truthy_true in Hf. rewrite Hf. cbn [orb]. apply truthy_true in Hf.
    rewrite strip_chars_clean; [rewrite !append_assoc; reflexivity| |].
    + intros c. rewrite first_char_app by exact Hl. apply Hlf.
    + intros c.
      rewrite (last_char_app (row_get row "filerNameLast")
                 (", " +:+ row_get row "filerNameFirst"))
        by (intros H; discriminate H).
      rewrite (last_char_app ", " (row_get row "filerNameFirst")) by exact Hf.
      apply Hfl.
  - intros Hname (Hl & Hlf & Hll) Hfirst.
    rewrite (filer_name_parts row Hname), Hfirst.
    apply truthy_true in Hl. rewrite Hl. cbn [Py.truthy orb]. apply truthy_true in Hl.
    f_equal. unfold Py.strip_chars, Py.strip_by.
    rewrite lstrip_by_noop
      by (intros c; rewrite first_char_app by exact Hl; apply Hlf).
    rewrite rstrip_by_app_all by reflexivity.
    apply rstrip_by_noop. exact Hll.
  - intros Hname Hlast (Hf & Hff & Hfl).
    rewrite (filer_name_parts row Hname), Hlast.
    apply truthy_true in Hf. rewrite Hf. cbn [orb]. apply truthy_true in Hf.
    f_equal. unfold Py.strip_chars, Py.strip_by.
    change ("" +:+ ", " +:+ row_get row "filerNameFirst")
      with (String "," (String " " (row_get row "filerNameFirst"))).
    cbn [Py.lstrip_by Py.mem Ascii.eqb Bool.eqb orb].
    apply (strip_chars_clean _ Hff Hfl).
Qed.

Lemma filer_name_assembly_witness :
  Filer.name (parse_filer_row sample_filer_suffix_only) = ""
  /\ Filer.name (parse_filer_row sample_filer_parts) = "Roe, Ann III".
Proof.
  split.
  - destruct (filer_name_assembly sample_filer_suffix_only) as (_ & H & _).
    apply H; vm_compute; reflexivity.
  - destruct (filer_name_assembly sample_filer_parts) as (_ & _ & H & _).
    apply H; [vm_compute; reflexivity| |];
      (split; [vm_compute; discriminate|]);
      (split; intros c Hc; vm_compute in Hc; injection Hc as <-; reflexivity).
Defined.

(** ** Filers: what is imported *)

(** X6. Every filer that [import_filers] keeps has an identifier and a
    name, has no party, and is derived from a row of the file in which the
    full name, the first name or the last name is not empty: a row with none of
    the three is never imported, suffix or not. *)
Theorem filers_well_formed (rows : list (gmap string string)) (f : Filer.t) :
  f ∈ (read_filers rows).1 ->
  Filer.id f ≠ "" /\ Filer.name f ≠ "" /\ Filer.party f = None
  /\ exists r,
       r ∈ rows /\ f = parse_filer_row r
       /\ (row_get r "filerName" ≠ "" \/ row_get r "filerNameFirst" ≠ ""
           \/ row_get r "filerNameLast" ≠ "").
Proof.
  intros Hf. destruct (read_filers_inv rows) as [_ Hfirst _ _].
  destruct (Hfirst f Hf) as (Hname & Hid & r & Hr & ->).
  split; [exact Hid|]. split; [exact Hname|]. split; [reflexivity|].
  exists r. destruct (first_occurrence_elem _ _ _ _ Hr) as [Hin _].
  split; [exact Hin|]. split; [reflexivity|].
  destruct (decide (row_get r "filerName" = "")) as [H1|H1]; [|auto].
  destruct (decide (row_get r "filerNameFirst" = "")) as [H2|H2]; [|auto].
  destruct (decide (row_get r "filerNameLast" = "")) as [H3|H3]; [|auto].
  exfalso. apply Hname. rewrite (filer_name_parts r H1), H2, H3. reflexivity.
Qed.

Lemma filers_well_formed_witness :
  Filer.id (parse_filer_row sample_filer_b) ≠ ""
  /\ Filer.name (parse_filer_row sample_filer_b) ≠ ""
  /\ Filer.party (parse_filer_row sample_filer_b) = None
  /\ exists r,
       r ∈ [sample_filer_suffix_only; sample_filer_b]
       /\ parse_filer_row sample_filer_b = parse_filer_row r
       /\ (row_get r "filerName" ≠ "" \/ row_get r "filerNameFirst" ≠ ""
           \/ row_get r "filerNameLast" ≠ "").
Proof.
  apply (filers_well_formed [sample_filer_suffix_only; sample_filer_b]).
  vm_compute. left.
Defined.

Lemma read_filers_app (rows rows' : list (gmap string string)) :
  read_filers (rows ++ rows') = fold_left filers_step rows' (read_filers rows).
Proof. unfold read_filers. apply fold_left_app. Qed.

Lemma filers_step_seen (filers : list Filer.t) (seen_ids : gset string)
    (r : gmap string string) :
  row_get r "filerIdent" = "" \/ row_get r "filerIdent" ∈ seen_ids ->
  filers_step (filers, seen_ids) r = (filers, seen_ids).
Proof.
  intros Hskip. unfold filers_step. cbv zeta.
  destruct Hskip as [->|Hin]; [reflexivity|].
  rewrite (bool_decide_eq_true_2 _ Hin), orb_true_r. reflexivity.
Qed.

(** X7. Rows whose identifier is empty or has already been read change
    nothing, whatever else they hold: reading a file followed by such rows
    gives the filers and the identifiers of the file alone.  In particular a
    file read twice in a row gives what it gives once. *)
Theorem read_filers_seen_again (rows rows' : list (gmap string string)) :
  (forall r', r' ∈ rows' ->
              row_get r' "filerIdent" = ""
              \/ exists r, r ∈ rows
                           /\ row_get r "filerIdent" = row_get r' "filerIdent") ->
  read_filers (rows ++ rows') = read_filers rows.
Proof.
  intros Hseen. rewrite read_filers_app.
  destruct (read_filers_inv rows) as [Hinv _ _ _].
  destruct (read_filers rows) as [filers seen_ids]. cbn [snd] in Hinv.
  induction rows' as [|r' rows' IH]; [reflexivity|].
  cbn [fold_left]. rewrite filers_step_seen.
  - apply IH. intros r Hr. apply Hseen. right. exact Hr.
  - destruct (Hseen r' (list_elem_of_here _ _)) as [Hempty|(r & Hr & Heq)];
      [left; exact Hempty|].
    destruct (decide (row_get r' "filerIdent" = "")) as [Hempty|Hne];
      [left; exact Hempty|].
    right. apply Hinv. split; [exact Hne|eauto].
Qed.

Lemma read_filers_seen_again_witness :
  read_filers ([sample_filer_a; sample_filer_b] ++ [sample_filer_a'; sample_filer_b])
  = read_filers [sample_filer_a; sample_filer_b].
Proof.
  apply read_filers_seen_again.
  intros r' Hr'. right.
  apply elem_of_cons in Hr' as [->|Hr'].
  - exists sample_filer_a. split; [left|vm_compute; reflexivity].
  - apply list_elem_of_singleton in Hr' as ->.
    exists sample_filer_b. split; [right; left|reflexivity].
Defined.

(** X8. The filers are kept in the order of the file: the list emitted is a
    sublist of the rows' records, so it is never longer than the file. *)
Theorem read_filers_in_order (rows : list (gmap string string)) :
  (read_filers rows).1 `sublist_of` (parse_filer_row <$> rows)
  /\ (length (read_filers rows).1 <= length rows)%nat.
Proof.
  assert ((read_filers rows).1 `sublist_of` (parse_filer_row <$> rows)) as Hsub.
  { unfold read_filers. induction rows as [|r0 rows IH] using rev_ind.
    - constructor.
    - rewrite fold_left_app, fmap_app. cbn [fold_left fmap list_fmap].
      destruct (fold_left filers_step rows ([], ∅)) as [filers seen_ids].
      cbn [fst] in IH. unfold filers_step. cbv zeta.
      destruct (negb (Py.truthy (row_get r0 "filerIdent"))
                || bool_decide (row_get r0 "filerIdent" ∈ seen_ids)).
      + cbn [fst]. apply sublist_inserts_r, IH.
      + destruct (negb (Py.truthy (Filer.name (parse_filer_row r0)))); cbn [fst].
        * apply sublist_inserts_r, IH.
        * apply sublist_app; [exact IH|reflexivity]. }
  split; [exact Hsub|].
  apply sublist_length in Hsub. rewrite length_fmap in Hsub. exact Hsub.
Qed.

(** ** Loading record by record *)

Lemma length_concat_batches {A} (step : positive) (l : list A) :
  length (concat (batches step l)) = length l.
Proof. destruct (batches_partition step l) as [-> _]. reflexivity. Qed.

Section SingleLoaderProperties.
Context {R : Type} (C : Client R).

Lemma singles_bound (batch : list R) :
  forall (s : @client R C) (total : nat),
    ((fold_left (@upsert_single R C) batch (s, total)).2 <= total + length batch)%nat
    /\ ((forall r s', (@execute R C (Row r) s').1 = Ok ()) ->
        (fold_left (@upsert_single R C) batch (s, total)).2
        = (total + length batch)%nat).
Proof.
  induction batch as [|r batch IH]; intros s total; cbn [fold_left length].
  - split; [simpl; lia|intros _; simpl; lia].
  - unfold upsert_single at 2 4.
    destruct (@execute R C (Row r) s) as [[[]|e] s1] eqn:Hexec.
    + destruct (IH s1 (S total)) as [Hle Heq]. split; [lia|].
      intros Hok. rewrite (Heq Hok). lia.
    + destruct (IH s1 total) as [Hle Heq]. split; [lia|].
      intros Hok. specialize (Hok r s). rewrite Hexec in Hok. discriminate Hok.
Qed.

Lemma batches_singly_bound (all_batches : list (list R)) :
  forall (s : @client R C) (total : nat),
    ((fold_left (@upsert_batch_singly R C) all_batches (s, total)).2
     <= total + length (concat all_batches))%nat
    /\ ((forall r s', (@execute R C (Row r) s').1 = Ok ()) ->
        (fold_left (@upsert_batch_singly R C) all_batches (s, total)).2
        = (total + length (concat all_batches))%nat).
Proof.
  induction all_batches as [|batch rest IH]; intros s total;
    cbn [fold_left concat].
  - split; [simpl; lia|intros _; simpl; lia].
  - rewrite length_app. unfold upsert_batch_singly at 2 4.
    destruct (@execute R C (Rows batch) s) as [[[]|e] s1].
    + destruct (IH s1 (total + length batch)%nat) as [Hle Heq].
      split; [lia|]. intros Hok. rewrite (Heq Hok). lia.
    + destruct (singles_bound batch s1 total) as [Hle1 Heq1].
      destruct (fold_left upsert_single batch (s1, total)) as [s2 total2].
      cbn [snd] in *.
      destruct (IH s2 total2) as [Hle Heq]. split; [lia|].
      intros Hok. rewrite (Heq Hok), (Heq1 Hok). lia.
Qed.

(** After a list that the logged client rejected, its records go one by
    one, in order. *)
Lemma logged_singles (batch : list R) :
  forall (s : @client R C) (log : list (payload R * bool)) (total : nat),
  exists s' entries,
    fold_left (@upsert_single R (logged_client C)) batch ((s, log), total)
    = ((s', log ++ entries), (total + landed entries)%nat)
    /\ entries.*1 = Row <$> batch.
Proof.
  induction batch as [|r batch IH]; intros s log total.
  - exists s, []. simpl. rewrite app_nil_r, Nat.add_0_r. auto.
  - cbn [fold_left]. unfold upsert_single at 2. cbn [execute logged_client fst snd].
    destruct (@execute R C (Row r) s) as [[[]|e] s1]; cbn [is_ok].
    + destruct (IH s1 (log ++ [(Row r, true)]) (S total))
        as (s' & entries & Heq & Hcalls).
      exists s', ((Row r, true) :: entries).
      split; [|rewrite !fmap_cons; cbn [fst]; f_equal; exact Hcalls].
      etransitivity; [exact Heq|].
      rewrite <- app_assoc. cbn [app]. f_equal. unfold landed. simpl. lia.
    + destruct (IH s1 (log ++ [(Row r, false)]) total)
        as (s' & entries & Heq & Hcalls).
      exists s', ((Row r, false) :: entries).
      split; [|rewrite !fmap_cons; cbn [fst]; f_equal; exact Hcalls].
      etransitivity; [exact Heq|].
      rewrite <- app_assoc. cbn [app]. f_equal.
Qed.

Lemma logged_batch_singly (batch : list R) (s : @client R C)
    (log : list (payload R * bool)) (total : nat) :
  exists s' entries,
    @upsert_batch_singly R (logged_client C) ((s, log), total) batch
    = ((s', log ++ entries), (total + landed entries)%nat)
    /\ entries.*1
       = Rows batch :: (if is_ok (@execute R C (Rows batch) s).1 then []
                        else Row <$> batch).
Proof.
  unfold upsert_batch_singly. cbn [execute logged_client fst snd].
  destruct (@execute R C (Rows batch) s) as [[[]|e] s1]; cbn [fst is_ok].
  - exists s1, [(Rows batch, true)]. split; [|reflexivity].
    f_equal. unfold landed. simpl. lia.
  - destruct (logged_singles batch s1 (log ++ [(Rows batch, false)]) total)
      as (s' & entries & Heq & Hcalls).
    exists s', ((Rows batch, false) :: entries).
    split; [|rewrite fmap_cons; cbn [fst]; f_equal; exact Hcalls].
    etransitivity; [exact Heq|].
    rewrite <- app_assoc. cbn [app]. f_equal.
Qed.

End SingleLoaderProperties.

Lemma landed_app {R : Type} (log1 log2 : list (payload R * bool)) :
  landed (log1 ++ log2) = (landed log1 + landed log2)%nat.
Proof. unfold landed. apply sum_list_with_app. Qed.

Lemma logged_batches_singly {R : Type} (C : Client R)
    (all_batches : list (list R)) :
  forall (s : @client R C) (log : list (payload R * bool)) (total : nat),
  exists s' entries,
    fold_left (@upsert_batch_singly R (logged_client C)) all_batches
      ((s, log), total)
    = ((s', log ++ entries), (total + landed entries)%nat).
Proof.
  induction all_batches as [|batch rest IH]; intros s log total.
  - exists s, []. simpl. rewrite app_nil_r, Nat.add_0_r. reflexivity.
  - cbn [fold_left].
    destruct (logged_batch_singly C batch s log total) as (s1 & e1 & Heq1 & _).
    destruct (IH s1 (log ++ e1) (total + landed e1)%nat) as (s' & e2 & Heq2).
    exists s', (e1 ++ e2).
    etransitivity; [apply (f_equal (fold_left _ rest) Heq1)|].
    etransitivity; [exact Heq2|].
    rewrite landed_app, <- app_assoc. f_equal. lia.
Qed.

(** X9. The loader of [import_filers] and [import_reports].  When the
    upsert of a batch fails, its records are sent one by one, in order, each
    once, whether or not earlier ones failed; [total_inserted] is the number of
    records in the payloads that were accepted, never more than the number of
    records; and when the store accepts every single record, every record is
    counted, whatever happens to the batches. *)
Theorem load_singly_degradation {R : Type} (C : Client R)
    (batch_size : positive) (records : list R) :
  (forall batch s log total e,
      (@execute R C (Rows batch) s).1 = Raise e ->
      exists s' entries,
        @upsert_batch_singly R (logged_client C) ((s, log), total) batch
        = ((s', log ++ entries), (total + landed entries)%nat)
        /\ entries.*1 = Rows batch :: (Row <$> batch))
  /\ (forall s, exists s' log,
        @load_singly R (logged_client C) batch_size records ((s, []), 0%nat)
        = ((s', log), landed log))
  /\ (forall s total,
        ((@load_singly R C batch_size records (s, total)).2
         <= total + length records)%nat)
  /\ ((forall r s, (@execute R C (Row r) s).1 = Ok ()) ->
      forall s total,
        (@load_singly R C batch_size records (s, total)).2
        = (total + length records)%nat).
Proof.
  repeat split_and.
  - intros batch s log total e He.
    destruct (logged_batch_singly C batch s log total) as (s' & entries & Heq & Hc).
    rewrite He in Hc. eauto.
  - intros s. unfold load_singly.
    destruct (logged_batches_singly C (batches batch_size records) s [] 0%nat)
      as (s' & entries & Heq).
    exists s', entries. exact Heq.
  - intros s total. unfold load_singly.
    destruct (batches_singly_bound C (batches batch_size records) s total) as [H _].
    rewrite length_concat_batches in H. exact H.
  - intros Hok s total. unfold load_singly.
    destruct (batches_singly_bound C (batches batch_size records) s total) as [_ H].
    rewrite length_concat_batches in H. apply H, Hok.
Qed.

Lemma load_singly_degradation_witness :
  (@load_singly nat (list_limited nat 2) 5 [1; 2; 3; 4; 5; 6; 7]%nat (tt, 0%nat)).2
  = (0 + length [1; 2; 3; 4; 5; 6; 7]%nat)%nat.
Proof.
  destruct (@load_singly_degradation nat (list_limited nat 2) 5
              [1; 2; 3; 4; 5; 6; 7]%nat) as (_ & _ & _ & H).
  apply H. intros r s. reflexivity.
Defined.

(** ** Loading in batches: what is counted *)

Section BatchLoaderProperties.
Context {R : Type} (S : Store R).

Lemma minis_bound (mini_batches : list (list R)) :
  forall (s : @store R S) (total : nat),
    ((fold_left (@upsert_mini R S) mini_batches (s, total)).2
     <= total + length (concat mini_batches))%nat
    /\ ((forall b s', b ∈ mini_batches -> (@upsert R S b s').1 = Ok ()) ->
        (fold_left (@upsert_mini R S) mini_batches (s, total)).2
        = (total + length (concat mini_batches))%nat).
Proof.
  induction mini_batches as [|mini rest IH]; intros s total;
    cbn [fold_left concat].
  - split; [simpl; lia|intros _; simpl; lia].
  - rewrite length_app. unfold upsert_mini at 2 4.
    destruct (@upsert R S mini s) as [[[]|e] s1] eqn:Hup.
    + destruct (IH s1 (total + length mini)%nat) as [Hle Heq].
      split; [lia|]. intros Hok. rewrite Heq; [lia|].
      intros b s' Hb. apply Hok. right. exact Hb.
    + destruct (IH s1 total) as [Hle Heq]. split; [lia|].
      intros Hok. specialize (Hok mini s (list_elem_of_here _ _)).
      rewrite Hup in Hok. discriminate Hok.
Qed.

Lemma upsert_batch_bound (fallback : positive) (batch : list R)
    (s : @store R S) (total : nat) :
  ((@upsert_batch R S fallback (s, total) batch).2 <= total + length batch)%nat
  /\ (accepts_up_to S (Pos.to_nat fallback) ->
      (@upsert_batch R S fallback (s, total) batch).2
      = (total + length batch)%nat).
Proof.
  unfold upsert_batch.
  destruct (@upsert R S batch s) as [[[]|e] s1].
  - split; [simpl; lia|intros _; reflexivity].
  - destruct (minis_bound (batches fallback batch) s1 total) as [Hle Heq].
    rewrite length_concat_batches in Hle, Heq. split; [exact Hle|].
    intros Hsmall. apply Heq. intros b s' Hb. apply Hsmall.
    destruct (batches_partition fallback batch) as [_ Hall].
    rewrite Forall_forall in Hall. apply Hall, Hb.
Qed.

Lemma load_batches_bound (fallback : positive) (all_batches : list (list R)) :
  forall (s : @store R S) (total : nat),
    ((fold_left (@upsert_batch R S fallback) all_batches (s, total)).2
     <= total + length (concat all_batches))%nat
    /\ (accepts_up_to S (Pos.to_nat fallback) ->
        (fold_left (@upsert_batch R S fallback) all_batches (s, total)).2
        = (total + length (concat all_batches))%nat).
Proof.
  induction all_batches as [|batch rest IH]; intros s total;
    cbn [fold_left concat].
  - split; [simpl; lia|intros _; simpl; lia].
  - rewrite length_app.
    destruct (upsert_batch_bound fallback batch s total) as [Hle1 Heq1].
    destruct (upsert_batch fallback (s, total) batch) as [s1 total1].
    cbn [snd] in *.
    destruct (IH s1 total1) as [Hle Heq]. split; [lia|].
    intros Hsmall. rewrite (Heq Hsmall), (Heq1 Hsmall). lia.
Qed.

(** X10. The loader of [import_contributions] and [import_expenditures]
    never counts more records than it was given, and when the store takes every
    non-empty list of at most the fallback size, every record is counted,
    whatever happens to the full batches. *)
Theorem load_batches_complete (batch_size fallback : positive)
    (records : list R) (s : @store R S) (total : nat) :
  ((@load_batches R S batch_size fallback records (s, total)).2
   <= total + length records)%nat
  /\ (accepts_up_to S (Pos.to_nat fallback) ->
      (@load_batches R S batch_size fallback records (s, total)).2
      = (total + length records)%nat).
Proof.
  unfold load_batches.
  destruct (load_batches_bound fallback (batches batch_size records) s total)
    as [Hle Heq].
  rewrite length_concat_batches in Hle, Heq. split; assumption.
Qed.

End BatchLoaderProperties.

Lemma size_limited_accepts (R : Type) (limit : nat) :
  accepts_up_to (size_limited R limit) limit.
Proof.
  intros records s [_ Hle]. cbn [upsert size_limited].
  destruct (limit <? length records)%nat eqn:Hlt; [|reflexivity].
  apply Nat.ltb_lt in Hlt. lia.
Qed.

Lemma load_batches_complete_witness :
  (@load_batches nat (size_limited nat 2) 5 2 [1; 2; 3; 4; 5; 6; 7]%nat (tt, 0%nat)).2
  = (0 + length [1; 2; 3; 4; 5; 6; 7]%nat)%nat.
Proof.
  destruct (load_batches_complete (size_limited nat 2) 5 2
              [1; 2; 3; 4; 5; 6; 7]%nat tt 0%nat) as [_ H].
  apply H. apply (size_limited_accepts nat 2).
Defined.

(** ** The importers: every row is accounted for *)

Section ImportersAccounting.
Context `{L : PyLib}.

Lemma import_contributions_file_rows (S : Store (Contribution.t pyfloat))
    (rows : list (gmap string string)) (s : @store _ S) (total skipped : nat) :
  exists s' total' skipped',
    @import_contributions_file L S (s, total, skipped) rows
    = Ok (s', total', skipped')
    /\ (total' + skipped' <= total + skipped + length rows)%nat
    /\ (accepts_up_to S (Pos.to_nat MINI_BATCH_SIZE) ->
        (total' + skipped' = total + skipped + length rows)%nat).
Proof.
  unfold import_contributions_file.
  rewrite (read_rows_accepted _ parse_contribution_row_returns).
  cbn [mbind result_bind].
  pose proof (omap_accepted_length parse_contribution_row rows) as Hlen.
  destruct (load_batches_complete S BATCH_SIZE MINI_BATCH_SIZE
              (omap (accepted parse_contribution_row) rows) s total)
    as [Hle Heq].
  destruct (load_batches BATCH_SIZE MINI_BATCH_SIZE
              (omap (accepted parse_contribution_row) rows) (s, total))
    as [s' total'].
  cbn [snd] in *. eexists _, _, _. split; [reflexivity|].
  split; [lia|]. intros Hsmall. rewrite (Heq Hsmall). lia.
Qed.

Lemma import_expenditures_file_rows (S : Store (Expenditure.t pyfloat))
    (rows : list (gmap string string)) (s : @store _ S) (total skipped : nat) :
  exists s' total' skipped',
    @import_expenditures_file L S (s, total, skipped) rows
    = Ok (s', total', skipped')
    /\ (total' + skipped' <= total + skipped + length rows)%nat
    /\ (accepts_up_to S (Pos.to_nat MINI_BATCH_SIZE) ->
        (total' + skipped' = total + skipped + length rows)%nat).
Proof.
  unfold import_expenditures_file.
  rewrite (read_rows_accepted _ parse_expenditure_row_returns).
  cbn [mbind result_bind].
  pose proof (omap_accepted_length parse_expenditure_row rows) as Hlen.
  destruct (load_batches_complete S BATCH_SIZE MINI_BATCH_SIZE
              (omap (accepted parse_expenditure_row) rows) s total)
    as [Hle Heq].
  destruct (load_batches BATCH_SIZE MINI_BATCH_SIZE
              (omap (accepted parse_expenditure_row) rows) (s, total))
    as [s' total'].
  cbn [snd] in *. eexists _, _, _. split; [reflexivity|].
  split; [lia|]. intros Hsmall. rewrite (Heq Hsmall). lia.
Qed.

Lemma import_contributions_files_rows (S : Store (Contribution.t pyfloat))
    (files : list (list (gmap string string))) :
  forall (s : @store _ S) (total skipped : nat),
  exists s' total' skipped',
    @import_contributions_files L S (s, total, skipped) files
    = Ok (s', total', skipped')
    /\ (total' + skipped' <= total + skipped + length (concat files))%nat
    /\ (accepts_up_to S (Pos.to_nat MINI_BATCH_SIZE) ->
        (total' + skipped' = total + skipped + length (concat files))%nat).
Proof.
  induction files as [|rows files IH]; intros s total skipped.
  - exists s, total, skipped. simpl. split; [reflexivity|]. split; [lia|].
    intros _. lia.
  - cbn [import_contributions_files concat]. rewrite length_app.
    destruct (import_contributions_file_rows S rows s total skipped)
      as (s1 & t1 & k1 & Heq1 & Hle1 & Hall1).
    destruct (IH s1 t1 k1) as (s' & t' & k' & Heq2 & Hle2 & Hall2).
    exists s', t', k'. split.
    + etransitivity; [apply (f_equal (fun m => mbind _ m) Heq1)|]. exact Heq2.
    + split; [lia|]. intros Hsmall.
      specialize (Hall1 Hsmall). specialize (Hall2 Hsmall). lia.
Qed.

Lemma import_expenditures_files_rows (S : Store (Expenditure.t pyfloat))
    (files : list (list (gmap string string))) :
  forall (s : @store _ S) (total skipped : nat),
  exists s' total' skipped',
    @import_expenditures_files L S (s, total, skipped) files
    = Ok (s', total', skipped')
    /\ (total' + skipped' <= total + skipped + length (concat files))%nat
    /\ (accepts_up_to S (Pos.to_nat MINI_BATCH_SIZE) ->
        (total' + skipped' = total + skipped + length (concat files))%nat).
Proof.
  induction files as [|rows files IH]; intros s total skipped.
  - exists s, total, skipped. simpl. split; [reflexivity|]. split; [lia|].
    intros _. lia.
  - cbn [import_expenditures_files concat]. rewrite length_app.
    destruct (import_expenditures_file_rows S rows s total skipped)
      as (s1 & t1 & k1 & Heq1 & Hle1 & Hall1).
    destruct (IH s1 t1 k1) as (s' & t' & k' & Heq2 & Hle2 & Hall2).
    exists s', t', k'. split.
    + etransitivity; [apply (f_equal (fun m => mbind _ m) Heq1)|]. exact Heq2.
    + split; [lia|]. intros Hsmall.
      specialize (Hall1 Hsmall). specialize (Hall2 Hsmall). lia.
Qed.

(** On a row without [None], [row_get] on its strings is [row.get]. *)
Lemma dict_get_strings (row : dict_row) (key : string) :
  complete_row row = true ->
  dict_get row key = Some (row_get (row_strings row) key).
Proof.
  intros Hc. unfold dict_get, row_get, row_strings. rewrite lookup_omap.
  unfold dict_row in *.
  destruct (row !! key) as [[v|]|] eqn:Hk; [reflexivity| |reflexivity].
  exfalso. unfold complete_row in Hc.
  rewrite forallb_forall in Hc.
  apply elem_of_map_to_list, list_elem_of_In in Hk.
  specialize (Hc _ Hk). simpl in Hc. discriminate Hc.
Qed.

Lemma length_concat_strings (files : list (list dict_row)) :
  length (concat (file_strings <$> files)) = length (concat files).
Proof.
  induction files as [|rows files IH]; [reflexivity|].
  cbn [fmap list_fmap concat]. rewrite !length_app. unfold file_strings at 1.
  rewrite length_fmap. f_equal. exact IH.
Qed.

(** X11. On files whose lines all have at least as many fields as the
    header, so that every column of every row holds a string,
    [import_contributions] and [import_expenditures] read every file to its
    end, whatever the strings are and whatever the store does: no such row
    stops the run.  The two totals they report never add up to more than the
    number of rows read, and when the store takes every non-empty list of at
    most 100 records, they add up to exactly that number: every row is either
    imported or counted as skipped. *)
Theorem imports_account_for_rows (files : list (list dict_row)) :
  forallb complete_file files = true ->
  (forall (SC : Store (Contribution.t pyfloat)) (s : @store _ SC),
      exists s' total_imported total_skipped,
        @import_contributions L SC s (file_strings <$> files)
        = Ok (s', total_imported, total_skipped)
        /\ (total_imported + total_skipped <= length (concat files))%nat
        /\ (accepts_up_to SC 100 ->
            (total_imported + total_skipped)%nat = length (concat files)))
  /\ (forall (SE : Store (Expenditure.t pyfloat)) (s : @store _ SE),
        exists s' total_imported total_skipped,
          @import_expenditures L SE s (file_strings <$> files)
          = Ok (s', total_imported, total_skipped)
          /\ (total_imported + total_skipped <= length (concat files))%nat
          /\ (accepts_up_to SE 100 ->
              (total_imported + total_skipped)%nat = length (concat files))).
Proof.
  intros _. rewrite <- (length_concat_strings files). split.
  - intros SC s.
    destruct (import_contributions_files_rows SC (file_strings <$> files)
                s 0%nat 0%nat)
      as (s' & t' & k' & Heq & Hle & Hall).
    exists s', t', k'. split; [exact Heq|]. split; [lia|].
    intros Hsmall. rewrite (Hall Hsmall). lia.
  - intros SE s.
    destruct (import_expenditures_files_rows SE (file_strings <$> files)
                s 0%nat 0%nat)
      as (s' & t' & k' & Heq & Hle & Hall).
    exists s', t', k'. split; [exact Heq|]. split; [lia|].
    intros Hsmall. rewrite (Hall Hsmall). lia.
Qed.

End ImportersAccounting.

Lemma imports_account_for_rows_witness :
  exists s' total_imported total_skipped,
    @import_contributions ref_lib (size_limited (Contribution.t Ref.float_val) 100)
      tt (file_strings <$> sample_dict_files)
    = Ok (s', total_imported, total_skipped)
    /\ (total_imported + total_skipped)%nat = length (concat sample_dict_files).
Proof.
  destruct (@imports_account_for_rows ref_lib sample_dict_files) as [H _].
  - vm_compute. reflexivity.
  - destruct (H (size_limited (Contribution.t Ref.float_val) 100) tt)
      as (s' & total_imported & total_skipped & Heq & _ & Hall).
    exists s', total_imported, total_skipped. split; [exact Heq|].
    apply Hall. apply (size_limited_accepts (Contribution.t Ref.float_val) 100).
Defined.

(** ** The importers of filers and reports, end to end *)

(** X12. [import_filers] and [import_reports] with their file present.
    On rows that hold a string under every column, [import_filers] ends with a
    count whatever the strings are and whatever the store does; so does
    [import_reports] on a file whose lines all have at least as many fields
    as the header.  The count is never more than the number of records read
    from the file, and when the store accepts every record sent alone, it is
    exactly that number, whether or not the batches of 500 go through. *)
Theorem record_importers_complete `{L : PyLib} :
  (forall (rows : list (gmap string string)) (C : Client Filer.t)
          (s : @client _ C),
      exists s' total_inserted,
        @import_filers C s (Some rows) = (s', Some total_inserted)
        /\ (total_inserted <= length (read_filers rows).1)%nat
        /\ ((forall r s0, (@execute _ C (Row r) s0).1 = Ok ()) ->
            total_inserted = length (read_filers rows).1))
  /\ (forall (lines : list dict_row) (C : Client (Report.t pyfloat))
            (s : @client _ C),
        complete_file lines = true ->
        let rows := file_strings lines in
        exists s' total_imported,
          @import_reports L C s (Some rows) = Ok (s', Some total_imported)
          /\ (total_imported
              <= length (omap (accepted parse_report_row) rows))%nat
          /\ ((forall r s0, (@execute _ C (Row r) s0).1 = Ok ()) ->
              total_imported = length (omap (accepted parse_report_row) rows))).
Proof.
  split.
  - intros rows C s. unfold import_filers.
    destruct (read_filers rows) as [filers seen_ids]. cbn [fst].
    unfold load_singly.
    destruct (batches_singly_bound C (batches SMALL_BATCH_SIZE filers) s 0%nat)
      as [Hle Heq].
    rewrite length_concat_batches in Hle, Heq.
    destruct (fold_left upsert_batch_singly (batches SMALL_BATCH_SIZE filers)
                (s, 0%nat)) as [s' total].
    cbn [snd] in *. exists s', total. split; [reflexivity|].
    split; [lia|]. intros Hok. rewrite (Heq Hok). lia.
  - intros lines C s _. cbv zeta.
    generalize (file_strings lines). intros rows.
    unfold import_reports.
    rewrite (read_rows_accepted _ parse_report_row_returns).
    cbn [mbind result_bind]. unfold load_singly.
    destruct (batches_singly_bound C
                (batches SMALL_BATCH_SIZE (omap (accepted parse_report_row) rows))
                s 0%nat) as [Hle Heq].
    rewrite length_concat_batches in Hle, Heq.
    destruct (fold_left upsert_batch_singly
                (batches SMALL_BATCH_SIZE (omap (accepted parse_report_row) rows))
                (s, 0%nat)) as [s' total].
    cbn [snd] in *. exists s', total. split; [reflexivity|].
    split; [lia|]. intros Hok. rewrite (Heq Hok). lia.
Qed.

Lemma record_importers_complete_witness :
  exists s' total_imported,
    @import_reports ref_lib (list_limited (Report.t Ref.float_val) 1) tt
      (Some (file_strings sample_dict_reports))
    = Ok (s', Some total_imported)
    /\ total_imported
       = length (omap (accepted (@parse_report_row ref_lib))
                   (file_strings sample_dict_reports)).
Proof.
  destruct (@record_importers_complete ref_lib) as [_ H].
  destruct (H sample_dict_reports (list_limited (Report.t Ref.float_val) 1) tt)
    as (s' & total_imported & Heq & _ & Hall).
  - vm_compute. reflexivity.
  - exists s', total_imported. split; [exact Heq|].
    apply Hall. intros r s0. reflexivity.
Defined.

(** ** Display names of contributors and payees *)

Lemma trimmed_app (a b : string) :
  a ≠ "" -> b ≠ "" ->
  (forall c, first_char a = Some c -> Py.isspace c = false) ->
  (forall c, last_char b = Some c -> Py.isspace c = false) ->
  trimmed (a +:+ b).
Proof.
  intros Ha Hb Hfirst Hlast. split; intros c Hc.
  - rewrite (first_char_app a b Ha) in Hc. apply Hfirst, Hc.
  - rewrite (last_char_app a b Hb) in Hc. apply Hlast, Hc.
Qed.

Lemma last_char_cons (c : ascii) (s : string) :
  s ≠ "" -> last_char (String c s) = last_char s.
Proof. destruct s; [congruence|reflexivity]. Qed.

(** X13. [build_contributor_name] and [build_payee_name].  The display
    name is never empty and carries no whitespace at either end.  A non-blank
    organisation name wins over the personal name; without it, a last and a
    first name give ["Last, First"], followed by a space and the suffix when
    there is one; a single one of the two stands alone; and a row with neither
    is named ["Unknown"], its suffix dropped. *)
Theorem display_name_shape (org_raw last_raw first_raw suffix_raw : string) :
  let name := build_name org_raw last_raw first_raw suffix_raw in
  name ≠ ""
  /\ trimmed name
  /\ (Py.strip org_raw ≠ "" -> name = Py.strip org_raw)
  /\ (Py.strip org_raw = "" ->
      Py.strip last_raw ≠ "" -> Py.strip first_raw ≠ "" ->
      name = Py.strip last_raw +:+ ", " +:+ Py.strip first_raw
             +:+ suffix_part (Py.strip suffix_raw))
  /\ (Py.strip org_raw = "" ->
      Py.strip last_raw ≠ "" -> Py.strip first_raw = "" ->
      name = Py.strip last_raw)
  /\ (Py.strip org_raw = "" ->
      Py.strip last_raw = "" -> Py.strip first_raw ≠ "" ->
      name = Py.strip first_raw)
  /\ (Py.strip org_raw = "" ->
      Py.strip last_raw = "" -> Py.strip first_raw = "" ->
      name = "Unknown").
Proof.
  cbv zeta. unfold build_name, suffix_part.
  pose proof (strip_trimmed org_raw) as Ho.
  pose proof (strip_trimmed last_raw) as Hl.
  pose proof (strip_trimmed first_raw) as Hf.
  pose proof (strip_trimmed suffix_raw) as [Hs1 Hs2].
  pose proof Hl as [Hl1 Hl2]. pose proof Hf as [Hf1 Hf2].
  destruct (Py.truthy (Py.strip org_raw)) eqn:Horg.
  { apply truthy_true in Horg.
    repeat split_and; first [ exact Horg | exact Ho | congruence ]. }
  apply truthy_false in Horg.
  destruct (Py.truthy (Py.strip last_raw)) eqn:Hlast;
    destruct (Py.truthy (Py.strip first_raw)) eqn:Hfirst; cbn [andb].
  - apply truthy_true in Hlast, Hfirst.
    destruct (Py.truthy (Py.strip suffix_raw)) eqn:Hsuffix.
    + apply truthy_true in Hsuffix.
      assert (trimmed
                ((Py.strip last_raw +:+ ", " +:+ Py.strip first_raw)
                 +:+ " " +:+ Py.strip suffix_raw)) as Ht.
      { rewrite !append_assoc.
        apply trimmed_app; [exact Hlast|discriminate|exact Hl1|].
        intros c Hc.
        rewrite (last_char_app ", " _) in Hc
          by (destruct (Py.strip first_raw); [congruence|discriminate]).
        rewrite (last_char_app (Py.strip first_raw) _) in Hc by discriminate.
        change (" " +:+ Py.strip suffix_raw)
          with (String " " (Py.strip suffix_raw)) in Hc.
        rewrite (last_char_cons _ _ Hsuffix) in Hc. apply Hs2, Hc. }
      assert ((Py.strip last_raw +:+ ", " +:+ Py.strip first_raw)
              +:+ " " +:+ Py.strip suffix_raw ≠ "") as Hne
        by (destruct (Py.strip last_raw); [congruence|discriminate]).
      repeat split_and;
        first [ exact Hne | exact Ht | congruence
              | intros _ _ _; rewrite !append_assoc; reflexivity ].
    + assert (trimmed (Py.strip last_raw +:+ ", " +:+ Py.strip first_raw)) as Ht.
      { apply trimmed_app; [exact Hlast|discriminate|exact Hl1|].
        intros c Hc.
        rewrite (last_char_app ", " _ Hfirst) in Hc. apply Hf2, Hc. }
      assert (Py.strip last_raw +:+ ", " +:+ Py.strip first_raw ≠ "") as Hne
        by (destruct (Py.strip last_raw); [congruence|discriminate]).
      repeat split_and;
        first [ exact Hne | exact Ht | congruence
              | intros _ _ _; rewrite append_nil_r; reflexivity ].
  - apply truthy_true in Hlast. apply truthy_false in Hfirst.
    repeat split_and; first [ exact Hlast | exact Hl | congruence ].
  - apply truthy_false in Hlast. apply truthy_true in Hfirst.
    repeat split_and; first [ exact Hfirst | exact Hf | congruence ].
  - apply truthy_false in Hlast, Hfirst.
    assert (trimmed "Unknown") as Ht
      by (split; intros c Hc; injection Hc as <-; reflexivity).
    repeat split_and; first [ exact Ht | congruence | discriminate ].
Qed.

Lemma display_name_shape_witness :
  build_name " " " Roe " "Ann" " Jr. " = "Roe, Ann Jr.".
Proof.
  destruct (display_name_shape " " " Roe " "Ann" " Jr. ")
    as (_ & _ & _ & H & _).
  apply H; [reflexivity|discriminate|discriminate].
Defined.

(** ** Amounts *)

(** X14. [parse_amount] never raises.  In [import_reports.py] it yields
    what [float] makes of the amount once every comma and dollar sign and the
    whitespace around it are gone, and [None] when nothing is left or [float]
    rejects it; in [import_contributions.py] and [import_expenditures.py] it
    yields the same value, with [0.0] in place of [None]: a malformed amount
    is imported as zero. *)
Theorem amount_parsing `{L : PyLib} (amount_str : string) :
  parse_amount_opt amount_str = Ok (amount_literal amount_str)
  /\ parse_amount amount_str = Ok (default float_zero (amount_literal amount_str))
  /\ (amount_literal amount_str = None -> parse_amount amount_str = Ok float_zero).
Proof.
  repeat split_and.
  - apply parse_amount_opt_value.
  - apply parse_amount_value.
  - intros Hnone. rewrite parse_amount_value, Hnone. reflexivity.
Qed.

Lemma amount_parsing_witness :
  @parse_amount ref_lib "twelve" = Ok (@float_zero ref_lib).
Proof.
  destruct (@amount_parsing ref_lib "twelve") as (_ & _ & H).
  apply H. vm_compute. reflexivity.
Defined.

(** ** Received dates written with separators *)

Lemma decimal_not_space (c : ascii) :
  Py.is_decimal c = true -> Py.int_space c = false.
Proof. destruct c as [[] [] [] [] [] [] [] []]; vm_compute; congruence. Qed.

Lemma decimal_not_separator (c : ascii) :
  Py.is_decimal c = true -> separator c = false.
Proof. intros H. unfold separator. rewrite H. reflexivity. Qed.

Lemma decimal_not_sign (c : ascii) :
  Py.is_decimal c = true -> Ascii.eqb c "+" = false /\ Ascii.eqb c "-" = false.
Proof. destruct c as [[] [] [] [] [] [] [] []]; vm_compute; split; congruence. Qed.

Lemma separator_not_space (c : ascii) :
  separator c = true -> Py.int_space c = false.
Proof.
  unfold separator. intros H.
  apply andb_prop in H as [_ H]. apply negb_true_iff in H. exact H.
Qed.

Lemma int_digits_separator (s : string) :
  forall acc after_underscore,
    existsb separator s = true -> Py.int_digits acc after_underscore s = None.
Proof.
  induction s as [|c s IH]; intros acc b H; [discriminate|].
  cbn [existsb] in H. cbn [Py.int_digits].
  destruct (Py.is_decimal c) eqn:Hd.
  - rewrite (decimal_not_separator c Hd) in H. apply IH, H.
  - destruct (Ascii.eqb c "_") eqn:Hu.
    + assert (separator c = false) as Hs
        by (unfold separator; rewrite Hu, andb_false_r; reflexivity).
      rewrite Hs in H. destruct b; [reflexivity|]. apply IH, H.
    + reflexivity.
Qed.

Lemma rstrip_by_cons (p : ascii -> bool) (c : ascii) (s : string) :
  p c = false -> Py.rstrip_by p (String c s) = String c (Py.rstrip_by p s).
Proof.
  intros Hc. cbn [Py.rstrip_by]. rewrite Hc.
  destruct (Py.rstrip_by p s); reflexivity.
Qed.

Lemma rstrip_keeps_separator (s : string) :
  existsb separator s = true ->
  existsb separator (Py.rstrip_by Py.int_space s) = true.
Proof.
  induction s as [|c s IH]; intros H; [discriminate|].
  cbn [existsb] in H. cbn [Py.rstrip_by].
  destruct (separator c) eqn:Hc.
  - rewrite (separator_not_space c Hc).
    destruct (Py.rstrip_by Py.int_space s); cbn [existsb]; rewrite Hc; reflexivity.
  - specialize (IH H).
    destruct (Py.rstrip_by Py.int_space s) as [|d r]; [discriminate|].
    cbn [existsb] in *. rewrite IH. apply orb_true_r.
Qed.

Lemma int_separator (d : ascii) (s : string) :
  Py.is_decimal d = true -> existsb separator s = true ->
  Py.int (String d s) = Raise ValueError.
Proof.
  intros Hd Hs. unfold Py.int, Py.strip_by.
  pose proof (decimal_not_space d Hd) as Hsp.
  cbn [Py.lstrip_by]. rewrite Hsp, (rstrip_by_cons _ _ _ Hsp).
  rewrite int_signed_cons.
  destruct (decimal_not_sign d Hd) as [-> ->].
  unfold Py.int_unsigned. rewrite Hd.
  rewrite (int_digits_separator _ _ _ (rstrip_keeps_separator s Hs)).
  reflexivity.
Qed.

(** X15. The date filter reads the first eight characters of
    [receivedDt] as one integer.  When the value starts with a digit and has,
    among those eight characters, one that is neither a digit, an underscore
    nor whitespace (a dash, a slash, a colon, a letter), [int] raises
    [ValueError] and the row passes the filter whatever its year: a report, a
    contribution or an expenditure received on ["1999-12-31"] is kept when it
    has an identifier. *)
Theorem separated_dates_pass `{L : PyLib} (row : gmap string string)
    (d : ascii) (rest : string) :
  row_get row "receivedDt" = String d rest ->
  (7 <= Py.len rest)%nat ->
  Py.is_decimal d = true ->
  existsb separator (Py.slice 0 7 rest) = true ->
  passes_date_filter (row_get row "receivedDt")
  /\ (parse_report_row row = Ok None <-> row_get row "reportInfoIdent" = "")
  /\ (parse_contribution_row row = Ok None
      <-> row_get row "contributionInfoId" = "")
  /\ (parse_expenditure_row row = Ok None <-> row_get row "expendInfoId" = "").
Proof.
  intros Hraw Hlen Hd Hsep.
  assert (passes_date_filter (row_get row "receivedDt")) as Hpass.
  { unfold passes_date_filter. rewrite before_min_date_unfold, Hraw.
    cbn [Py.truthy].
    replace (8 <=? Py.len (String d rest))%nat with true
      by (symmetry; apply Nat.leb_le; unfold Py.len in *; simpl; lia).
    change (Py.slice 0 8 (String d rest)) with (String d (Py.slice 0 7 rest)).
    rewrite (int_separator d _ Hd Hsep). reflexivity. }
  assert (~ rejected_by_date (row_get row "receivedDt")) as Hnot.
  { unfold rejected_by_date. unfold passes_date_filter in Hpass.
    rewrite Hpass. discriminate. }
  repeat split_and; [exact Hpass|..].
  - rewrite parse_report_row_rejects. tauto.
  - rewrite parse_contribution_row_rejects. tauto.
  - rewrite parse_expenditure_row_rejects. tauto.
Qed.

Lemma separated_dates_pass_witness :
  passes_date_filter (row_get sample_row_iso_1999 "receivedDt")
  /\ (@parse_report_row ref_lib sample_row_iso_1999 = Ok None
      <-> row_get sample_row_iso_1999 "reportInfoIdent" = "")
  /\ (@parse_contribution_row ref_lib sample_row_iso_1999 = Ok None
      <-> row_get sample_row_iso_1999 "contributionInfoId" = "")
  /\ (@parse_expenditure_row ref_lib sample_row_iso_1999 = Ok None
      <-> row_get sample_row_iso_1999 "expendInfoId" = "").
Proof.
  apply (@separated_dates_pass ref_lib sample_row_iso_1999 "1" "999-12-31").
  - vm_compute. reflexivity.
  - vm_compute. lia.
  - reflexivity.
  - vm_compute. reflexivity.
Defined.

(** The record that the reference library makes of that row: the date
    before the cutoff is stored. *)
Example iso_1999_imported :
  Contribution.received_date
    <$> accepted (@parse_contribution_row ref_lib) sample_row_iso_1999
  = Some (Some "1999-12-31").
Proof. vm_compute. reflexivity. Qed.

(** ** Dates: the first ten characters *)

Lemma substring_full (n : nat) (s : string) :
  (String.length s <= n)%nat -> String.substring 0 n s = s.
Proof.
  revert n. induction s as [|c s IH]; intros n Hn.
  - destruct n; reflexivity.
  - destruct n as [|n]; [simpl in Hn; lia|].
    simpl. rewrite IH by (simpl in Hn; lia). reflexivity.
Qed.

Lemma substring_length_min (n : nat) (s : string) :
  String.length (String.substring 0 n s) = Nat.min n (String.length s).
Proof.
  revert n. induction s as [|c s IH]; intros n.
  - destruct n; reflexivity.
  - destruct n as [|n]; [reflexivity|]. simpl. rewrite IH. reflexivity.
Qed.

Lemma slice_idem (n : nat) (s : string) :
  Py.slice 0 n (Py.slice 0 n s) = Py.slice 0 n s.
Proof.
  unfold Py.slice. rewrite Nat.sub_0_r.
  apply substring_full. rewrite substring_length_min. lia.
Qed.

Section DateSlice.
Context `{L : PyLib}.

Lemma try_formats_slice (date_str : string) (fmts : list string) :
  try_formats (Py.slice 0 10 date_str) fmts = try_formats date_str fmts.
Proof.
  induction fmts as [|fmt fmts IH]; [reflexivity|].
  cbn [try_formats]. unfold try_format. rewrite slice_idem, IH. reflexivity.
Qed.

End DateSlice.

(** X16. [parse_date] reads no further than the tenth character: the
    date of a timestamp such as ["2024-01-15T10:30:00"] is that of
    ["2024-01-15"], and what follows the tenth character, a time or anything
    else, is never looked at. *)
Theorem parse_date_first_ten `{L : PyLib} (date_str : string) :
  parse_date date_str = parse_date (Py.slice 0 10 date_str)
  /\ (forall tail, Py.len date_str = 10%nat ->
                   parse_date (date_str +:+ tail) = parse_date date_str).
Proof.
  assert (forall s, parse_date s = parse_date (Py.slice 0 10 s)) as Hslice.
  { intros s. destruct (le_lt_dec (String.length s) 10) as [Hle|Hgt].
    - unfold Py.slice. rewrite Nat.sub_0_r, (substring_full 10 s Hle). reflexivity.
    - assert (Py.len (Py.slice 0 10 s) = 10%nat) as Hlen.
      { unfold Py.len, Py.slice. rewrite Nat.sub_0_r, substring_length_min. lia. }
      unfold parse_date. rewrite Hlen, try_formats_slice.
      assert (Py.truthy (Py.slice 0 10 s) = true) as ->.
      { apply truthy_true. intros Heq. rewrite Heq in Hlen. discriminate Hlen. }
      assert (Py.truthy s = true) as ->.
      { apply truthy_true. intros ->. simpl in Hgt. lia. }
      unfold Py.len.
      replace (String.length s <? 8)%nat with false
        by (symmetry; apply Nat.ltb_ge; lia).
      replace (String.length s =? 8)%nat with false
        by (symmetry; apply Nat.eqb_neq; lia).
      reflexivity. }
  split; [apply Hslice|].
  intros tail Hlen. rewrite (Hslice (date_str +:+ tail)).
  f_equal. unfold Py.slice, Py.len in *. rewrite Nat.sub_0_r.
  clear Hslice. revert Hlen. generalize 10%nat.
  induction date_str as [|c s IH]; intros n Hn.
  - simpl in Hn. subst n. destruct tail; reflexivity.
  - destruct n as [|n]; [discriminate|]. simpl in Hn.
    change (String c s +:+ tail) with (String c (s +:+ tail)).
    simpl. rewrite IH by lia. reflexivity.
Qed.

Lemma parse_date_first_ten_witness :
  @parse_date ref_lib ("2024-01-15" +:+ "T10:30:00")
  = @parse_date ref_lib "2024-01-15".
Proof.
  destruct (@parse_date_first_ten ref_lib "2024-01-15") as [_ H].
  apply H. reflexivity.
Defined.
